(** * SWDSMS backend: two stores and a one-way switch between them

    A shallow embedding of [server.js], the Express backend of the SWDSMS
    web application, together with the tables of [supabase_setup.sql], and
    of [migrate_to_supabase.js], the script that copies the JSON files into
    those tables.

    Definitions
    - [JSON]       : the documents of [data/users.json] and
                     [data/reports.json], [JSON.stringify (v, null, 2)] and
                     [JSON.parse].
    - [Regex]      : the case-insensitive patterns the [db*] helpers run
                     over the message of an error.
    - [Server]     : the process ([supabaseAvailable], the data directory,
                     the hosted tables, what the network and the disk will
                     do), [readJson], [writeJson], [disableSupabase],
                     [dbCreateUser], [dbFindUserByUsername], [dbCreateReport],
                     [dbGetReports] and the five route handlers.
    - [Async]      : the same helpers and handlers cut at every [await],
                     and a process with several requests in flight.
    - [Properties] : the predicates the theorems are stated with.
    - [Startup]    : [startServer] and its retries on the next port.
    - [Migration]  : [run] of the migration script, over any backend.
    - [ServerProperties], [MigrationProperties] : further predicates.

    Theorems
    - [JSONFacts]  : [JSON.parse (JSON.stringify (v, null, 2))] is [v].
    - [LocalStore] : reading and writing a collection file.
    - [Failover]   : the flag goes off and never on again.
    - [Interleaving] : the same with requests in flight together, in any
                     order of their turns.
    - [Evaluation], [Routing] : errors of the backend, login.
    - [Handlers]   : what signup, createReport and listUsers answer.
    - [Scenarios]  : runs of the whole process.
    - [Classification], [Inserts] : which messages the helpers take for
                     the end of the backend.
    - [Queries], [Accounts], [Reporting], [Listing] : requests that only
                     read; a signup followed by a login or by a listing of
                     the users, a report followed by a listing.
    - [Demotion], [Corruption], [Statuses] : a backend that goes away in
                     the middle of a request, a collection file that is not
                     an array, the status codes of the routes.
    - [Binding]    : the port the server comes up on.
    - [Migrating], [Migrated] : what the script sends, and the tables after
                     it.

    Conventions.  A JavaScript string is the list of its UTF-8 bytes.  A
    number is an integer (the numbers the service itself makes are
    [Date.now ()] and [bigserial] identifiers); a text that holds a fraction
    or an exponent is outside the fragment and [JSON.parse] gives no value
    for it.  An object is the list of its members in the order of the text,
    and reading a property takes the last member of that name, which is what
    a repeated key amounts to.  In [Server] requests are handled one at a
    time, each to its end; in [Async] they take turns at every [await]. *)

From Stdlib Require Import ZArith NArith List String Ascii Bool Lia.
From Stdlib Require Decimal DecimalN DecimalPos.
Import ListNotations.

Local Open Scope list_scope.

(** ** Characters and text *)

Definition text := list ascii.

Definition dquote : ascii := "034"%char.
Definition backslash : ascii := "092"%char.
Definition LF : ascii := "010"%char.
Definition SP : ascii := " "%char.

Definition chars (s : string) : text := list_ascii_of_string s.

Definition code (c : ascii) : N := N_of_ascii c.

Definition ascii_eqb (a b : ascii) : bool := Ascii.eqb a b.

Module JSON.

(** *** Values *)

#[local] Unset Elimination Schemes.
Inductive value : Type :=
| JNull
| JBool (b : bool)
| JNum (n : Z)
| JStr (s : string)
| JArr (items : list value)
| JObj (members : list (string * value)).

#[local] Set Elimination Schemes.

(** An induction principle that reaches the items of an array and the
    members of an object. *)
Section ValueInd.
Variable P : value -> Prop.
Hypothesis Hnull : P JNull.
Hypothesis Hbool : forall b, P (JBool b).
Hypothesis Hnum : forall n, P (JNum n).
Hypothesis Hstr : forall s, P (JStr s).
Hypothesis Harr : forall l, Forall P l -> P (JArr l).
Hypothesis Hobj : forall l, Forall (fun kv => P (snd kv)) l -> P (JObj l).

Fixpoint value_ind' (v : value) : P v :=
  match v with
  | JNull => Hnull
  | JBool b => Hbool b
  | JNum n => Hnum n
  | JStr s => Hstr s
  | JArr l =>
      Harr l ((fix go (l : list value) : Forall P l :=
               match l with
               | [] => Forall_nil P
               | x :: l' => Forall_cons x (value_ind' x) (go l')
               end) l)
  | JObj l =>
      Hobj l ((fix go (l : list (string * value))
               : Forall (fun kv => P (snd kv)) l :=
               match l with
               | [] => Forall_nil _
               | kv :: l' =>
                   Forall_cons kv
                     (match kv as p return P (snd p) with
                      | (_, x) => value_ind' x
                      end) (go l')
               end) l)
  end.
End ValueInd.

(** *** [JSON.stringify (v, null, 2)] *)

Definition hex_digit (n : N) : ascii :=
  if (n <? 10)%N then ascii_of_N (48 + n) else ascii_of_N (87 + n).

(** QuoteJSONString: the short escapes, [\u00xx] for the other control
    characters, every other byte as it is. *)
Definition escape_char (c : ascii) : text :=
  if ascii_eqb c dquote then [backslash; dquote]
  else if ascii_eqb c backslash then [backslash; backslash]
  else if ascii_eqb c "008" then [backslash; "b"%char]
  else if ascii_eqb c "012" then [backslash; "f"%char]
  else if ascii_eqb c "010" then [backslash; "n"%char]
  else if ascii_eqb c "013" then [backslash; "r"%char]
  else if ascii_eqb c "009" then [backslash; "t"%char]
  else if (code c <? 32)%N then
    [backslash; "u"%char; "0"%char; "0"%char;
     hex_digit (code c / 16); hex_digit (code c mod 16)]
  else [c].

Definition quote (s : string) : text :=
  dquote :: flat_map escape_char (chars s) ++ [dquote].

Fixpoint uint_digits (d : Decimal.uint) : text :=
  match d with
  | Decimal.Nil => []
  | Decimal.D0 d => "0"%char :: uint_digits d
  | Decimal.D1 d => "1"%char :: uint_digits d
  | Decimal.D2 d => "2"%char :: uint_digits d
  | Decimal.D3 d => "3"%char :: uint_digits d
  | Decimal.D4 d => "4"%char :: uint_digits d
  | Decimal.D5 d => "5"%char :: uint_digits d
  | Decimal.D6 d => "6"%char :: uint_digits d
  | Decimal.D7 d => "7"%char :: uint_digits d
  | Decimal.D8 d => "8"%char :: uint_digits d
  | Decimal.D9 d => "9"%char :: uint_digits d
  end.

Definition show_N (n : N) : text := uint_digits (N.to_uint n).

Definition show_Z (z : Z) : text :=
  match z with
  | Z0 => show_N 0
  | Zpos p => show_N (Npos p)
  | Zneg p => "-"%char :: show_N (Npos p)
  end.

(** A line break followed by the current indentation. *)
Definition nl (ind : nat) : text := LF :: repeat SP ind.

Fixpoint stringify_at (ind : nat) (v : value) {struct v} : text :=
  match v with
  | JNull => chars "null"
  | JBool true => chars "true"
  | JBool false => chars "false"
  | JNum n => show_Z n
  | JStr s => quote s
  | JArr [] => chars "[]"
  | JArr (x :: xs) =>
      "["%char :: nl (2 + ind) ++ stringify_at (2 + ind) x
      ++ (fix more (l : list value) : text :=
            match l with
            | [] => []
            | y :: l' =>
                ","%char :: nl (2 + ind) ++ stringify_at (2 + ind) y ++ more l'
            end) xs
      ++ nl ind ++ ["]"%char]
  | JObj [] => chars "{}"
  | JObj ((k, x) :: ms) =>
      "{"%char :: nl (2 + ind) ++ quote k ++ chars ": "
      ++ stringify_at (2 + ind) x
      ++ (fix more (l : list (string * value)) : text :=
            match l with
            | [] => []
            | (k', y) :: l' =>
                ","%char :: nl (2 + ind) ++ quote k' ++ chars ": "
                ++ stringify_at (2 + ind) y ++ more l'
            end) ms
      ++ nl ind ++ ["}"%char]
  end.

Definition stringify (v : value) : string :=
  string_of_list_ascii (stringify_at 0 v).

(** *** [JSON.parse] *)

Definition is_ws (c : ascii) : bool :=
  ascii_eqb c SP || ascii_eqb c "009" || ascii_eqb c "010" || ascii_eqb c "013".

Fixpoint skip_ws (s : text) : text :=
  match s with
  | c :: r => if is_ws c then skip_ws r else s
  | [] => []
  end.

Definition is_digit (c : ascii) : bool :=
  (48 <=? code c)%N && (code c <=? 57)%N.

Definition hex_val (c : ascii) : option N :=
  let n := code c in
  if (48 <=? n)%N && (n <=? 57)%N then Some (n - 48)%N
  else if (97 <=? n)%N && (n <=? 102)%N then Some (n - 87)%N
  else if (65 <=? n)%N && (n <=? 70)%N then Some (n - 55)%N
  else None.

Definition hex4 (a b c d : ascii) : option N :=
  match hex_val a, hex_val b, hex_val c, hex_val d with
  | Some x, Some y, Some z, Some w => Some (((x * 16 + y) * 16 + z) * 16 + w)%N
  | _, _, _, _ => None
  end.

(** The bytes of a code point (a lone surrogate takes the three-byte
    form as any other code point of that range would). *)
Definition utf8 (cp : N) : text :=
  if (cp <? 128)%N then [ascii_of_N cp]
  else if (cp <? 2048)%N then
    [ascii_of_N (192 + cp / 64); ascii_of_N (128 + cp mod 64)]
  else if (cp <? 65536)%N then
    [ascii_of_N (224 + cp / 4096); ascii_of_N (128 + (cp / 64) mod 64);
     ascii_of_N (128 + cp mod 64)]
  else
    [ascii_of_N (240 + cp / 262144); ascii_of_N (128 + (cp / 4096) mod 64);
     ascii_of_N (128 + (cp / 64) mod 64); ascii_of_N (128 + cp mod 64)].

Definition is_high_surrogate (u : N) : bool := (55296 <=? u)%N && (u <=? 56319)%N.
Definition is_low_surrogate (u : N) : bool := (56320 <=? u)%N && (u <=? 57343)%N.

(** The low half of a surrogate pair, when the text goes on with one. *)
Definition low_surrogate_ahead (s : text) : option (N * text) :=
  match s with
  | b :: u :: h1 :: h2 :: h3 :: h4 :: r =>
      if ascii_eqb b backslash && ascii_eqb u "u" then
        match hex4 h1 h2 h3 h4 with
        | Some lo => if is_low_surrogate lo then Some (lo, r) else None
        | None => None
        end
      else None
  | _ => None
  end.

Definition simple_escape (e : ascii) : option ascii :=
  if ascii_eqb e dquote then Some dquote
  else if ascii_eqb e backslash then Some backslash
  else if ascii_eqb e "/" then Some "/"%char
  else if ascii_eqb e "b" then Some "008"%char
  else if ascii_eqb e "f" then Some "012"%char
  else if ascii_eqb e "n" then Some "010"%char
  else if ascii_eqb e "r" then Some "013"%char
  else if ascii_eqb e "t" then Some "009"%char
  else None.

(** The characters of a string literal after its opening quote, up to
    and including the closing one. *)
Fixpoint string_body (s : text) {struct s} : option (text * text) :=
  match s with
  | [] => None
  | c :: r =>
      if ascii_eqb c dquote then Some ([], r)
      else if ascii_eqb c backslash then
        match r with
        | [] => None
        | e :: r1 =>
            if ascii_eqb e "u" then
              match r1 with
              | h1 :: h2 :: h3 :: h4 :: r2 =>
                  match hex4 h1 h2 h3 h4 with
                  | None => None
                  | Some u =>
                      match (if is_high_surrogate u
                             then low_surrogate_ahead r2 else None) with
                      | Some (lo, _) =>
                          (* the pair is six characters further on *)
                          match r2 with
                          | _ :: _ :: _ :: _ :: _ :: _ :: r3 =>
                              match string_body r3 with
                              | Some (cs, rest) =>
                                  Some (utf8 (65536 + (u - 55296) * 1024
                                              + (lo - 56320)) ++ cs, rest)
                              | None => None
                              end
                          | _ => None
                          end
                      | None =>
                          match string_body r2 with
                          | Some (cs, rest) => Some (utf8 u ++ cs, rest)
                          | None => None
                          end
                      end
                  end
              | _ => None
              end
            else
              match simple_escape e with
              | None => None
              | Some x =>
                  match string_body r1 with
                  | Some (cs, rest) => Some (x :: cs, rest)
                  | None => None
                  end
              end
        end
      else if (code c <? 32)%N then None
      else
        match string_body r with
        | Some (cs, rest) => Some (c :: cs, rest)
        | None => None
        end
  end.

Definition parse_string (s : text) : option (string * text) :=
  match string_body s with
  | Some (cs, rest) => Some (string_of_list_ascii cs, rest)
  | None => None
  end.

Fixpoint span_digits (s : text) : text * text :=
  match s with
  | c :: r =>
      if is_digit c then let (ds, rest) := span_digits r in (c :: ds, rest)
      else ([], s)
  | [] => ([], [])
  end.

Definition digit_cons (c : ascii) (d : Decimal.uint) : Decimal.uint :=
  match (code c - 48)%N with
  | 0%N => Decimal.D0 d
  | 1%N => Decimal.D1 d
  | 2%N => Decimal.D2 d
  | 3%N => Decimal.D3 d
  | 4%N => Decimal.D4 d
  | 5%N => Decimal.D5 d
  | 6%N => Decimal.D6 d
  | 7%N => Decimal.D7 d
  | 8%N => Decimal.D8 d
  | _ => Decimal.D9 d
  end.

Fixpoint digits_uint (ds : text) : Decimal.uint :=
  match ds with
  | [] => Decimal.Nil
  | c :: r => digit_cons c (digits_uint r)
  end.

Definition leading_zero (ds : text) : bool :=
  match ds with
  | c :: _ :: _ => ascii_eqb c "0"
  | _ => false
  end.

Definition starts_fraction_or_exponent (s : text) : bool :=
  match s with
  | c :: _ => ascii_eqb c "." || ascii_eqb c "e" || ascii_eqb c "E"
  | [] => false
  end.

(** [-? (0 | [1-9][0-9]* )], and nothing of a fraction or an exponent
    after it. *)
Definition parse_number (s : text) : option (value * text) :=
  let (neg, s1) :=
    match s with
    | c :: r => if ascii_eqb c "-" then (true, r) else (false, s)
    | [] => (false, s)
    end in
  let (ds, rest) := span_digits s1 in
  match ds with
  | [] => None
  | _ :: _ =>
      if leading_zero ds || starts_fraction_or_exponent rest then None
      else
        let n := Z.of_N (N.of_uint (digits_uint ds)) in
        Some (JNum (if neg then (- n)%Z else n), rest)
  end.

Fixpoint strip_prefix (p s : text) : option text :=
  match p, s with
  | [], _ => Some s
  | a :: p', b :: s' => if ascii_eqb a b then strip_prefix p' s' else None
  | _ :: _, [] => None
  end.

Definition keyword (kw : string) (v : value) (s : text) : option (value * text) :=
  match strip_prefix (chars kw) s with
  | Some rest => Some (v, rest)
  | None => None
  end.

Fixpoint parse_value (fuel : nat) (s : text) {struct fuel}
  : option (value * text) :=
  match fuel with
  | O => None
  | S fuel' =>
      match skip_ws s with
      | [] => None
      | c :: r =>
          if ascii_eqb c "[" then
            match skip_ws r with
            | c' :: r' =>
                if ascii_eqb c' "]" then Some (JArr [], r')
                else
                  match parse_elements fuel' r with
                  | Some (vs, rest) => Some (JArr vs, rest)
                  | None => None
                  end
            | [] => None
            end
          else if ascii_eqb c "{" then
            match skip_ws r with
            | c' :: r' =>
                if ascii_eqb c' "}" then Some (JObj [], r')
                else
                  match parse_members fuel' r with
                  | Some (ms, rest) => Some (JObj ms, rest)
                  | None => None
                  end
            | [] => None
            end
          else if ascii_eqb c dquote then
            match parse_string r with
            | Some (str, rest) => Some (JStr str, rest)
            | None => None
            end
          else if ascii_eqb c "t" then keyword "true" (JBool true) (c :: r)
          else if ascii_eqb c "f" then keyword "false" (JBool false) (c :: r)
          else if ascii_eqb c "n" then keyword "null" JNull (c :: r)
          else parse_number (c :: r)
      end
  end

(** [value (, value)* ]] *)
with parse_elements (fuel : nat) (s : text) {struct fuel}
  : option (list value * text) :=
  match fuel with
  | O => None
  | S fuel' =>
      match parse_value fuel' s with
      | None => None
      | Some (v, r) =>
          match skip_ws r with
          | c :: r' =>
              if ascii_eqb c "," then
                match parse_elements fuel' r' with
                | Some (vs, rest) => Some (v :: vs, rest)
                | None => None
                end
              else if ascii_eqb c "]" then Some ([v], r')
              else None
          | [] => None
          end
      end
  end

(** [string : value (, string : value)* }] *)
with parse_members (fuel : nat) (s : text) {struct fuel}
  : option (list (string * value) * text) :=
  match fuel with
  | O => None
  | S fuel' =>
      match skip_ws s with
      | q :: r0 =>
          if ascii_eqb q dquote then
            match parse_string r0 with
            | None => None
            | Some (k, r1) =>
                match skip_ws r1 with
                | colon :: r2 =>
                    if ascii_eqb colon ":" then
                      match parse_value fuel' r2 with
                      | None => None
                      | Some (v, r3) =>
                          match skip_ws r3 with
                          | c :: r4 =>
                              if ascii_eqb c "," then
                                match parse_members fuel' r4 with
                                | Some (ms, rest) => Some ((k, v) :: ms, rest)
                                | None => None
                                end
                              else if ascii_eqb c "}" then Some ([(k, v)], r4)
                              else None
                          | [] => None
                          end
                      end
                    else None
                | [] => None
                end
            end
          else None
      | [] => None
      end
  end.

(** A whole text: one value, then white space only. *)
Definition parse (txt : string) : option value :=
  let s := chars txt in
  match parse_value (S (List.length s)) s with
  | Some (v, rest) =>
      match skip_ws rest with
      | [] => Some v
      | _ :: _ => None
      end
  | None => None
  end.

(** *** Measures and shapes used to reason about the codec *)

(** What may follow a number: not a digit, and nothing that would go on
    as a fraction or an exponent. *)
Definition ends_number (rest : text) : bool :=
  match rest with
  | [] => true
  | c :: _ => negb (is_digit c) && negb (starts_fraction_or_exponent rest)
  end.

Fixpoint more_items (ind : nat) (l : list value) : text :=
  match l with
  | [] => []
  | y :: l' => ","%char :: nl ind ++ stringify_at ind y ++ more_items ind l'
  end.

Fixpoint more_members (ind : nat) (l : list (string * value)) : text :=
  match l with
  | [] => []
  | (k, y) :: l' =>
      ","%char :: nl ind ++ quote k ++ chars ": "
      ++ stringify_at ind y ++ more_members ind l'
  end.

Fixpoint size (v : value) : nat :=
  match v with
  | JArr l =>
      S ((fix sum (l : list value) : nat :=
            match l with
            | [] => 0
            | x :: l' => S (size x) + sum l'
            end) l)
  | JObj l =>
      S ((fix sum (l : list (string * value)) : nat :=
            match l with
            | [] => 0
            | (_, x) :: l' => S (size x) + sum l'
            end) l)
  | _ => 1
  end.

Fixpoint items_size (l : list value) : nat :=
  match l with
  | [] => 0
  | x :: l' => S (size x) + items_size l'
  end.

Fixpoint members_size (l : list (string * value)) : nat :=
  match l with
  | [] => 0
  | (_, x) :: l' => S (size x) + members_size l'
  end.

(** The first character of a printed value: no white space and no closing
    bracket. *)
Definition opens_value (c : ascii) : bool :=
  negb (is_ws c) && negb (ascii_eqb c "]") && negb (ascii_eqb c "}").

Definition reads_back (v : value) : Prop :=
  forall (ind fuel : nat) (rest : text),
    size v < fuel -> ends_number rest = true ->
    parse_value fuel (stringify_at ind v ++ rest) = Some (v, rest).

End JSON.

(** ** The patterns of the [db*] helpers *)

Module Regex.

(** One position of a pattern: a literal character, compared without
    regard to case ([/i]), or the dot. *)
Inductive item : Type :=
| Lit (c : ascii)
| Dot.

Definition pattern := list item.

Definition lit (s : string) : pattern := map Lit (chars s).

(** Case folding touches the 26 letters only: no character outside ASCII
    is canonicalised onto one inside it. *)
Definition fold_case (c : ascii) : ascii :=
  if (65 <=? code c)%N && (code c <=? 90)%N
  then ascii_of_N (code c + 32) else c.

(** The dot takes one UTF-16 code unit that is not a line terminator:
    in UTF-8 a sequence of one, two or three bytes other than LF, CR,
    U+2028 and U+2029.  A four-byte sequence is two code units, and no
    literal of these patterns matches its second half. *)
Definition dot (s : text) : option text :=
  match s with
  | [] => None
  | a :: r =>
      let n := code a in
      if (n <? 128)%N then
        if (n =? 10)%N || (n =? 13)%N then None else Some r
      else if (n <? 224)%N then
        match r with
        | _ :: r' => Some r'
        | [] => None
        end
      else if (n <? 240)%N then
        match r with
        | b :: c :: r' =>
            if (n =? 226)%N && (code b =? 128)%N
               && ((code c =? 168)%N || (code c =? 169)%N)
            then None else Some r'
        | _ => None
        end
      else None
  end.

Fixpoint match_here (p : pattern) (s : text) {struct p} : bool :=
  match p with
  | [] => true
  | Lit c :: p' =>
      match s with
      | a :: r => ascii_eqb (fold_case a) (fold_case c) && match_here p' r
      | [] => false
      end
  | Dot :: p' =>
      match dot s with
      | Some r => match_here p' r
      | None => false
      end
  end.

Fixpoint search (p : pattern) (s : text) {struct s} : bool :=
  match_here p s ||
  match s with
  | [] => false
  | _ :: r => search p r
  end.

(** [/a|b|c/i.test (msg)] *)
Definition test (alternatives : list pattern) (msg : string) : bool :=
  existsb (fun p => search p (chars msg)) alternatives.

Definition table_not_found : pattern := lit "Could not find the table".
Definition rls_rejection : pattern := lit "row-level security policy".

(** [relation \"public\.T\" does not exist]: the escaped dot is a
    literal dot. *)
Definition relation_missing (table : string) : pattern :=
  lit "relation " ++ [Lit dquote] ++ lit "public" ++ [Lit "."%char]
  ++ lit table ++ [Lit dquote] ++ lit " does not exist".

(** [relation \"public\\.T\" does not exist]: here the backslash is
    the escaped character, so the pattern asks for a backslash and then
    any one character. *)
Definition relation_missing_backslash (table : string) : pattern :=
  lit "relation " ++ [Lit dquote] ++ lit "public" ++ [Lit backslash; Dot]
  ++ lit table ++ [Lit dquote] ++ lit " does not exist".

(** The literal of [dbCreateUser]. *)
Definition dbCreateUser_re : list pattern :=
  [table_not_found; relation_missing_backslash "users"; rls_rejection].

(** The literal of [dbFindUserByUsername]. *)
Definition dbFindUserByUsername_re : list pattern :=
  [table_not_found; relation_missing "users"; rls_rejection].

(** The literal of [dbCreateReport]. *)
Definition dbCreateReport_re : list pattern :=
  [table_not_found; relation_missing_backslash "reports"; rls_rejection].

(** The literal of [dbGetReports]. *)
Definition dbGetReports_re : list pattern :=
  [table_not_found; relation_missing "reports"; rls_rejection].

End Regex.

(** ** The server *)

Module Server.
Import JSON.

Local Open Scope string_scope.

(** *** Values at run time *)

Record Error : Type := mkError { message : string }.

(** How an evaluation ends: with a value, or with a thrown error. *)
Inductive Completion (A : Type) : Type :=
| Normal (a : A)
| Thrown (e : Error).
Arguments Normal {A} a.
Arguments Thrown {A} e.

Definition truthy (v : value) : bool :=
  match v with
  | JNull => false
  | JBool b => b
  | JNum n => negb (n =? 0)%Z
  | JStr s => negb (String.eqb s EmptyString)
  | JArr _ | JObj _ => true
  end.

(** [undefined] is [None]. *)
Definition truthy_opt (v : option value) : bool :=
  match v with
  | Some v => truthy v
  | None => false
  end.

(** [a || b] *)
Definition or_else (a b : option value) : option value :=
  if truthy_opt a then a else b.

(** The last member of that name. *)
Fixpoint lookup (k : string) (ms : list (string * value)) : option value :=
  match ms with
  | [] => None
  | (k', v) :: ms' =>
      match lookup k ms' with
      | Some v' => Some v'
      | None => if String.eqb k' k then Some v else None
      end
  end.

(** [v.k]: a [TypeError] on [null], the own property of an object, and
    [undefined] on anything else (none of the names read by the handlers
    is a property of a string, a number, a boolean or an array). *)
Definition get (k : string) (v : value) : Completion (option value) :=
  match v with
  | JNull =>
      Thrown (mkError ("Cannot read properties of null (reading '" ++ k ++ "')"))
  | JObj ms => Normal (lookup k ms)
  | _ => Normal None
  end.

(** [x === s] for a string [s]. *)
Definition is_string (s : string) (x : option value) : bool :=
  match x with
  | Some (JStr t) => String.eqb t s
  | _ => false
  end.

(** An object literal; a property whose value is [undefined] does not
    reach the JSON text of a response. *)
Fixpoint object (ms : list (string * option value)) : list (string * value) :=
  match ms with
  | [] => []
  | (k, Some v) :: ms' => (k, v) :: object ms'
  | (_, None) :: ms' => object ms'
  end.

(** [l.find (f)] for a callback that may throw. *)
Fixpoint find (f : value -> Completion bool) (l : list value)
  : Completion (option value) :=
  match l with
  | [] => Normal None
  | x :: l' =>
      match f x with
      | Thrown e => Thrown e
      | Normal true => Normal (Some x)
      | Normal false => find f l'
      end
  end.

(** [l.map (f)] for a callback that may throw. *)
Fixpoint map_throwing (f : value -> Completion value) (l : list value)
  : Completion (list value) :=
  match l with
  | [] => Normal []
  | x :: l' =>
      match f x with
      | Thrown e => Thrown e
      | Normal y =>
          match map_throwing f l' with
          | Thrown e => Thrown e
          | Normal ys => Normal (y :: ys)
          end
      end
  end.

(** The receiver of an array method: anything but an array has no such
    method. *)
Definition array_method (receiver method : string) (v : value)
  : Completion (list value) :=
  match v with
  | JArr l => Normal l
  | JNull =>
      Thrown (mkError ("Cannot read properties of null (reading '"
                       ++ method ++ "')"))
  | _ => Thrown (mkError (receiver ++ "." ++ method ++ " is not a function"))
  end.

(** *** The data directory *)

Inductive File : Type := USERS_FILE | REPORTS_FILE.

(** The two files of [DATA_DIR]; [None] for a file that is not there. *)
Record Dir : Type := mkDir { users_json : option string; reports_json : option string }.

Definition file (f : File) (d : Dir) : option string :=
  match f with
  | USERS_FILE => users_json d
  | REPORTS_FILE => reports_json d
  end.

Definition put (f : File) (txt : string) (d : Dir) : Dir :=
  match f with
  | USERS_FILE => mkDir (Some txt) (reports_json d)
  | REPORTS_FILE => mkDir (users_json d) (Some txt)
  end.

(** How a write ends: all of the text reaches the file, or the write
    fails once [n] bytes are in it. *)
Inductive Write : Type :=
| Completes
| Stops (n : nat).

(** *** The hosted tables ([supabase_setup.sql]) *)

Module users.
Record row : Type := mkRow {
  id : Z;                   (* bigserial primary key *)
  full_name : string;       (* text not null *)
  username : string;        (* text not null unique *)
  email : string;           (* text not null *)
  account_type : string;    (* text not null *)
  password : string;        (* text not null *)
  created_at : Z            (* timestamptz default now () *)
}.
End users.

Module reports.
Record row : Type := mkRow {
  id : Z;                   (* bigserial primary key *)
  name : option string;     (* text *)
  grade : option string;    (* text *)
  type : string;            (* text not null *)
  description : string;     (* text not null *)
  incident_date : string;   (* date not null *)
  created_at : Z            (* timestamptz default now () *)
}.
End reports.

(** The objects handed to [insert]. *)
Module new_user.
Record t : Type := make {
  full_name : string; username : string; email : string;
  account_type : string; password : string }.
End new_user.

Module new_report.
Record t : Type := make {
  name : string; grade : string; type : string;
  description : string; incident_date : string }.
End new_report.

Record Backend : Type := mkBackend {
  users_table : list users.row;
  users_id_seq : Z;
  reports_table : list reports.row;
  reports_id_seq : Z }.

(** A timestamp travels as a number (milliseconds), an absent text as
    [null]. *)
Definition nullable (s : option string) : value :=
  match s with
  | Some s => JStr s
  | None => JNull
  end.

Definition users_json_row (r : users.row) : value :=
  JObj [("id", JNum (users.id r));
        ("full_name", JStr (users.full_name r));
        ("username", JStr (users.username r));
        ("email", JStr (users.email r));
        ("account_type", JStr (users.account_type r));
        ("password", JStr (users.password r));
        ("created_at", JNum (users.created_at r))].

Definition reports_json_row (r : reports.row) : value :=
  JObj [("id", JNum (reports.id r));
        ("name", nullable (reports.name r));
        ("grade", nullable (reports.grade r));
        ("type", JStr (reports.type r));
        ("description", JStr (reports.description r));
        ("incident_date", JStr (reports.incident_date r));
        ("created_at", JNum (reports.created_at r))].

(** [select ('c1, c2, ...')]: the named columns of a row, in that order. *)
Definition select (columns : list string) (r : value) : value :=
  match r with
  | JObj ms => JObj (object (map (fun c => (c, lookup c ms)) columns))
  | _ => r
  end.

(** [order (key, { ascending: false })] *)
Fixpoint insert_desc {A : Type} (key : A -> Z) (x : A) (l : list A) : list A :=
  match l with
  | [] => [x]
  | y :: l' => if (key y <? key x)%Z then x :: l else y :: insert_desc key x l'
  end.

Definition order_desc {A : Type} (key : A -> Z) (l : list A) : list A :=
  fold_right (insert_desc key) [] l.

(** [{ data, error }] *)
Inductive Reply : Type :=
| Data (rows : list value)
| Failure (e : Error).

(** The requests the server sends. *)
Inductive Call : Type :=
| users_insert (u : new_user.t)             (* from('users').insert([u]).select() *)
| users_select_eq (username : string)       (* ...select('*').eq('username', u).limit(1) *)
| users_select_listing                      (* ...select('id, ...').order('created_at', desc) *)
| reports_insert (r : new_report.t)         (* from('reports').insert([r]).select() *)
| reports_select_ordered.                   (* ...select('*').order('created_at', desc) *)

Definition unique_violation : Error :=
  mkError ("duplicate key value violates unique constraint "
           ++ String dquote "users_username_key" ++ String dquote EmptyString).

Definition listing_columns : list string :=
  ["id"; "full_name"; "username"; "email"; "account_type"; "created_at"].

(** What the tables answer at time [now], and what becomes of them.  A
    sequence hands out its value whether or not the row goes in. *)
Definition answer (c : Call) (now : Z) (db : Backend) : Reply * Backend :=
  match c with
  | users_insert u =>
      let id := (users_id_seq db + 1)%Z in
      if existsb (fun r => String.eqb (users.username r) (new_user.username u))
                 (users_table db)
      then (Failure unique_violation,
            mkBackend (users_table db) id (reports_table db) (reports_id_seq db))
      else
        let r := users.mkRow id (new_user.full_name u) (new_user.username u)
                   (new_user.email u) (new_user.account_type u)
                   (new_user.password u) now in
        (Data [users_json_row r],
         mkBackend (users_table db ++ [r]) id (reports_table db) (reports_id_seq db))
  | users_select_eq name =>
      (Data (map users_json_row
               (firstn 1 (filter (fun r => String.eqb (users.username r) name)
                                 (users_table db)))), db)
  | users_select_listing =>
      (Data (map (fun r => select listing_columns (users_json_row r))
               (order_desc users.created_at (users_table db))), db)
  | reports_insert p =>
      let id := (reports_id_seq db + 1)%Z in
      let r := reports.mkRow id (Some (new_report.name p)) (Some (new_report.grade p))
                 (new_report.type p) (new_report.description p)
                 (new_report.incident_date p) now in
      (Data [reports_json_row r],
       mkBackend (users_table db) (users_id_seq db) (reports_table db ++ [r]) id)
  | reports_select_ordered =>
      (Data (map reports_json_row (order_desc reports.created_at (reports_table db))),
       db)
  end.

(** How a request to the backend ends: it is answered from the tables, or
    it comes back with an error of the given message (a table that was
    never created, a policy, the network, ...). *)
Inductive Outcome : Type :=
| Served
| Refused (msg : string).

(** *** The process and its surroundings *)

Inductive Event : Type :=
| Supabase (c : Call)
| ReadFile (f : File)
| Mkdir
| WriteFile (f : File) (txt : string)
| ConsoleWarn (line : string)
| ConsoleError (e : Error).

Record World : Type := mkWorld {
  supabaseAvailable : bool;     (* let supabaseAvailable *)
  data : option Dir;            (* DATA_DIR, when it exists *)
  backend : Backend;            (* the hosted tables *)
  clock : Z;                    (* Date.now () and now () *)
  network : list Outcome;       (* how the coming requests end *)
  storage : list Write;         (* how the coming writes end *)
  trace : list Event            (* what happened so far, latest first *)
}.

Definition set_supabaseAvailable (b : bool) (w : World) : World :=
  mkWorld b (data w) (backend w) (clock w) (network w) (storage w) (trace w).
Definition set_data (d : option Dir) (w : World) : World :=
  mkWorld (supabaseAvailable w) d (backend w) (clock w) (network w) (storage w) (trace w).
Definition set_backend (db : Backend) (w : World) : World :=
  mkWorld (supabaseAvailable w) (data w) db (clock w) (network w) (storage w) (trace w).
Definition set_clock (t : Z) (w : World) : World :=
  mkWorld (supabaseAvailable w) (data w) (backend w) t (network w) (storage w) (trace w).
Definition set_network (n : list Outcome) (w : World) : World :=
  mkWorld (supabaseAvailable w) (data w) (backend w) (clock w) n (storage w) (trace w).
Definition set_storage (s : list Write) (w : World) : World :=
  mkWorld (supabaseAvailable w) (data w) (backend w) (clock w) (network w) s (trace w).
Definition log (e : Event) (w : World) : World :=
  mkWorld (supabaseAvailable w) (data w) (backend w) (clock w) (network w) (storage w)
          (e :: trace w).

(** *** Asynchronous code: a state and error monad over the world *)

Definition M (A : Type) : Type := World -> Completion A * World.

Definition ret {A : Type} (a : A) : M A := fun w => (Normal a, w).

Definition throw {A : Type} (e : Error) : M A := fun w => (Thrown e, w).

Definition bind {A B : Type} (m : M A) (k : A -> M B) : M B :=
  fun w =>
    match m w with
    | (Normal a, w') => k a w'
    | (Thrown e, w') => (Thrown e, w')
    end.

(** [try { m } catch (err) { h err }] *)
Definition try_catch {A : Type} (m : M A) (h : Error -> M A) : M A :=
  fun w =>
    match m w with
    | (Normal a, w') => (Normal a, w')
    | (Thrown e, w') => h e w'
    end.

Definition lift {A : Type} (c : Completion A) : M A := fun w => (c, w).

Declare Scope js_scope.
Delimit Scope js_scope with js.
Notation "x <- m ;; k" := (bind m (fun x => k))
  (at level 61, m at next level, right associativity) : js_scope.
Notation "m ;;; k" := (bind m (fun _ => k))
  (at level 61, right associativity) : js_scope.
Local Open Scope js_scope.

Definition read_supabaseAvailable : M bool :=
  fun w => (Normal (supabaseAvailable w), w).

(** [supabaseAvailable = false] *)
Definition clear_supabaseAvailable : M unit :=
  fun w => (Normal tt, set_supabaseAvailable false w).

Definition console_warn (line : string) : M unit :=
  fun w => (Normal tt, log (ConsoleWarn line) w).

Definition console_error (e : Error) : M unit :=
  fun w => (Normal tt, log (ConsoleError e) w).

Definition Date_now : M Z := fun w => (Normal (clock w), w).

(** [fs.readFile (file, 'utf8')] *)
Definition fs_readFile (f : File) : M string :=
  fun w =>
    let w := log (ReadFile f) w in
    match data w with
    | Some d =>
        match file f d with
        | Some txt => (Normal txt, w)
        | None => (Thrown (mkError "ENOENT: no such file or directory"), w)
        end
    | None => (Thrown (mkError "ENOENT: no such file or directory"), w)
    end.

(** [fs.mkdir (DATA_DIR, { recursive: true })] *)
Definition fs_mkdir : M unit :=
  fun w =>
    let w := log Mkdir w in
    match data w with
    | Some _ => (Normal tt, w)
    | None => (Normal tt, set_data (Some (mkDir None None)) w)
    end.

Definition prefix (n : nat) (txt : string) : string :=
  string_of_list_ascii (firstn n (chars txt)).

(** [fs.writeFile (file, txt, 'utf8')]: the file is opened for writing,
    which empties it, and the text goes in from the start. *)
Definition fs_writeFile (f : File) (txt : string) : M unit :=
  fun w =>
    let w := log (WriteFile f txt) w in
    match data w with
    | None => (Thrown (mkError "ENOENT: no such file or directory"), w)
    | Some d =>
        match storage w with
        | Stops n :: later =>
            (Thrown (mkError "write failed"),
             set_storage later (set_data (Some (put f (prefix n txt) d)) w))
        | Completes :: later =>
            (Normal tt, set_storage later (set_data (Some (put f txt d)) w))
        | [] => (Normal tt, set_data (Some (put f txt d)) w)
        end
    end.

(** One request to the backend and its [{ data, error }]. *)
Definition supabase (c : Call) : M Reply :=
  fun w =>
    let w := log (Supabase c) w in
    match network w with
    | Refused msg :: later => (Normal (Failure (mkError msg)), set_network later w)
    | Served :: later =>
        let (r, db) := answer c (clock w) (backend w) in
        (Normal r, set_backend db (set_network later w))
    | [] =>
        let (r, db) := answer c (clock w) (backend w) in
        (Normal r, set_backend db w)
    end.

(** [const { data, error } = await ...; if (error) throw error;] *)
Definition data_or_throw (c : Call) : M (list value) :=
  r <- supabase c ;;
  match r with
  | Failure e => throw e
  | Data rows => ret rows
  end.

(** Reading a property in asynchronous code. *)
Definition prop (k : string) (v : value) : M (option value) := lift (get k v).

(** *** The local store *)

(** [async function readJson (file, fallback = [])] *)
Definition readJson (file : File) (fallback : value) : M value :=
  try_catch
    (txt <- fs_readFile file ;;
     match JSON.parse (if String.eqb txt EmptyString then "[]" else txt) with
     | Some v => ret v
     | None => throw (mkError "Unexpected token in JSON")
     end)
    (fun _ => ret fallback).

(** [async function writeJson (file, data)] *)
Definition writeJson (file : File) (data : value) : M unit :=
  fs_mkdir ;;;
  fs_writeFile file (JSON.stringify data).

(** *** The helpers around the backend *)

(** [function disableSupabase (reason)] *)
Definition disableSupabase (reason : string) : M unit :=
  clear_supabaseAvailable ;;;
  console_warn ("Disabling Supabase integration — " ++ reason).

(** The [catch] block shared by the four helpers: an error whose message
    the pattern finds turns the backend off and gives [null], any other is
    thrown again. *)
Definition unavailable_or_rethrow {A : Type} (re : list Regex.pattern)
           (err : Error) : M (option A) :=
  if Regex.test re (message err)
  then disableSupabase (message err) ;;; ret None
  else throw err.

(** [async function dbCreateUser (user)] *)
Definition dbCreateUser (user : new_user.t) : M (option value) :=
  available <- read_supabaseAvailable ;;
  if negb available then ret None
  else
    try_catch
      (rows <- data_or_throw (users_insert user) ;;
       ret (hd_error rows))
      (unavailable_or_rethrow Regex.dbCreateUser_re).

(** [async function dbFindUserByUsername (username)] *)
Definition dbFindUserByUsername (username : string) : M (option value) :=
  available <- read_supabaseAvailable ;;
  if negb available then ret None
  else
    try_catch
      (rows <- data_or_throw (users_select_eq username) ;;
       ret (or_else (hd_error rows) None))
      (unavailable_or_rethrow Regex.dbFindUserByUsername_re).

(** [async function dbCreateReport (report)] *)
Definition dbCreateReport (report : new_report.t) : M (option value) :=
  available <- read_supabaseAvailable ;;
  if negb available then ret None
  else
    try_catch
      (rows <- data_or_throw (reports_insert report) ;;
       ret (hd_error rows))
      (unavailable_or_rethrow Regex.dbCreateReport_re).

(** [async function dbGetReports ()] *)
Definition dbGetReports : M (option (list value)) :=
  available <- read_supabaseAvailable ;;
  if negb available then ret None
  else
    try_catch
      (rows <- data_or_throw reports_select_ordered ;;
       ret (Some rows))
      (unavailable_or_rethrow Regex.dbGetReports_re).

(** *** Requests and responses *)

Record Response : Type := mkResponse { status : nat; body : value }.

(** [res.json (v)] *)
Definition json (v : value) : Response := mkResponse 200 v.

(** [res.status (n).json ({ error: msg })] *)
Definition refuse (n : nat) (msg : string) : Response :=
  mkResponse n (JObj [("error", JStr msg)]).

(** A field of a request body that is there and not the empty string. *)
Definition nonempty (x : option string) : option string :=
  match x with
  | Some s => if String.eqb s EmptyString then None else Some s
  | None => None
  end.

(** [x || d] for a field of a request body. *)
Definition default (d : string) (x : option string) : string :=
  match nonempty x with
  | Some s => s
  | None => d
  end.

Module SignupBody.
Record t : Type := make {
  fullName : option string; username : option string; email : option string;
  accountType : option string; password : option string }.
End SignupBody.

Module LoginBody.
Record t : Type := make {
  username : option string; password : option string;
  accountType : option string }.
End LoginBody.

Module ReportBody.
Record t : Type := make {
  name : option string; grade : option string; type : option string;
  description : option string; date : option string }.
End ReportBody.

(** The [catch] block of every handler. *)
Definition server_error (err : Error) : M Response :=
  console_error err ;;;
  ret (refuse 500 (if String.eqb (message err) EmptyString
                   then "Server error" else message err)).

(** The payload of a successful signup or login. *)
Definition success_user (id username accountType : option value) : Response :=
  json (JObj [("success", JBool true);
              ("user", JObj (object [("id", id); ("username", username);
                                     ("accountType", accountType)]))]).

(** The callback of a [find]: the steps of a conjunction in order. *)
Definition cbind {A B : Type} (c : Completion A) (k : A -> Completion B)
  : Completion B :=
  match c with
  | Normal a => k a
  | Thrown e => Thrown e
  end.

(** *** [app.post ('/api/signup', ...)] *)

(** The block under [if (supabaseAvailable)]: [Some] response when the
    handler returns from inside it. *)
Definition signup_supabase (fullName username email accountType password : string)
  : M (option Response) :=
  existing <- dbFindUserByUsername username ;;
  if truthy_opt existing then ret (Some (refuse 409 "Username already exists"))
  else
    inserted <- dbCreateUser
                  (new_user.make fullName username email accountType password) ;;
    match inserted with
    | Some row =>
        if truthy row then
          id <- prop "id" row ;;
          name <- prop "username" row ;;
          type <- prop "account_type" row ;;
          ret (Some (success_user id name type))
        else ret None
    | None => ret None
    end.

(** [u => u.username === username] *)
Definition username_is (username : string) (u : value) : Completion bool :=
  cbind (get "username" u) (fun x => Normal (is_string username x)).

(** The fallback on the JSON file. *)
Definition signup_local (fullName username email accountType password : string)
  : M Response :=
  users <- readJson USERS_FILE (JArr []) ;;
  l <- lift (array_method "users" "find" users) ;;
  taken <- lift (find (username_is username) l) ;;
  if truthy_opt taken then ret (refuse 409 "Username already exists")
  else
    now <- Date_now ;;
    let newUser :=
      JObj [("id", JNum now); ("fullName", JStr fullName);
            ("username", JStr username); ("email", JStr email);
            ("accountType", JStr accountType); ("password", JStr password)] in
    writeJson USERS_FILE (JArr (l ++ [newUser])) ;;;
    ret (success_user (Some (JNum now)) (Some (JStr username))
                      (Some (JStr accountType))).

Definition signup (req : SignupBody.t) : M Response :=
  match nonempty (SignupBody.fullName req), nonempty (SignupBody.username req),
        nonempty (SignupBody.email req), nonempty (SignupBody.accountType req),
        nonempty (SignupBody.password req) with
  | Some fullName, Some username, Some email, Some accountType, Some password =>
      try_catch
        (available <- read_supabaseAvailable ;;
         returned <- (if available
                      then signup_supabase fullName username email accountType password
                      else ret None) ;;
         match returned with
         | Some res => ret res
         | None => signup_local fullName username email accountType password
         end)
        server_error
  | _, _, _, _, _ => ret (refuse 400 "Missing required fields")
  end.

(** *** [app.post ('/api/login', ...)] *)

Definition login_supabase (username password accountType : string)
  : M (option Response) :=
  user <- dbFindUserByUsername username ;;
  match user with
  | Some row =>
      if truthy row then
        pw <- prop "password" row ;;
        type <- prop "account_type" row ;;
        if is_string password pw && is_string accountType type then
          id <- prop "id" row ;;
          name <- prop "username" row ;;
          ret (Some (success_user id name type))
        else if negb (is_string password pw) || negb (is_string accountType type)
        then ret (Some (refuse 401 "Invalid credentials"))
        else ret None
      else ret None
  | None => ret None
  end.

Definition login_local (username password accountType : string) : M Response :=
  users <- readJson USERS_FILE (JArr []) ;;
  l <- lift (array_method "users" "find" users) ;;
  user <- lift (find (fun u =>
                        cbind (get "username" u) (fun x =>
                        if is_string username x then
                          cbind (get "password" u) (fun y =>
                          if is_string password y then
                            cbind (get "accountType" u) (fun z =>
                            Normal (is_string accountType z))
                          else Normal false)
                        else Normal false)) l) ;;
  match user with
  | Some u =>
      if truthy u then
        id <- prop "id" u ;;
        name <- prop "username" u ;;
        type <- prop "accountType" u ;;
        ret (success_user id name type)
      else ret (refuse 401 "Invalid credentials")
  | None => ret (refuse 401 "Invalid credentials")
  end.

Definition login (req : LoginBody.t) : M Response :=
  match nonempty (LoginBody.username req), nonempty (LoginBody.password req),
        nonempty (LoginBody.accountType req) with
  | Some username, Some password, Some accountType =>
      try_catch
        (available <- read_supabaseAvailable ;;
         returned <- (if available
                      then login_supabase username password accountType
                      else ret None) ;;
         match returned with
         | Some res => ret res
         | None => login_local username password accountType
         end)
        server_error
  | _, _, _ => ret (refuse 400 "Missing fields")
  end.

(** *** [app.post ('/api/reports', ...)] *)

Definition createReport_supabase (name grade : option string)
           (type description date : string) : M (option Response) :=
  inserted <- dbCreateReport
                (new_report.make (default "Anonymous" name) (default EmptyString grade)
                                 type description date) ;;
  match inserted with
  | Some row =>
      if truthy row
      then ret (Some (json (JObj [("success", JBool true); ("report", row)])))
      else ret None
  | None => ret None
  end.

Definition createReport_local (name grade : option string)
           (type description date : string) : M Response :=
  reports <- readJson REPORTS_FILE (JArr []) ;;
  now <- Date_now ;;
  let newReport :=
    JObj [("id", JNum now); ("name", JStr (default "Anonymous" name));
          ("grade", JStr (default EmptyString grade)); ("type", JStr type);
          ("description", JStr description); ("date", JStr date)] in
  l <- lift (array_method "reports" "unshift" reports) ;;
  writeJson REPORTS_FILE (JArr (newReport :: l)) ;;;
  ret (json (JObj [("success", JBool true); ("report", newReport)])).

Definition createReport (req : ReportBody.t) : M Response :=
  match nonempty (ReportBody.type req), nonempty (ReportBody.description req),
        nonempty (ReportBody.date req) with
  | Some type, Some description, Some date =>
      let name := ReportBody.name req in
      let grade := ReportBody.grade req in
      try_catch
        (available <- read_supabaseAvailable ;;
         returned <- (if available
                      then createReport_supabase name grade type description date
                      else ret None) ;;
         match returned with
         | Some res => ret res
         | None => createReport_local name grade type description date
         end)
        server_error
  | _, _, _ => ret (refuse 400 "Missing required report fields")
  end.

(** *** [app.get ('/api/reports', ...)] *)

(** [r => ({ id: r.id, ..., date: r.incident_date || r.date, ... })] *)
Definition report_for_frontend (r : value) : Completion value :=
  cbind (get "id" r) (fun id =>
  cbind (get "name" r) (fun name =>
  cbind (get "grade" r) (fun grade =>
  cbind (get "type" r) (fun type =>
  cbind (get "description" r) (fun description =>
  cbind (get "incident_date" r) (fun incident_date =>
  cbind (get "date" r) (fun date =>
  cbind (get "created_at" r) (fun created_at =>
  Normal (JObj (object [("id", id); ("name", name); ("grade", grade);
                        ("type", type); ("description", description);
                        ("date", or_else incident_date date);
                        ("created_at", created_at)])))))))))).

Definition listReports_supabase : M (option Response) :=
  rows <- dbGetReports ;;
  match rows with
  | Some rows =>
      mapped <- lift (map_throwing report_for_frontend rows) ;;
      ret (Some (json (JArr mapped)))
  | None => ret None
  end.

Definition listReports_local : M Response :=
  reports <- readJson REPORTS_FILE (JArr []) ;;
  ret (json reports).

Definition listReports : M Response :=
  try_catch
    (available <- read_supabaseAvailable ;;
     returned <- (if available then listReports_supabase else ret None) ;;
     match returned with
     | Some res => ret res
     | None => listReports_local
     end)
    server_error.

(** *** [app.get ('/api/users', ...)] *)

(** The inner [try] of the handler; its [catch] turns the backend off
    whatever the error is. *)
Definition listUsers_supabase : M (option Response) :=
  try_catch
    (rows <- data_or_throw users_select_listing ;;
     ret (Some (json (JArr rows))))
    (fun err =>
       clear_supabaseAvailable ;;;
       console_warn ("Supabase error while querying users — falling back to JSON storage: "
                     ++ message err) ;;;
       ret None).

(** [u => ({ id: u.id, full_name: u.fullName || u.full_name || '', ... })] *)
Definition user_for_listing (u : value) : Completion value :=
  cbind (get "id" u) (fun id =>
  cbind (get "fullName" u) (fun fullName =>
  cbind (get "full_name" u) (fun full_name =>
  cbind (get "username" u) (fun username =>
  cbind (get "email" u) (fun email =>
  cbind (get "accountType" u) (fun accountType =>
  cbind (get "account_type" u) (fun account_type =>
  cbind (get "created_at" u) (fun created_at =>
  Normal (JObj (object
    [("id", id);
     ("full_name", or_else (or_else fullName full_name) (Some (JStr EmptyString)));
     ("username", username);
     ("email", email);
     ("account_type",
      or_else (or_else accountType account_type) (Some (JStr EmptyString)));
     ("created_at", or_else created_at (Some JNull))])))))))))).

Definition listUsers_local : M Response :=
  users <- readJson USERS_FILE (JArr []) ;;
  l <- lift (array_method "users" "map" users) ;;
  mapped <- lift (map_throwing user_for_listing l) ;;
  ret (json (JArr mapped)).

Definition listUsers : M Response :=
  try_catch
    (available <- read_supabaseAvailable ;;
     returned <- (if available then listUsers_supabase else ret None) ;;
     match returned with
     | Some res => ret res
     | None => listUsers_local
     end)
    server_error.

(** *** The process *)

Inductive Request : Type :=
| POST_signup (req : SignupBody.t)
| POST_login (req : LoginBody.t)
| POST_reports (req : ReportBody.t)
| GET_reports
| GET_users.

Definition handler (r : Request) : M Response :=
  match r with
  | POST_signup req => signup req
  | POST_login req => login req
  | POST_reports req => createReport req
  | GET_reports => listReports
  | GET_users => listUsers
  end.

(** One request handled to its end.  No handler lets an error out; were
    one to, the request would get the plain 500 of the framework. *)
Definition serve (r : Request) (w : World) : Response * World :=
  match handler r w with
  | (Normal res, w') => (res, w')
  | (Thrown e, w') => (refuse 500 "Internal Server Error", w')
  end.

(** What a process goes through: a request, or time passing. *)
Inductive Input : Type :=
| Incoming (r : Request)
| Elapsed (ms : Z).

Fixpoint run (inputs : list Input) (w : World) : list Response * World :=
  match inputs with
  | [] => ([], w)
  | Incoming r :: rest =>
      let (res, w1) := serve r w in
      let (out, w2) := run rest w1 in
      (res :: out, w2)
  | Elapsed ms :: rest => run rest (set_clock (clock w + ms)%Z w)
  end.

(** [const useSupabase = Boolean (SUPABASE_URL && SUPABASE_ANON_KEY)] *)
Definition useSupabase (SUPABASE_URL SUPABASE_ANON_KEY : string) : bool :=
  negb (String.eqb SUPABASE_URL EmptyString)
  && negb (String.eqb SUPABASE_ANON_KEY EmptyString).

(** The process as it starts: [let supabaseAvailable = useSupabase]. *)
Definition boot (SUPABASE_URL SUPABASE_ANON_KEY : string) (d : option Dir)
           (db : Backend) (now : Z) (net : list Outcome) (disk : list Write)
  : World :=
  mkWorld (useSupabase SUPABASE_URL SUPABASE_ANON_KEY) d db now net disk [].

(** The requests to the backend among the events of a trace. *)
Definition calls (t : list Event) : list Call :=
  flat_map (fun e => match e with Supabase c => [c] | _ => [] end) t.

(** The reads and writes of the data directory among the events. *)
Definition file_accesses (t : list Event) : list Event :=
  filter (fun e => match e with
                   | ReadFile _ | Mkdir | WriteFile _ _ => true
                   | _ => false
                   end) t.

(** A collection file that [readJson] cannot make a document of: the
    directory or the file is not there, or the file is empty, or its text
    is not JSON. *)
Definition unreadable (f : File) (w : World) : Prop :=
  match data w with
  | None => True
  | Some d =>
      match file f d with
      | None => True
      | Some txt => txt = EmptyString \/ JSON.parse txt = None
      end
  end.

(** The other collection file. *)
Definition other (f : File) : File :=
  match f with
  | USERS_FILE => REPORTS_FILE
  | REPORTS_FILE => USERS_FILE
  end.

(** The content of a file, when the directory and the file exist. *)
Definition content (f : File) (w : World) : option string :=
  match data w with
  | Some d => file f d
  | None => None
  end.

End Server.

(** ** The same code, cut at its awaits *)

Module Async.
Import JSON Server.
Local Open Scope string_scope.

(** An [async] function as the tree of what it does: it ends, or it does
    something at once and goes on, or it waits, for the backend, for the
    file system or for the promise of another [async] function, and goes
    on with what comes back.  A request to the backend is sent where the
    code awaits the query. *)
Inductive Task (A : Type) : Type :=
| Done (c : Completion A)
| ReadFlag (k : bool -> Task A)                        (* supabaseAvailable *)
| ClearFlag (k : Task A)                               (* supabaseAvailable = false *)
| Warn (line : string) (k : Task A)                    (* console.warn *)
| LogError (e : Error) (k : Task A)                    (* console.error *)
| Clock (k : Z -> Task A)                              (* Date.now () *)
| Fetching (c : Call) (k : Reply -> Task A)            (* await supabase.from ... *)
| Reading (f : File) (k : Completion string -> Task A) (* await fs.readFile *)
| MakingDir (k : Task A)                               (* await fs.mkdir *)
| Writing (f : File) (txt : string) (k : Completion unit -> Task A)
                                                       (* await fs.writeFile *)
| Tick (k : Task A).                                   (* await of a promise *)
Arguments Done {A} c.
Arguments ReadFlag {A} k.
Arguments ClearFlag {A} k.
Arguments Warn {A} line k.
Arguments LogError {A} e k.
Arguments Clock {A} k.
Arguments Fetching {A} c k.
Arguments Reading {A} f k.
Arguments MakingDir {A} k.
Arguments Writing {A} f txt k.
Arguments Tick {A} k.

Definition ret {A : Type} (a : A) : Task A := Done (Normal a).

Definition throw {A : Type} (e : Error) : Task A := Done (Thrown e).

Definition lift {A : Type} (c : Completion A) : Task A := Done c.

Fixpoint bind {A B : Type} (t : Task A) (k : A -> Task B) : Task B :=
  match t with
  | Done (Normal a) => k a
  | Done (Thrown e) => Done (Thrown e)
  | ReadFlag k0 => ReadFlag (fun b => bind (k0 b) k)
  | ClearFlag k0 => ClearFlag (bind k0 k)
  | Warn line k0 => Warn line (bind k0 k)
  | LogError e k0 => LogError e (bind k0 k)
  | Clock k0 => Clock (fun now => bind (k0 now) k)
  | Fetching c k0 => Fetching c (fun r => bind (k0 r) k)
  | Reading f k0 => Reading f (fun x => bind (k0 x) k)
  | MakingDir k0 => MakingDir (bind k0 k)
  | Writing f txt k0 => Writing f txt (fun x => bind (k0 x) k)
  | Tick k0 => Tick (bind k0 k)
  end.

(** [try { t } catch (err) { h err }] *)
Fixpoint try_catch {A : Type} (t : Task A) (h : Error -> Task A) : Task A :=
  match t with
  | Done (Normal a) => Done (Normal a)
  | Done (Thrown e) => h e
  | ReadFlag k0 => ReadFlag (fun b => try_catch (k0 b) h)
  | ClearFlag k0 => ClearFlag (try_catch k0 h)
  | Warn line k0 => Warn line (try_catch k0 h)
  | LogError e k0 => LogError e (try_catch k0 h)
  | Clock k0 => Clock (fun now => try_catch (k0 now) h)
  | Fetching c k0 => Fetching c (fun r => try_catch (k0 r) h)
  | Reading f k0 => Reading f (fun x => try_catch (k0 x) h)
  | MakingDir k0 => MakingDir (try_catch k0 h)
  | Writing f txt k0 => Writing f txt (fun x => try_catch (k0 x) h)
  | Tick k0 => Tick (try_catch k0 h)
  end.

Declare Scope async_scope.
Delimit Scope async_scope with async.
Notation "x <- m ;; k" := (bind m (fun x => k))
  (at level 61, m at next level, right associativity) : async_scope.
Notation "m ;;; k" := (bind m (fun _ => k))
  (at level 61, right associativity) : async_scope.
Local Open Scope async_scope.

Definition read_supabaseAvailable : Task bool := ReadFlag ret.

Definition clear_supabaseAvailable : Task unit := ClearFlag (ret tt).

Definition console_warn (line : string) : Task unit := Warn line (ret tt).

Definition console_error (e : Error) : Task unit := LogError e (ret tt).

Definition Date_now : Task Z := Clock ret.

Definition fs_readFile (f : File) : Task string := Reading f Done.

Definition fs_mkdir : Task unit := MakingDir (ret tt).

Definition fs_writeFile (f : File) (txt : string) : Task unit := Writing f txt Done.

Definition supabase (c : Call) : Task Reply := Fetching c ret.

(** [await t], for [t] the call of an [async] function: the caller goes
    on, with what [t] returned or threw, in a later turn of the event
    loop. *)
Definition await {A : Type} (t : Task A) : Task A :=
  try_catch (x <- t ;; Tick (ret x)) (fun e => Tick (throw e)).

(** [const { data, error } = await ...; if (error) throw error;] *)
Definition data_or_throw (c : Call) : Task (list value) :=
  r <- supabase c ;;
  match r with
  | Failure e => throw e
  | Data rows => ret rows
  end.

(** Reading a property in asynchronous code. *)
Definition prop (k : string) (v : value) : Task (option value) := lift (get k v).

(** [async function readJson (file, fallback = [])] *)
Definition readJson (file : File) (fallback : value) : Task value :=
  try_catch
    (txt <- fs_readFile file ;;
     match JSON.parse (if String.eqb txt EmptyString then "[]" else txt) with
     | Some v => ret v
     | None => throw (mkError "Unexpected token in JSON")
     end)
    (fun _ => ret fallback).

(** [async function writeJson (file, data)] *)
Definition writeJson (file : File) (data : value) : Task unit :=
  fs_mkdir ;;;
  fs_writeFile file (JSON.stringify data).

(** [function disableSupabase (reason)] *)
Definition disableSupabase (reason : string) : Task unit :=
  clear_supabaseAvailable ;;;
  console_warn ("Disabling Supabase integration — " ++ reason).

(** The [catch] block shared by the four helpers: an error whose message
    the pattern finds turns the backend off and gives [null], any other is
    thrown again. *)
Definition unavailable_or_rethrow {A : Type} (re : list Regex.pattern)
           (err : Error) : Task (option A) :=
  if Regex.test re (message err)
  then disableSupabase (message err) ;;; ret None
  else throw err.

(** [async function dbCreateUser (user)] *)
Definition dbCreateUser (user : new_user.t) : Task (option value) :=
  available <- read_supabaseAvailable ;;
  if negb available then ret None
  else
    try_catch
      (rows <- data_or_throw (users_insert user) ;;
       ret (hd_error rows))
      (unavailable_or_rethrow Regex.dbCreateUser_re).

(** [async function dbFindUserByUsername (username)] *)
Definition dbFindUserByUsername (username : string) : Task (option value) :=
  available <- read_supabaseAvailable ;;
  if negb available then ret None
  else
    try_catch
      (rows <- data_or_throw (users_select_eq username) ;;
       ret (or_else (hd_error rows) None))
      (unavailable_or_rethrow Regex.dbFindUserByUsername_re).

(** [async function dbCreateReport (report)] *)
Definition dbCreateReport (report : new_report.t) : Task (option value) :=
  available <- read_supabaseAvailable ;;
  if negb available then ret None
  else
    try_catch
      (rows <- data_or_throw (reports_insert report) ;;
       ret (hd_error rows))
      (unavailable_or_rethrow Regex.dbCreateReport_re).

(** [async function dbGetReports ()] *)
Definition dbGetReports : Task (option (list value)) :=
  available <- read_supabaseAvailable ;;
  if negb available then ret None
  else
    try_catch
      (rows <- data_or_throw reports_select_ordered ;;
       ret (Some rows))
      (unavailable_or_rethrow Regex.dbGetReports_re).

(** The [catch] block of every handler. *)
Definition server_error (err : Error) : Task Response :=
  console_error err ;;;
  ret (refuse 500 (if String.eqb (message err) EmptyString
                   then "Server error" else message err)).

(** The block under [if (supabaseAvailable)]: [Some] response when the
    handler returns from inside it. *)
Definition signup_supabase (fullName username email accountType password : string)
  : Task (option Response) :=
  existing <- await (dbFindUserByUsername username) ;;
  if truthy_opt existing then ret (Some (refuse 409 "Username already exists"))
  else
    inserted <- await (dbCreateUser
                         (new_user.make fullName username email accountType password)) ;;
    match inserted with
    | Some row =>
        if truthy row then
          id <- prop "id" row ;;
          name <- prop "username" row ;;
          type <- prop "account_type" row ;;
          ret (Some (success_user id name type))
        else ret None
    | None => ret None
    end.

(** The fallback on the JSON file. *)
Definition signup_local (fullName username email accountType password : string)
  : Task Response :=
  users <- await (readJson USERS_FILE (JArr [])) ;;
  l <- lift (array_method "users" "find" users) ;;
  taken <- lift (find (username_is username) l) ;;
  if truthy_opt taken then ret (refuse 409 "Username already exists")
  else
    now <- Date_now ;;
    let newUser :=
      JObj [("id", JNum now); ("fullName", JStr fullName);
            ("username", JStr username); ("email", JStr email);
            ("accountType", JStr accountType); ("password", JStr password)] in
    await (writeJson USERS_FILE (JArr (l ++ [newUser]))) ;;;
    ret (success_user (Some (JNum now)) (Some (JStr username))
                      (Some (JStr accountType))).

Definition signup (req : SignupBody.t) : Task Response :=
  match nonempty (SignupBody.fullName req), nonempty (SignupBody.username req),
        nonempty (SignupBody.email req), nonempty (SignupBody.accountType req),
        nonempty (SignupBody.password req) with
  | Some fullName, Some username, Some email, Some accountType, Some password =>
      try_catch
        (available <- read_supabaseAvailable ;;
         returned <- (if available
                      then signup_supabase fullName username email accountType password
                      else ret None) ;;
         match returned with
         | Some res => ret res
         | None => signup_local fullName username email accountType password
         end)
        server_error
  | _, _, _, _, _ => ret (refuse 400 "Missing required fields")
  end.

Definition login_supabase (username password accountType : string)
  : Task (option Response) :=
  user <- await (dbFindUserByUsername username) ;;
  match user with
  | Some row =>
      if truthy row then
        pw <- prop "password" row ;;
        type <- prop "account_type" row ;;
        if is_string password pw && is_string accountType type then
          id <- prop "id" row ;;
          name <- prop "username" row ;;
          ret (Some (success_user id name type))
        else if negb (is_string password pw) || negb (is_string accountType type)
        then ret (Some (refuse 401 "Invalid credentials"))
        else ret None
      else ret None
  | None => ret None
  end.

Definition login_local (username password accountType : string) : Task Response :=
  users <- await (readJson USERS_FILE (JArr [])) ;;
  l <- lift (array_method "users" "find" users) ;;
  user <- lift (find (fun u =>
                        cbind (get "username" u) (fun x =>
                        if is_string username x then
                          cbind (get "password" u) (fun y =>
                          if is_string password y then
                            cbind (get "accountType" u) (fun z =>
                            Normal (is_string accountType z))
                          else Normal false)
                        else Normal false)) l) ;;
  match user with
  | Some u =>
      if truthy u then
        id <- prop "id" u ;;
        name <- prop "username" u ;;
        type <- prop "accountType" u ;;
        ret (success_user id name type)
      else ret (refuse 401 "Invalid credentials")
  | None => ret (refuse 401 "Invalid credentials")
  end.

Definition login (req : LoginBody.t) : Task Response :=
  match nonempty (LoginBody.username req), nonempty (LoginBody.password req),
        nonempty (LoginBody.accountType req) with
  | Some username, Some password, Some accountType =>
      try_catch
        (available <- read_supabaseAvailable ;;
         returned <- (if available
                      then login_supabase username password accountType
                      else ret None) ;;
         match returned with
         | Some res => ret res
         | None => login_local username password accountType
         end)
        server_error
  | _, _, _ => ret (refuse 400 "Missing fields")
  end.

Definition createReport_supabase (name grade : option string)
           (type description date : string) : Task (option Response) :=
  inserted <- await (dbCreateReport
                       (new_report.make (default "Anonymous" name)
                                        (default EmptyString grade)
                                        type description date)) ;;
  match inserted with
  | Some row =>
      if truthy row
      then ret (Some (json (JObj [("success", JBool true); ("report", row)])))
      else ret None
  | None => ret None
  end.

Definition createReport_local (name grade : option string)
           (type description date : string) : Task Response :=
  reports <- await (readJson REPORTS_FILE (JArr [])) ;;
  now <- Date_now ;;
  let newReport :=
    JObj [("id", JNum now); ("name", JStr (default "Anonymous" name));
          ("grade", JStr (default EmptyString grade)); ("type", JStr type);
          ("description", JStr description); ("date", JStr date)] in
  l <- lift (array_method "reports" "unshift" reports) ;;
  await (writeJson REPORTS_FILE (JArr (newReport :: l))) ;;;
  ret (json (JObj [("success", JBool true); ("report", newReport)])).

Definition createReport (req : ReportBody.t) : Task Response :=
  match nonempty (ReportBody.type req), nonempty (ReportBody.description req),
        nonempty (ReportBody.date req) with
  | Some type, Some description, Some date =>
      let name := ReportBody.name req in
      let grade := ReportBody.grade req in
      try_catch
        (available <- read_supabaseAvailable ;;
         returned <- (if available
                      then createReport_supabase name grade type description date
                      else ret None) ;;
         match returned with
         | Some res => ret res
         | None => createReport_local name grade type description date
         end)
        server_error
  | _, _, _ => ret (refuse 400 "Missing required report fields")
  end.

Definition listReports_supabase : Task (option Response) :=
  rows <- await dbGetReports ;;
  match rows with
  | Some rows =>
      mapped <- lift (map_throwing report_for_frontend rows) ;;
      ret (Some (json (JArr mapped)))
  | None => ret None
  end.

Definition listReports_local : Task Response :=
  reports <- await (readJson REPORTS_FILE (JArr [])) ;;
  ret (json reports).

Definition listReports : Task Response :=
  try_catch
    (available <- read_supabaseAvailable ;;
     returned <- (if available then listReports_supabase else ret None) ;;
     match returned with
     | Some res => ret res
     | None => listReports_local
     end)
    server_error.

(** The inner [try] of the handler; its [catch] turns the backend off
    whatever the error is. *)
Definition listUsers_supabase : Task (option Response) :=
  try_catch
    (rows <- data_or_throw users_select_listing ;;
     ret (Some (json (JArr rows))))
    (fun err =>
       clear_supabaseAvailable ;;;
       console_warn ("Supabase error while querying users — falling back to JSON storage: "
                     ++ message err) ;;;
       ret None).

Definition listUsers_local : Task Response :=
  users <- await (readJson USERS_FILE (JArr [])) ;;
  l <- lift (array_method "users" "map" users) ;;
  mapped <- lift (map_throwing user_for_listing l) ;;
  ret (json (JArr mapped)).

Definition listUsers : Task Response :=
  try_catch
    (available <- read_supabaseAvailable ;;
     returned <- (if available then listUsers_supabase else ret None) ;;
     match returned with
     | Some res => ret res
     | None => listUsers_local
     end)
    server_error.

Definition handler (r : Request) : Task Response :=
  match r with
  | POST_signup req => signup req
  | POST_login req => login req
  | POST_reports req => createReport req
  | GET_reports => listReports
  | GET_users => listUsers
  end.

(** *** One request at a time *)

(** The reply to a request that was sent, and what becomes of the tables. *)
Definition deliver (c : Call) (w : World) : Reply * World :=
  match network w with
  | Refused msg :: later => (Failure (mkError msg), set_network later w)
  | Served :: later =>
      let (r, db) := answer c (clock w) (backend w) in
      (r, set_backend db (set_network later w))
  | [] =>
      let (r, db) := answer c (clock w) (backend w) in
      (r, set_backend db w)
  end.

(** A task run to its end, every wait over as soon as it starts. *)
Fixpoint exec {A : Type} (t : Task A) (w : World) : Completion A * World :=
  match t with
  | Done c => (c, w)
  | ReadFlag k => exec (k (supabaseAvailable w)) w
  | ClearFlag k => exec k (set_supabaseAvailable false w)
  | Warn line k => exec k (log (ConsoleWarn line) w)
  | LogError e k => exec k (log (ConsoleError e) w)
  | Clock k => exec (k (clock w)) w
  | Fetching c k =>
      let (r, w') := deliver c (log (Supabase c) w) in exec (k r) w'
  | Reading f k =>
      let (x, w') := Server.fs_readFile f w in exec (k x) w'
  | MakingDir k => exec k (snd (Server.fs_mkdir w))
  | Writing f txt k =>
      let (x, w') := Server.fs_writeFile f txt w in exec (k x) w'
  | Tick k => exec k w
  end.

(** *** Requests in flight together *)

(** A task up to its next wait: what it does at once is done, and a
    request to the backend it comes to is sent. *)
Fixpoint advance {A : Type} (t : Task A) (w : World) : Task A * World :=
  match t with
  | ReadFlag k => advance (k (supabaseAvailable w)) w
  | ClearFlag k => advance k (set_supabaseAvailable false w)
  | Warn line k => advance k (log (ConsoleWarn line) w)
  | LogError e k => advance k (log (ConsoleError e) w)
  | Clock k => advance (k (clock w)) w
  | Fetching c k => (Fetching c k, log (Supabase c) w)
  | Done _ | Reading _ _ | MakingDir _ | Writing _ _ _ | Tick _ => (t, w)
  end.

(** The wait of a task is over: what it waited for happens, and the task
    goes on to its next wait. *)
Definition resume {A : Type} (t : Task A) (w : World) : Task A * World :=
  match t with
  | Fetching c k => let (r, w') := deliver c w in advance (k r) w'
  | Reading f k => let (x, w') := Server.fs_readFile f w in advance (k x) w'
  | MakingDir k => advance k (snd (Server.fs_mkdir w))
  | Writing f txt k =>
      let (x, w') := Server.fs_writeFile f txt w in advance (k x) w'
  | Tick k => advance k w
  | _ => (t, w)
  end.

(** A process: its world, the requests in flight, each at a wait, and the
    responses sent so far (latest first). *)
Record Process : Type := mkProcess {
  world : World;
  inflight : list (Task Response);
  sent : list Response
}.

(** A task that came to its end answers; another one stays in flight. *)
Definition settle (before : list (Task Response)) (t : Task Response)
           (after : list (Task Response)) (w : World) (out : list Response)
  : Process :=
  match t with
  | Done (Normal res) => mkProcess w (before ++ after) (res :: out)
  | Done (Thrown _) =>
      mkProcess w (before ++ after) (refuse 500 "Internal Server Error" :: out)
  | _ => mkProcess w (before ++ t :: after) out
  end.

(** What happens to a process: a request comes in, the [i]-th request in
    flight goes on, its wait being over, or time passes. *)
Inductive Happening : Type :=
| Arrives (r : Request)
| Resumes (i : nat)
| Passes (ms : Z).

Definition happen (h : Happening) (p : Process) : Process :=
  match h with
  | Arrives r =>
      let (t, w) := advance (handler r) (world p) in
      settle (inflight p) t [] w (sent p)
  | Resumes i =>
      match nth_error (inflight p) i with
      | Some t =>
          let (t', w) := resume t (world p) in
          settle (firstn i (inflight p)) t' (skipn (S i) (inflight p)) w (sent p)
      | None => p
      end
  | Passes ms =>
      mkProcess (set_clock (clock (world p) + ms)%Z (world p)) (inflight p) (sent p)
  end.

Definition unfold_schedule (schedule : list Happening) (p : Process) : Process :=
  fold_left (fun p h => happen h p) schedule p.

(** What a task knows of the flag at a point of its code: [Some b] when
    it read or wrote [b] since its last wait, [None] otherwise.  A task is
    [safe] when it sends a request only where it knows the flag to be on,
    and warns only where it knows it to be off. *)
Fixpoint safe {A : Type} (known : option bool) (t : Task A) : Prop :=
  match t with
  | Done _ => True
  | ReadFlag k => safe (Some true) (k true) /\ safe (Some false) (k false)
  | ClearFlag k => safe (Some false) k
  | Warn _ k => known = Some false /\ safe known k
  | LogError _ k => safe known k
  | Clock k => forall now, safe known (k now)
  | Fetching _ k => known = Some true /\ forall r, safe None (k r)
  | Reading _ k => forall x, safe None (k x)
  | MakingDir k => safe None k
  | Writing _ _ k => forall x, safe None (k x)
  | Tick k => safe None k
  end.

End Async.

(** ** Two ways of speaking about a computation *)

Module Properties.
Import JSON Server.
Local Open Scope string_scope.
Local Open Scope list_scope.

(** [m] takes every world to one that [R] relates it to. *)
Definition respects {A : Type} (R : World -> World -> Prop) (m : M A) : Prop :=
  forall w, R w (snd (m w)).

(** Whatever [m] returns satisfies [P]. *)
Definition yields {A : Type} (P : A -> Prop) (m : M A) : Prop :=
  forall w a w', m w = (Normal a, w') -> P a.

(** With the backend off, it stays off and is left alone: no request is
    sent, no answer is used up, the tables are as they were. *)
Definition stays_off (w w' : World) : Prop :=
  supabaseAvailable w = false ->
  supabaseAvailable w' = false
  /\ calls (trace w') = calls (trace w)
  /\ backend w' = backend w
  /\ network w' = network w.

(** A trace (latest event first) records a demotion when it holds a
    warning: [console.warn] is called where the flag is cleared and
    nowhere else. *)
Definition demoted (t : list Event) : Prop :=
  exists line, In (ConsoleWarn line) t.

(** No request to the backend is later than a demotion. *)
Definition quiet_after_demotion (t : list Event) : Prop :=
  forall later line earlier,
    t = later ++ ConsoleWarn line :: earlier -> calls later = [].

(** The flag is off once a demotion is on record, and no request follows
    a demotion. *)
Definition one_way (w : World) : Prop :=
  (demoted (trace w) -> supabaseAvailable w = false)
  /\ quiet_after_demotion (trace w).

(** A message that none of the helpers takes for the sign that the
    backend is not there. *)
Definition transient (msg : string) : Prop :=
  Regex.test Regex.dbCreateUser_re msg = false
  /\ Regex.test Regex.dbFindUserByUsername_re msg = false
  /\ Regex.test Regex.dbCreateReport_re msg = false
  /\ Regex.test Regex.dbGetReports_re msg = false.

(** The response of the [catch] block of a handler to an error of that
    message. *)
Definition error_response (msg : string) : Response :=
  refuse 500 (if String.eqb msg EmptyString then "Server error"%string else msg).

(** An error of the backend that goes to the caller and to nothing else:
    a 500 with its message, the flag still on, the data directory neither
    read nor written. *)
Definition propagates (msg : string) (w : World) (out : Response * World) : Prop :=
  fst out = error_response msg
  /\ supabaseAvailable (snd out) = true
  /\ data (snd out) = data w
  /\ file_accesses (trace (snd out)) = file_accesses (trace w).

(** The world right after a demotion by the handler of [/api/users]. *)
Definition users_demotion (msg : string) (later : list Outcome) (w : World) : World :=
  log (ConsoleWarn ("Supabase error while querying users — falling back to JSON storage: "
                    ++ msg))
      (set_supabaseAvailable false
         (set_network later (log (Supabase users_select_listing) w))).

(** A response that carries a record named ["Anonymous"], of empty grade,
    which is the record stored on the way from [w] to [w']: the row added to
    the [reports] table, or the first record of the reports file. *)
Definition anonymous_report_stored (w : World) (res : Response) (w' : World) : Prop :=
  exists record,
    body res = JObj [("success"%string, JBool true); ("report"%string, record)]
    /\ get "name" record = Normal (Some (JStr "Anonymous"))
    /\ get "grade" record = Normal (Some (JStr EmptyString))
    /\ ((exists row,
           reports_table (backend w') = reports_table (backend w) ++ [row]
           /\ record = reports_json_row row
           /\ reports.name row = Some "Anonymous"%string
           /\ reports.grade row = Some EmptyString
           /\ data w' = data w)
        \/ (exists old,
              content REPORTS_FILE w'
              = Some (JSON.stringify (JArr (record :: old)))
              /\ backend w' = backend w)).

(** The next request to the backend is answered from the tables. *)
Definition answered (w : World) : Prop :=
  match network w with
  | Refused _ :: _ => False
  | _ => True
  end.

(** The store that is in charge in [w] holds an account of that name: a row
    of the [users] table while the flag is on, a record of the users file
    once it is off. *)
Definition registered (username : string) (w : World) : Prop :=
  if supabaseAvailable w then
    exists row rest,
      filter (fun r => String.eqb (users.username r) username)
             (users_table (backend w)) = row :: rest
  else
    exists l u,
      content USERS_FILE w = Some (JSON.stringify (JArr l))
      /\ find (username_is username) l = Normal (Some u).

(** A signup body with all its five fields. *)
Definition complete (req : SignupBody.t) : Prop :=
  nonempty (SignupBody.fullName req) <> None
  /\ nonempty (SignupBody.username req) <> None
  /\ nonempty (SignupBody.email req) <> None
  /\ nonempty (SignupBody.accountType req) <> None
  /\ nonempty (SignupBody.password req) <> None.

(** A record of a listing: an object with no field outside the columns of
    the listing, of which [password] is none. *)
Definition listed (r : value) : Prop :=
  exists ms, r = JObj ms /\ forall k v, In (k, v) ms -> In k listing_columns.

(** The document [readJson] makes of a collection file. *)
Definition collection (f : File) (w : World) : value :=
  match fst (readJson f (JArr []) w) with
  | Normal v => v
  | Thrown _ => JArr []
  end.

(** A record of the users file without its password, and a row of the
    [users] table with its password blanked. *)
Definition without_password (u : value) : value :=
  match u with
  | JObj ms => JObj (filter (fun kv => negb (String.eqb (fst kv) "password")) ms)
  | _ => u
  end.

Definition blank_password (r : users.row) : users.row :=
  users.mkRow (users.id r) (users.full_name r) (users.username r) (users.email r)
              (users.account_type r) EmptyString (users.created_at r).

(** Two documents with the same records but for their passwords. *)
Definition same_but_passwords (v1 v2 : value) : Prop :=
  match v1, v2 with
  | JArr l1, JArr l2 => map without_password l1 = map without_password l2
  | _, _ => v1 = v2
  end.

(** Two worlds that differ in the passwords they store, in the table and
    in the users file, and in nothing else that a listing of the users
    looks at. *)
Definition differ_in_passwords_only (w1 w2 : World) : Prop :=
  supabaseAvailable w1 = supabaseAvailable w2
  /\ network w1 = network w2
  /\ map blank_password (users_table (backend w1))
     = map blank_password (users_table (backend w2))
  /\ same_but_passwords (collection USERS_FILE w1) (collection USERS_FILE w2).

(** The listing the fallback makes of a document. *)
Definition local_listing (users : value) : Completion Response :=
  cbind (array_method "users" "map" users) (fun l =>
  cbind (map_throwing user_for_listing l) (fun mapped =>
  Normal (json (JArr mapped)))).

(** The response of a handler whose body ended as [c]. *)
Definition respond (c : Completion Response) : Response :=
  match c with
  | Normal res => res
  | Thrown e => error_response (message e)
  end.

(** Keeping [one_way]. *)
Definition keeps (w w' : World) : Prop := one_way w -> one_way w'.

(** A response that is not a success, or whose [user] has the three
    fields and no other. *)
Definition refusal_or_public (res : Response) : Prop :=
  status res <> 200
  \/ exists id name type, res = success_user id name type.

Definition maybe (P : Response -> Prop) (r : option Response) : Prop :=
  match r with
  | Some res => P res
  | None => True
  end.

(** The record a local [createReport] makes at time [now]. *)
Definition local_report (now : Z) (name grade : option string)
           (type description date : string) : value :=
  JObj [("id", JNum now); ("name", JStr (default "Anonymous" name));
        ("grade", JStr (default EmptyString grade)); ("type", JStr type);
        ("description", JStr description); ("date", JStr date)].

Definition refusal_or_listing (res : Response) : Prop :=
  status res <> 200
  \/ exists records, res = json (JArr records) /\ Forall listed records.

(** **** Requests in flight together *)

(** A task and a computation of the one-at-a-time model that do the same. *)
Definition agrees {A : Type} (t : Async.Task A) (m : M A) : Prop :=
  forall w, Async.exec t w = m w.

(** What a task knows of the flag is how the flag is. *)
Definition flag_known (known : option bool) (w : World) : Prop :=
  match known with
  | Some b => supabaseAvailable w = b
  | None => True
  end.

(** With the backend off, it stays off and no request is sent. *)
Definition stays_quiet (w w' : World) : Prop :=
  supabaseAvailable w = false ->
  supabaseAvailable w' = false /\ calls (trace w') = calls (trace w).

(** Both at once. *)
Definition orderly (w w' : World) : Prop := keeps w w' /\ stays_quiet w w'.

(** Every request in flight is at a wait and goes on safely from it. *)
Definition parked (p : Async.Process) : Prop :=
  Forall (Async.safe (Some true)) (Async.inflight p).

(** The process as it starts, no request in flight. *)
Definition start (SUPABASE_URL SUPABASE_ANON_KEY : string) (d : option Dir)
           (db : Backend) (now : Z) (net : list Outcome) (disk : list Write)
  : Async.Process :=
  Async.mkProcess (boot SUPABASE_URL SUPABASE_ANON_KEY d db now net disk) [] [].

End Properties.

(** ** Sample data *)

Module Samples.
Import JSON Server.
Local Open Scope string_scope.

Definition relation_does_not_exist (table : string) : string :=
  "relation " ++ String dquote ("public." ++ table)
  ++ String dquote " does not exist".

Definition ann : SignupBody.t :=
  SignupBody.make (Some "Ann") (Some "ann") (Some "ann@school") (Some "Student")
                  (Some "secret").

(** Another person asking for the username of [ann]. *)
Definition anna : SignupBody.t :=
  SignupBody.make (Some "Anna") (Some "ann") (Some "anna@school") (Some "Admin")
                  (Some "hidden").

Definition empty_tables : Backend := mkBackend [] 0 [] 0.

End Samples.

(** * The start of the server *)

Module Startup.
Import JSON Server.
Local Open Scope string_scope.

(** What [app.listen (port)] comes to: the server listens, or its
    ['error'] event fires with an error of that code, or the call itself
    throws (as it does for a port that is not in 0..65535, with
    [ERR_SOCKET_BAD_PORT]). *)
Inductive Listen : Type :=
| Listening
| Fails (code : string)
| Throws (code : string).

(** The lines of the console, and the error [console.error] is given. *)
Inductive Console : Type :=
| Log (line : string)
| Warn (line : string)
| Error (line : string) (code : string).

(** How starting ends: the server is up on a port, or
    [process.exit (code)], or an exception that nothing catches. *)
Inductive Ending : Type :=
| Serving (port : Z)
| Exit (code : Z)
| Uncaught (code : string).

(** [`${n}`] for an integer. *)
Definition show (n : Z) : string := string_of_list_ascii (show_Z n).

(** [port !== (process.env.PORT || 3000)]: when the variable is set the
    right-hand side is a string, and a number is never [===] a string. *)
Definition differs_from_configured (env_PORT : option string) (port : Z) : bool :=
  match nonempty env_PORT with
  | Some _ => true
  | None => negb (port =? 3000)%Z
  end.

(** [function startServer (port, retries = 5)], with the retry that its
    handler of ['error'] schedules.  The lines of the console come
    earliest first. *)
Fixpoint startServer (listen : Z -> Listen) (env_PORT : option string)
         (port : Z) (retries : nat) {struct retries} : list Console * Ending :=
  match listen port with
  | Listening =>
      (Log ("SWDSMS backend running at http://localhost:" ++ show port)
       :: (if differs_from_configured env_PORT port
           then [Log ("(bound to fallback port " ++ show port ++ ")")]
           else []),
       Serving port)
  | Fails code =>
      match retries with
      | S fewer =>
          if String.eqb code "EADDRINUSE" then
            let (lines, e) := startServer listen env_PORT (port + 1) fewer in
            (Warn ("Port " ++ show port ++ " in use — trying port "
                   ++ show (port + 1) ++ " (retries left: "
                   ++ show (Z.of_nat fewer) ++ ")")
             :: lines, e)
          else ([Error "Server failed to start:" code], Exit 1)
      | O => ([Error "Server failed to start:" code], Exit 1)
      end
  | Throws code => ([], Uncaught code)
  end.

(** The value of a text of decimal digits. *)
Fixpoint digits_value (acc : N) (s : text) : option N :=
  match s with
  | [] => Some acc
  | c :: r =>
      if is_digit c then digits_value (10 * acc + (code c - 48)) r else None
  end.

(** [Number (s)] for a text of decimal digits; any other text is outside
    the fragment. *)
Definition Number (s : string) : option Z :=
  match chars s with
  | [] => None
  | cs => option_map Z.of_N (digits_value 0 cs)
  end.

(** The script from its first line to the server listening:
    [startServer (Number (process.env.PORT || PORT))] after the line that
    tells which store is configured. *)
Definition main (SUPABASE_URL SUPABASE_ANON_KEY : string) (env_PORT : option string)
           (listen : Z -> Listen) : option (list Console * Ending) :=
  let configured :=
    Log (if useSupabase SUPABASE_URL SUPABASE_ANON_KEY
         then "Supabase integration enabled"
         else "Supabase not configured — using local JSON storage") in
  match nonempty env_PORT with
  | Some s =>
      match Number s with
      | Some port =>
          let (lines, e) := startServer listen env_PORT port 5 in
          Some (configured :: lines, e)
      | None => None
      end
  | None =>
      let (lines, e) := startServer listen env_PORT 3000 5 in
      Some (configured :: lines, e)
  end.

(** The ports from [port] on are taken, [k] of them, and the next is
    free. *)
Definition first_free (listen : Z -> Listen) (port : Z) (k : nat) : Prop :=
  listen (port + Z.of_nat k)%Z = Listening
  /\ forall j, (j < k)%nat -> listen (port + Z.of_nat j)%Z = Fails "EADDRINUSE".

(** The warning of a retry. *)
Definition retry_warning (port : Z) (fewer : nat) : Console :=
  Warn ("Port " ++ show port ++ " in use — trying port "
        ++ show (port + 1) ++ " (retries left: " ++ show (Z.of_nat fewer) ++ ")").

(** The warnings of [k] retries in a row from [port], the first of them
    with [fewer + k - 1] retries left. *)
Fixpoint retry_warnings (port : Z) (fewer k : nat) : list Console :=
  match k with
  | O => []
  | S k' => retry_warning port (fewer + k') :: retry_warnings (port + 1) fewer k'
  end.

(** The note of a fallback. *)
Definition fallback_note (port : Z) : Console :=
  Log ("(bound to fallback port " ++ show port ++ ")").

End Startup.

(** * The migration script ([migrate_to_supabase.js]) *)

Module Migration.
Import JSON Server.
Local Open Scope string_scope.

(** [from ('users')] and [from ('reports')] *)
Inductive Table : Type := users_t | reports_t.

(** An argument of a call of the console: a text of the script, a value
    of the program ([None] for [undefined]), or an error object. *)
Inductive Arg : Type :=
| Text (s : string)
| Value (v : option value)
| Object (e : Error).

(** What the script does that can be seen from outside, latest first in a
    trace: a row handed to [insert], a call of [console.log], a call of
    [console.error]. *)
Inductive Event : Type :=
| Insert (t : Table) (payload : value)
| ConsoleLog (args : list Arg)
| ConsoleError (args : list Arg).

(** How the script ends: [run] returns, [process.exit (code)], or the
    promise of [run] is rejected and no one handles it. *)
Inductive Ending : Type :=
| Finished
| Exit (code : Z)
| Crashed (e : Error).

(** [String (v)], as a template literal makes it. *)
Fixpoint String_ (v : value) : string :=
  match v with
  | JNull => "null"
  | JBool true => "true"
  | JBool false => "false"
  | JNum n => string_of_list_ascii (show_Z n)
  | JStr s => s
  | JArr l =>
      (fix join (l : list value) : string :=
         match l with
         | [] => EmptyString
         | [x] => match x with JNull => EmptyString | _ => String_ x end
         | x :: l' =>
             (match x with JNull => EmptyString | _ => String_ x end)
             ++ "," ++ join l'
         end) l
  | JObj _ => "[object Object]"
  end.

(** [`${v}`] for a value that may be [undefined]. *)
Definition interpolate (v : option value) : string :=
  match v with
  | Some v => String_ v
  | None => "undefined"
  end.

(** [v.length] for a document that is not a string. *)
Definition length_of (v : value) : option value :=
  match v with
  | JArr l => Some (JNum (Z.of_nat (List.length l)))
  | JObj ms => lookup "length" ms
  | _ => None
  end.

(** [error.message || error] *)
Definition message_or (e : Error) : Arg :=
  if String.eqb (message e) EmptyString then Object e else Text (message e).

(** [data[0].k] *)
Definition first_row (k : string) (rows : list value) : Completion (option value) :=
  match rows with
  | [] =>
      Thrown (mkError ("Cannot read properties of undefined (reading '" ++ k ++ "')"))
  | row :: _ => get k row
  end.

(** The object literal [payload] of the loop over the users. *)
Definition user_payload (u : value) : Completion value :=
  cbind (get "fullName" u) (fun fullName =>
  cbind (get "full_name" u) (fun full_name =>
  cbind (get "username" u) (fun username =>
  cbind (get "email" u) (fun email =>
  cbind (get "accountType" u) (fun accountType =>
  cbind (get "account_type" u) (fun account_type =>
  cbind (get "password" u) (fun password =>
  cbind (get "pw" u) (fun pw =>
  Normal (JObj (object
    [("full_name", or_else (or_else fullName full_name) (Some (JStr EmptyString)));
     ("username", username);
     ("email", email);
     ("account_type",
      or_else (or_else accountType account_type) (Some (JStr "Student")));
     ("password", or_else (or_else password pw) (Some (JStr EmptyString)))])))))))))).

(** The object literal [payload] of the loop over the reports. *)
Definition report_payload (r : value) : Completion value :=
  cbind (get "name" r) (fun name =>
  cbind (get "grade" r) (fun grade =>
  cbind (get "type" r) (fun type =>
  cbind (get "description" r) (fun description =>
  cbind (get "date" r) (fun date =>
  Normal (JObj (object
    [("name", or_else name (Some JNull));
     ("grade", or_else grade (Some JNull));
     ("type", type);
     ("description", description);
     ("incident_date", date)]))))))).

Section Script.

(** The hosted tables, as the script meets them: a state [B], and what an
    [insert ([payload]).select ()] makes of it: [{ data, error }], or an
    exception. *)
Variable B : Type.
Variable insert : Table -> value -> B -> Completion Reply * B.

(** The script runs over the tables and the trace.  A step gives [None]
    where it leaves the fragment (a collection file that holds a string,
    which a loop would take character by character). *)
Definition State : Type := (B * list Event)%type.

Definition Script (A : Type) : Type := State -> option (Completion A * State).

Definition ret {A : Type} (a : A) : Script A := fun s => Some (Normal a, s).

Definition throw {A : Type} (e : Error) : Script A := fun s => Some (Thrown e, s).

Definition outside {A : Type} : Script A := fun _ => None.

Definition bind {A C : Type} (m : Script A) (k : A -> Script C) : Script C :=
  fun s =>
    match m s with
    | Some (Normal a, s') => k a s'
    | Some (Thrown e, s') => Some (Thrown e, s')
    | None => None
    end.

Definition try_catch {A : Type} (m : Script A) (h : Error -> Script A) : Script A :=
  fun s =>
    match m s with
    | Some (Normal a, s') => Some (Normal a, s')
    | Some (Thrown e, s') => h e s'
    | None => None
    end.

Definition lift {A : Type} (c : Completion A) : Script A := fun s => Some (c, s).

Definition emit (e : Event) : Script unit :=
  fun s => Some (Normal tt, (fst s, e :: snd s)).

(** [await supabase.from (t).insert ([payload]).select ()] *)
Definition supabase_insert (t : Table) (payload : value) : Script Reply :=
  fun s =>
    let (r, b) := insert t payload (fst s) in
    Some (r, (b, Insert t payload :: snd s)).

(** The body of [for (const u of users)]. *)
Definition migrate_user (u : value) : Script unit :=
  try_catch
    (bind (lift (user_payload u)) (fun payload =>
     bind (supabase_insert users_t payload) (fun r =>
     match r with
     | Failure error =>
         bind (lift (get "username" u)) (fun username =>
         emit (ConsoleError [Text "Failed to insert"; Value username;
                             message_or error]))
     | Data data =>
         bind (lift (first_row "username" data)) (fun username =>
         bind (lift (first_row "id" data)) (fun id =>
         emit (ConsoleLog [Text "Inserted"; Value username; Text "id="; Value id])))
     end)))
    (fun err =>
       bind (lift (get "username" u)) (fun username =>
       emit (ConsoleError [Text "Unexpected error for"; Value username;
                           message_or err]))).

(** The body of [for (const r of reports)]. *)
Definition migrate_report (r : value) : Script unit :=
  try_catch
    (bind (lift (report_payload r)) (fun payload =>
     bind (supabase_insert reports_t payload) (fun reply =>
     match reply with
     | Failure error =>
         bind (lift (get "id" r)) (fun id =>
         emit (ConsoleError [Text "Failed to insert report";
                             Value (or_else id (Some (JStr EmptyString)));
                             message_or error]))
     | Data data =>
         bind (lift (first_row "id" data)) (fun id =>
         emit (ConsoleLog [Text "Inserted report id="; Value id]))
     end)))
    (fun err =>
       bind (lift (get "id" r)) (fun id =>
       emit (ConsoleError [Text "Unexpected error for report";
                           Value (or_else id (Some (JStr EmptyString)));
                           message_or err]))).

(** [for (const x of v) body], for a document that is not a string. *)
Fixpoint for_each (body : value -> Script unit) (l : list value) : Script unit :=
  match l with
  | [] => ret tt
  | x :: l' => bind (body x) (fun _ => for_each body l')
  end.

Definition for_of (name : string) (v : value) (body : value -> Script unit)
  : Script unit :=
  match v with
  | JArr l => for_each body l
  | JStr _ => outside
  | _ => throw (mkError (name ++ " is not iterable"))
  end.

(** [JSON.parse (fs.readFileSync (file, 'utf8')) || []] *)
Definition parse_or_empty (txt : string) : Script value :=
  match JSON.parse txt with
  | Some (JStr s) =>
      if String.eqb s EmptyString then ret (JArr []) else outside
  | Some v => ret (if truthy v then v else JArr [])
  | None => throw (mkError "Unexpected token in JSON")
  end.

(** The part of [run] on [reports.json]. *)
Definition migrate_reports (d : option Dir) : Script unit :=
  match option_map reports_json d with
  | Some (Some txt) =>
      bind (parse_or_empty txt) (fun reports =>
      bind (emit (ConsoleLog
                    [Text ("Migrating " ++ interpolate (length_of reports)
                           ++ " reports to Supabase (table: public.reports)")]))
           (fun _ => for_of "reports" reports migrate_report))
  | _ => emit (ConsoleLog [Text "No local reports.json found to migrate."])
  end.

(** What [run] does once it knows [users.json] is there; [true] when it
    went to the end, [false] when it returned at [No users to migrate.] *)
Definition migrate (txt : string) (d : option Dir) : Script bool :=
  bind (parse_or_empty txt) (fun users =>
  if truthy_opt (length_of users) then
    bind (emit (ConsoleLog
                  [Text ("Migrating " ++ interpolate (length_of users)
                         ++ " users to Supabase (table: public.users)")]))
         (fun _ =>
    bind (for_of "users" users migrate_user) (fun _ =>
    bind (migrate_reports d) (fun _ =>
    bind (emit (ConsoleLog
                  [Text "Migration finished. Verify rows in Supabase SQL editor or Table view."]))
         (fun _ => ret true))))
  else
    bind (emit (ConsoleLog [Text "No users to migrate."])) (fun _ => ret false)).

(** [async function run ()]: it returns, or [process.exit (1)], or it
    throws and nothing handles the rejection. *)
Definition run (d : option Dir) (b : B) : option (Ending * State) :=
  match option_map users_json d with
  | Some (Some txt) =>
      match migrate txt d (b, []) with
      | Some (Normal _, s) => Some (Finished, s)
      | Some (Thrown e, s) => Some (Crashed e, s)
      | None => None
      end
  | _ => Some (Exit 1, (b, [ConsoleError [Text "No local users.json file found."]]))
  end.

End Script.

(** The rows handed to [insert], earliest first. *)
Definition inserts (trace : list Event) : list (Table * value) :=
  rev (flat_map (fun e => match e with
                          | Insert t payload => [(t, payload)]
                          | _ => []
                          end) trace).

(** The row the script sends for a record. *)
Definition user_row (u : value) : Table * value :=
  (users_t, match user_payload u with Normal p => p | Thrown _ => JNull end).

Definition report_row (r : value) : Table * value :=
  (reports_t, match report_payload r with Normal p => p | Thrown _ => JNull end).

End Migration.

(** * Further predicates *)

Module ServerProperties.
Import JSON Server Properties.
Local Open Scope string_scope.
Local Open Scope list_scope.

(** **** What the helpers take for the end of the backend *)

(** Two texts with the same letters, whatever their case. *)
Definition same_letters (s t : string) : Prop :=
  map Regex.fold_case (chars s) = map Regex.fold_case (chars t).

(** The patterns of the four helpers, each with the signatures it finds
    in a message. *)
Definition recognised : list (list Regex.pattern * string) :=
  [(Regex.dbCreateUser_re, "Could not find the table");
   (Regex.dbCreateUser_re, "row-level security policy");
   (Regex.dbFindUserByUsername_re, "Could not find the table");
   (Regex.dbFindUserByUsername_re,
    Samples.relation_does_not_exist "users");
   (Regex.dbFindUserByUsername_re, "row-level security policy");
   (Regex.dbCreateReport_re, "Could not find the table");
   (Regex.dbCreateReport_re, "row-level security policy");
   (Regex.dbGetReports_re, "Could not find the table");
   (Regex.dbGetReports_re,
    Samples.relation_does_not_exist "reports");
   (Regex.dbGetReports_re, "row-level security policy")].

(** The two signatures the helpers of an insert are left with. *)
Definition insert_signatures : list Regex.pattern :=
  [Regex.table_not_found; Regex.rls_rejection].

(** **** Requests that only read *)

(** The tables and the data directory are as they were. *)
Definition untouched (w w' : World) : Prop :=
  data w' = data w /\ backend w' = backend w /\ storage w' = storage w.

(** A request that selects. *)
Definition selects (c : Call) : Prop :=
  match c with
  | users_select_eq _ | users_select_listing | reports_select_ordered => True
  | users_insert _ | reports_insert _ => False
  end.

(** **** Accounts *)

(** The record a local signup makes at time [now]. *)
Definition local_user (now : Z) (fullName username email accountType password : string)
  : value :=
  JObj [("id", JNum now); ("fullName", JStr fullName);
        ("username", JStr username); ("email", JStr email);
        ("accountType", JStr accountType); ("password", JStr password)].

(** The store in charge in [w] holds one account of that name, with that
    password and account type, and [res] is the success that shows it: the
    only row of that name in the [users] table while the flag is on, the
    last record of the users file, and the only one of that name, once it
    is off. *)
Definition holds_account (username password accountType : string)
           (res : Response) (w : World) : Prop :=
  if supabaseAvailable w then
    exists row,
      filter (fun r => String.eqb (users.username r) username)
             (users_table (backend w)) = [row]
      /\ users.username row = username
      /\ users.password row = password
      /\ users.account_type row = accountType
      /\ res = success_user (Some (JNum (users.id row))) (Some (JStr username))
                            (Some (JStr accountType))
  else
    exists l now fullName email,
      content USERS_FILE w
      = Some (JSON.stringify
                (JArr (l ++ [local_user now fullName username email accountType
                                        password])))
      /\ find (username_is username) l = Normal None
      /\ res = success_user (Some (JNum now)) (Some (JStr username))
                            (Some (JStr accountType)).

(** The same with the whole of what the signup was given: the only row
    of that name in the [users] table holds the five fields of the signup
    while the flag is on; once it is off the last record of the users file
    is the one a local signup makes of them. *)
Definition enrolled (fullName username email accountType password : string)
           (res : Response) (w : World) : Prop :=
  if supabaseAvailable w then
    exists row,
      filter (fun r => String.eqb (users.username r) username)
             (users_table (backend w)) = [row]
      /\ users.full_name row = fullName
      /\ users.username row = username
      /\ users.email row = email
      /\ users.account_type row = accountType
      /\ users.password row = password
      /\ res = success_user (Some (JNum (users.id row))) (Some (JStr username))
                            (Some (JStr accountType))
  else
    exists l now,
      content USERS_FILE w
      = Some (JSON.stringify
                (JArr (l ++ [local_user now fullName username email accountType
                                        password])))
      /\ find (username_is username) l = Normal None
      /\ res = success_user (Some (JNum now)) (Some (JStr username))
                            (Some (JStr accountType)).

(** A record of a listing of the users that shows an account: its
    identifier and its four public fields under the names of the columns,
    and no password. *)
Definition lists_user (id : Z) (fullName username email accountType : string)
           (record : value) : Prop :=
  get "id" record = Normal (Some (JNum id))
  /\ get "full_name" record = Normal (Some (JStr fullName))
  /\ get "username" record = Normal (Some (JStr username))
  /\ get "email" record = Normal (Some (JStr email))
  /\ get "account_type" record = Normal (Some (JStr accountType))
  /\ get "password" record = Normal None.

(** [u => u.username === username && u.password === password &&
    u.accountType === accountType], the callback of the local login. *)
Definition credentials_are (username password accountType : string) (u : value)
  : Completion bool :=
  cbind (get "username" u) (fun x =>
  if is_string username x then
    cbind (get "password" u) (fun y =>
    if is_string password y then
      cbind (get "accountType" u) (fun z =>
      Normal (is_string accountType z))
    else Normal false)
  else Normal false).

(** **** Reports *)

(** A record of a listing that shows a report posted with these fields:
    the date under [date], the name and the grade with their defaults. *)
Definition shows_report (name grade : option string)
           (type description date : string) (record : value) : Prop :=
  get "name" record = Normal (Some (JStr (default "Anonymous" name)))
  /\ get "grade" record = Normal (Some (JStr (default EmptyString grade)))
  /\ get "type" record = Normal (Some (JStr type))
  /\ get "description" record = Normal (Some (JStr description))
  /\ get "date" record = Normal (Some (JStr date))
  /\ get "incident_date" record = Normal None.

(** The record a listing makes of a row of the [reports] table. *)
Definition listed_report (r : reports.row) : value :=
  JObj (object [("id", Some (JNum (reports.id r)));
                ("name", Some (nullable (reports.name r)));
                ("grade", Some (nullable (reports.grade r)));
                ("type", Some (JStr (reports.type r)));
                ("description", Some (JStr (reports.description r)));
                ("date", or_else (Some (JStr (reports.incident_date r))) None);
                ("created_at", Some (JNum (reports.created_at r)))]).

(** **** A backend that is not there *)

(** The request a handler sends first when the flag is on, and the pattern
    its helper runs over the message of an error; [None] for a request that
    is refused for a missing field, and for the listing of the users, whose
    handler sends its request without a helper. *)
Definition first_call (r : Request) : option (Call * list Regex.pattern) :=
  match r with
  | POST_signup req =>
      match nonempty (SignupBody.fullName req), nonempty (SignupBody.username req),
            nonempty (SignupBody.email req), nonempty (SignupBody.accountType req),
            nonempty (SignupBody.password req) with
      | Some _, Some username, Some _, Some _, Some _ =>
          Some (users_select_eq username, Regex.dbFindUserByUsername_re)
      | _, _, _, _, _ => None
      end
  | POST_login req =>
      match nonempty (LoginBody.username req), nonempty (LoginBody.password req),
            nonempty (LoginBody.accountType req) with
      | Some username, Some _, Some _ =>
          Some (users_select_eq username, Regex.dbFindUserByUsername_re)
      | _, _, _ => None
      end
  | POST_reports req =>
      match nonempty (ReportBody.type req), nonempty (ReportBody.description req),
            nonempty (ReportBody.date req) with
      | Some type, Some description, Some date =>
          Some (reports_insert
                  (new_report.make (default "Anonymous" (ReportBody.name req))
                                   (default EmptyString (ReportBody.grade req))
                                   type description date),
                Regex.dbCreateReport_re)
      | _, _, _ => None
      end
  | GET_reports => Some (reports_select_ordered, Regex.dbGetReports_re)
  | GET_users => None
  end.

(** The world right after [disableSupabase], called for a request that
    came back with an error of that message. *)
Definition demotion (c : Call) (msg : string) (later : list Outcome) (w : World)
  : World :=
  log (ConsoleWarn ("Disabling Supabase integration — " ++ msg))
      (set_supabaseAvailable false (set_network later (log (Supabase c) w))).

(** **** A collection file that holds something else *)

(** A document that is not an array. *)
Definition not_array (doc : value) : Prop :=
  match doc with
  | JArr _ => False
  | _ => True
  end.

(** A response that is an error of the server, from a request that wrote
    nothing. *)
Definition fails_without_writing (w : World) (out : Response * World) : Prop :=
  status (fst out) = 500 /\ data (snd out) = data w /\ storage (snd out) = storage w.

(** **** What a route answers *)

(** A field of a request body that is absent or the empty string. *)
Definition blank (x : option string) : Prop := x = None \/ x = Some EmptyString.

(** A request that lacks one of the fields its route requires. *)
Definition lacks_a_field (r : Request) : Prop :=
  match r with
  | POST_signup req =>
      blank (SignupBody.fullName req) \/ blank (SignupBody.username req)
      \/ blank (SignupBody.email req) \/ blank (SignupBody.accountType req)
      \/ blank (SignupBody.password req)
  | POST_login req =>
      blank (LoginBody.username req) \/ blank (LoginBody.password req)
      \/ blank (LoginBody.accountType req)
  | POST_reports req =>
      blank (ReportBody.type req) \/ blank (ReportBody.description req)
      \/ blank (ReportBody.date req)
  | GET_reports | GET_users => False
  end.

(** The status codes of each route. *)
Definition statuses (r : Request) : list nat :=
  match r with
  | POST_signup _ => [200; 400; 409; 500]
  | POST_login _ => [200; 400; 401; 500]
  | POST_reports _ => [200; 400; 500]
  | GET_reports | GET_users => [200; 500]
  end.

(** A response with one of these status codes. *)
Definition answers (codes : list nat) (res : Response) : Prop :=
  In (status res) codes.

End ServerProperties.

Module MigrationProperties.
Import JSON Server Migration.
Local Open Scope string_scope.
Local Open Scope list_scope.

(** **** The script and the tables *)

(** The row the script makes of a record whose fields are text. *)
Definition text_payload (u : new_user.t) : value :=
  JObj [("full_name", JStr (new_user.full_name u));
        ("username", JStr (new_user.username u));
        ("email", JStr (new_user.email u));
        ("account_type", JStr (new_user.account_type u));
        ("password", JStr (new_user.password u))].

(** A record of [users.json] as a local signup writes it. *)
Definition local_record (a : Z * new_user.t) : value :=
  JObj [("id", JNum (fst a)); ("fullName", JStr (new_user.full_name (snd a)));
        ("username", JStr (new_user.username (snd a)));
        ("email", JStr (new_user.email (snd a)));
        ("accountType", JStr (new_user.account_type (snd a)));
        ("password", JStr (new_user.password (snd a)))].

(** A backend takes the rows of users as the tables of
    [supabase_setup.sql] do, at the time [clock] tells for the row and the
    tables. *)
Definition takes_users (clock : new_user.t -> Backend -> Z)
           (insert : Table -> value -> Backend -> Completion Reply * Backend) : Prop :=
  forall u db,
    insert users_t (text_payload u) db
    = (Normal (fst (answer (users_insert u) (clock u db) db)),
       snd (answer (users_insert u) (clock u db) db)).

(** The text of a field of a row, when it is text. *)
Definition as_text (k : string) (p : value) : option string :=
  match get k p with
  | Normal (Some (JStr s)) => Some s
  | _ => None
  end.

(** A row of a report with its three required fields. *)
Definition report_row_ok (p : value) : Prop :=
  as_text "type" p <> None /\ as_text "description" p <> None
  /\ as_text "incident_date" p <> None.

(** A backend leaves the [users] table alone when it is handed a
    report. *)
Definition keeps_users
           (insert : Table -> value -> Backend -> Completion Reply * Backend) : Prop :=
  forall p db, users_table (snd (insert reports_t p db)) = users_table db.

(** A backend takes the rows of reports that are [accepted], whatever the
    [reports] table holds: the row is added to the table, which has no
    constraint a second copy could break. *)
Definition takes_reports (accepted : value -> Prop)
           (insert : Table -> value -> Backend -> Completion Reply * Backend) : Prop :=
  forall p db,
    accepted p ->
    exists row,
      reports_table (snd (insert reports_t p db)) = reports_table db ++ [row].

(** A backend for the examples: a row of a user whose five fields are
    text, and a row of a report whose type, description and date are, go in
    as the inserts of the server do; it refuses any other row. *)
Definition text_tables (now : Z) (t : Table) (p : value) (db : Backend)
  : Completion Reply * Backend :=
  match t with
  | users_t =>
      match as_text "full_name" p, as_text "username" p, as_text "email" p,
            as_text "account_type" p, as_text "password" p with
      | Some full_name, Some username, Some email, Some account_type, Some password =>
          let (r, db') :=
            answer (users_insert (new_user.make full_name username email
                                                account_type password)) now db in
          (Normal r, db')
      | _, _, _, _, _ => (Normal (Failure (mkError "not a row of text")), db)
      end
  | reports_t =>
      match as_text "type" p, as_text "description" p, as_text "incident_date" p with
      | Some type, Some description, Some date =>
          let id := (reports_id_seq db + 1)%Z in
          let r := reports.mkRow id (as_text "name" p) (as_text "grade" p)
                                 type description date now in
          (Normal (Data [reports_json_row r]),
           mkBackend (users_table db) (users_id_seq db) (reports_table db ++ [r]) id)
      | _, _, _ => (Normal (Failure (mkError "not a row of text")), db)
      end
  end.

(** A backend that refuses every row. *)
Definition refusing (t : Table) (p : value) (b : unit) : Completion Reply * unit :=
  (Normal (Failure (mkError "permission denied for table")), b).

(** The rows of a username. *)
Definition named (name : string) (r : users.row) : bool :=
  String.eqb (users.username r) name.

(** The tables after the rows of these users were handed to [users] one
    after the other. *)
Fixpoint insert_all (clock : new_user.t -> Backend -> Z) (us : list new_user.t)
         (db : Backend) : Backend :=
  match us with
  | [] => db
  | u :: us' => insert_all clock us' (snd (answer (users_insert u) (clock u db) db))
  end.

(** The table holds one row of the name of [u], with its password and
    account type. *)
Definition has_row (u : new_user.t) (db : Backend) : Prop :=
  exists row,
    filter (named (new_user.username u)) (users_table db) = [row]
    /\ users.username row = new_user.username u
    /\ users.password row = new_user.password u
    /\ users.account_type row = new_user.account_type u.

End MigrationProperties.

(** * Properties of the document codec *)

Module JSONFacts.
Import JSON.

Lemma ascii_eqb_eq (a b : ascii) : ascii_eqb a b = true <-> a = b.
Proof. apply Ascii.eqb_eq. Qed.

Lemma ascii_eqb_refl (a : ascii) : ascii_eqb a a = true.
Proof. apply Ascii.eqb_refl. Qed.

(** **** String literals *)

Lemma string_body_escape (c : ascii) (tl : text) :
  string_body (escape_char c ++ tl) =
  match string_body tl with
  | Some (cs, rest) => Some (c :: cs, rest)
  | None => None
  end.
Proof.
  destruct c as [[|] [|] [|] [|] [|] [|] [|] [|]]; reflexivity.
Qed.

Lemma string_body_quoted (cs rest : text) :
  string_body (flat_map escape_char cs ++ dquote :: rest) = Some (cs, rest).
Proof.
  induction cs as [|c cs IH]; [reflexivity|].
  change (flat_map escape_char (c :: cs))
    with (escape_char c ++ flat_map escape_char cs).
  rewrite <- app_assoc, string_body_escape, IH. reflexivity.
Qed.

Lemma quote_app (s : string) (rest : text) :
  quote s ++ rest = dquote :: flat_map escape_char (chars s) ++ dquote :: rest.
Proof. unfold quote. cbn [List.app]. now rewrite <- app_assoc. Qed.

Lemma parse_string_quoted (s : string) (rest : text) :
  parse_string (flat_map escape_char (chars s) ++ dquote :: rest) = Some (s, rest).
Proof.
  unfold parse_string. rewrite string_body_quoted. unfold chars.
  now rewrite string_of_list_ascii_of_string.
Qed.

(** **** Numbers *)

Lemma span_digits_uint (d : Decimal.uint) (rest : text) :
  ends_number rest = true ->
  span_digits (uint_digits d ++ rest) = (uint_digits d, rest).
Proof.
  intros Hrest.
  induction d; cbn [uint_digits List.app span_digits];
    try (change (is_digit _) with true; cbn iota; now rewrite IHd).
  destruct rest as [|c r]; [reflexivity|].
  cbn [span_digits]. cbn [ends_number] in Hrest.
  apply andb_true_iff in Hrest as [Hd _].
  apply negb_true_iff in Hd. now rewrite Hd.
Qed.

Lemma digits_uint_digits (d : Decimal.uint) : digits_uint (uint_digits d) = d.
Proof.
  induction d; cbn [uint_digits digits_uint]; [reflexivity|..];
    unfold digit_cons; cbn; now rewrite IHd.
Qed.

Lemma unorm_no_leading_zero (d d' : Decimal.uint) : Decimal.unorm d = Decimal.D0 d' -> d' = Decimal.Nil.
Proof.
  induction d; cbn; try discriminate; try (intros [= <-]; reflexivity).
  - exact IHd.
Qed.

Lemma to_uint_normal (n : N) : Decimal.unorm (N.to_uint n) = N.to_uint n.
Proof.
  rewrite <- (DecimalN.Unsigned.of_to n) at 2.
  now rewrite DecimalN.Unsigned.to_of.
Qed.

Lemma leading_zero_show_N (n : N) : leading_zero (show_N n) = false.
Proof.
  unfold show_N. pose proof (to_uint_normal n) as Hn.
  destruct (N.to_uint n) as [|d|d|d|d|d|d|d|d|d|d] eqn:E; try reflexivity;
    try (cbn; now destruct (uint_digits d)).
  apply unorm_no_leading_zero in Hn. now subst d.
Qed.

Lemma show_N_digit_first (n : N) :
  exists c r, show_N n = c :: r /\ is_digit c = true.
Proof.
  unfold show_N.
  assert (Hnil : N.to_uint n <> Decimal.Nil).
  { destruct n; [discriminate|]. apply DecimalPos.Unsigned.to_uint_nonnil. }
  destruct (N.to_uint n); [congruence|..]; cbn [uint_digits];
    do 2 eexists; (split; [reflexivity|reflexivity]).
Qed.

Lemma parse_digits_show_N (n : N) (rest : text) :
  ends_number rest = true ->
  exists c r,
    show_N n = c :: r /\ is_digit c = true /\
    span_digits (show_N n ++ rest) = (c :: r, rest) /\
    leading_zero (c :: r) = false /\
    N.of_uint (digits_uint (c :: r)) = n.
Proof.
  intros Hrest. destruct (show_N_digit_first n) as (c & r & E & Hc).
  exists c, r. repeat split; trivial.
  - rewrite <- E. unfold show_N. now apply span_digits_uint.
  - rewrite <- E. apply leading_zero_show_N.
  - rewrite <- E. unfold show_N.
    now rewrite digits_uint_digits, DecimalN.Unsigned.of_to.
Qed.

Lemma ends_number_no_fraction (rest : text) :
  ends_number rest = true -> starts_fraction_or_exponent rest = false.
Proof.
  destruct rest as [|c r]; [reflexivity|]. cbn [ends_number].
  intros H. apply andb_true_iff in H as [_ H]. now apply negb_true_iff in H.
Qed.

Lemma digit_not_minus (c : ascii) : is_digit c = true -> ascii_eqb c "-" = false.
Proof.
  destruct (ascii_eqb c "-") eqn:E; [|reflexivity].
  apply ascii_eqb_eq in E. now subst c.
Qed.

Lemma parse_number_show_Z (z : Z) (rest : text) :
  ends_number rest = true ->
  parse_number (show_Z z ++ rest) = Some (JNum z, rest).
Proof.
  intros Hrest. pose proof (ends_number_no_fraction _ Hrest) as Hfrac.
  unfold parse_number, show_Z.
  destruct z as [|p|p].
  - destruct (parse_digits_show_N 0 rest Hrest) as (c & r & E & Hc & Hs & Hz & Hv).
    rewrite E in Hs |- *. cbn [List.app] in *.
    rewrite (digit_not_minus _ Hc), Hs, Hz, Hfrac, Hv. reflexivity.
  - destruct (parse_digits_show_N (Npos p) rest Hrest)
      as (c & r & E & Hc & Hs & Hz & Hv).
    rewrite E in Hs |- *. cbn [List.app] in *.
    rewrite (digit_not_minus _ Hc), Hs, Hz, Hfrac, Hv. reflexivity.
  - destruct (parse_digits_show_N (Npos p) rest Hrest)
      as (c & r & E & Hc & Hs & Hz & Hv).
    cbn [List.app]. rewrite ascii_eqb_refl, Hs, Hz, Hfrac, Hv. reflexivity.
Qed.

(** **** Values *)

Lemma stringify_at_arr (ind : nat) (x : value) (xs : list value) :
  stringify_at ind (JArr (x :: xs)) =
  "["%char :: nl (2 + ind) ++ stringify_at (2 + ind) x
  ++ more_items (2 + ind) xs ++ nl ind ++ ["]"%char].
Proof.
  cbn [stringify_at]. do 4 f_equal.
  induction xs as [|y ys IH]; [reflexivity|].
  cbn [more_items]. now rewrite <- IH.
Qed.

Lemma stringify_at_obj (ind : nat) (k : string) (x : value)
      (ms : list (string * value)) :
  stringify_at ind (JObj ((k, x) :: ms)) =
  "{"%char :: nl (2 + ind) ++ quote k ++ chars ": "
  ++ stringify_at (2 + ind) x
  ++ more_members (2 + ind) ms ++ nl ind ++ ["}"%char].
Proof.
  cbn [stringify_at]. do 6 f_equal.
  induction ms as [|[k' y] ys IH]; [reflexivity|].
  cbn [more_members]. now rewrite <- IH.
Qed.

Lemma size_arr (l : list value) : size (JArr l) = S (items_size l).
Proof.
  reflexivity.
Qed.

Lemma size_obj (l : list (string * value)) : size (JObj l) = S (members_size l).
Proof.
  reflexivity.
Qed.

Lemma skip_ws_idem (s : text) : skip_ws (skip_ws s) = skip_ws s.
Proof.
  induction s as [|c r IH]; [reflexivity|].
  cbn [skip_ws]. destruct (is_ws c) eqn:E; [exact IH|].
  cbn [skip_ws]. now rewrite E.
Qed.

Lemma skip_ws_nl (ind : nat) (s : text) : skip_ws (nl ind ++ s) = skip_ws s.
Proof.
  unfold nl. cbn [List.app skip_ws]. change (is_ws LF) with true. cbn iota.
  induction ind as [|n IH]; [reflexivity|].
  cbn [repeat List.app skip_ws]. change (is_ws SP) with true. exact IH.
Qed.

Lemma parse_value_ws (fuel : nat) (s : text) :
  parse_value fuel (skip_ws s) = parse_value fuel s.
Proof.
  destruct fuel; [reflexivity|]. cbn [parse_value]. now rewrite skip_ws_idem.
Qed.

Lemma parse_value_nl (fuel ind : nat) (s : text) :
  parse_value fuel (nl ind ++ s) = parse_value fuel s.
Proof.
  now rewrite <- parse_value_ws, skip_ws_nl, parse_value_ws.
Qed.

Lemma parse_members_ws (fuel : nat) (s : text) :
  parse_members fuel (skip_ws s) = parse_members fuel s.
Proof.
  destruct fuel; [reflexivity|]. cbn [parse_members]. now rewrite skip_ws_idem.
Qed.

Lemma parse_members_nl (fuel ind : nat) (s : text) :
  parse_members fuel (nl ind ++ s) = parse_members fuel s.
Proof.
  now rewrite <- parse_members_ws, skip_ws_nl, parse_members_ws.
Qed.

(** A number is read by [parse_number] as soon as its first character is
    a digit or the sign. *)
Lemma parse_value_number (fuel : nat) (c : ascii) (r : text) :
  is_digit c || ascii_eqb c "-" = true ->
  parse_value (S fuel) (c :: r) = parse_number (c :: r).
Proof.
  destruct c as [[|] [|] [|] [|] [|] [|] [|] [|]];
    intros H; try discriminate H; reflexivity.
Qed.

Lemma stringify_at_head (ind : nat) (v : value) :
  exists c r, stringify_at ind v = c :: r /\ opens_value c = true.
Proof.
  destruct v as [|[|]|z|s|[|x xs]|[|[k x] ms]];
    try (do 2 eexists; split; [reflexivity|reflexivity]).
  cbn [stringify_at]. destruct z as [|p|p]; cbn [show_Z].
  1,2: match goal with |- context [show_N ?n] =>
         destruct (show_N_digit_first n) as (c & r & E & Hc) end;
       exists c, r; split; [exact E|];
       revert Hc; clear;
       destruct c as [[|] [|] [|] [|] [|] [|] [|] [|]];
       intros H; try discriminate H; reflexivity.
  do 2 eexists; split; reflexivity.
Qed.

Lemma skip_ws_opens (c : ascii) (r : text) :
  opens_value c = true -> skip_ws (c :: r) = c :: r.
Proof.
  unfold opens_value. intros H.
  apply andb_true_iff in H as [H _]. apply andb_true_iff in H as [H _].
  apply negb_true_iff in H. cbn [skip_ws]. now rewrite H.
Qed.

Lemma parse_value_array (fuel : nat) (c : ascii) (r s : text) :
  skip_ws s = c :: r -> ascii_eqb c "]" = false ->
  parse_value (S fuel) ("["%char :: s) =
  match parse_elements fuel s with
  | Some (vs, rest) => Some (JArr vs, rest)
  | None => None
  end.
Proof.
  intros Hs Hc. cbn [parse_value skip_ws].
  change (is_ws "[") with false. cbn iota.
  change (ascii_eqb "[" "[") with true. cbn iota.
  now rewrite Hs, Hc.
Qed.

Lemma parse_value_object (fuel : nat) (c : ascii) (r s : text) :
  skip_ws s = c :: r -> ascii_eqb c "}" = false ->
  parse_value (S fuel) ("{"%char :: s) =
  match parse_members fuel s with
  | Some (ms, rest) => Some (JObj ms, rest)
  | None => None
  end.
Proof.
  intros Hs Hc. cbn [parse_value skip_ws].
  change (is_ws "{") with false. cbn iota.
  change (ascii_eqb "{" "[") with false. cbn iota.
  change (ascii_eqb "{" "{") with true. cbn iota.
  now rewrite Hs, Hc.
Qed.

Lemma parse_value_string (fuel : nat) (s : text) :
  parse_value (S fuel) (dquote :: s) =
  match parse_string s with
  | Some (str, rest) => Some (JStr str, rest)
  | None => None
  end.
Proof. reflexivity. Qed.

Lemma ends_number_more_items (ind k : nat) (xs : list value) (rest : text) :
  ends_number (more_items ind xs ++ nl k ++ rest) = true.
Proof. destruct xs; reflexivity. Qed.

Lemma ends_number_more_members (ind k : nat) (ms : list (string * value))
      (rest : text) :
  ends_number (more_members ind ms ++ nl k ++ rest) = true.
Proof. destruct ms as [|[k' y] ms]; reflexivity. Qed.

Lemma parse_elements_items (xs : list value) :
  Forall reads_back xs ->
  forall (x : value) (ind k fuel : nat) (rest : text),
    reads_back x ->
    items_size (x :: xs) < fuel ->
    parse_elements fuel
      (nl ind ++ stringify_at ind x ++ more_items ind xs
       ++ nl k ++ "]"%char :: rest)
    = Some (x :: xs, rest).
Proof.
  induction 1 as [|y ys Hy Hys IH]; intros x ind k fuel rest Hx Hfuel;
    (destruct fuel as [|f]; [inversion Hfuel|]);
    cbn [items_size] in Hfuel;
    cbn [parse_elements]; rewrite parse_value_nl;
    rewrite (Hx ind f _ ltac:(lia) (ends_number_more_items _ _ _ _)).
  - cbn [more_items List.app]. rewrite skip_ws_nl. reflexivity.
  - cbn [more_items List.app skip_ws].
    change (is_ws ",") with false. cbn iota.
    change (ascii_eqb "," ",") with true. cbn iota.
    rewrite <- !app_assoc.
    rewrite (IH y ind k f rest Hy); [reflexivity|].
    cbn [items_size]. lia.
Qed.

Lemma parse_members_members (ms : list (string * value)) :
  Forall (fun kv => reads_back (snd kv)) ms ->
  forall (key : string) (x : value) (ind k fuel : nat) (rest : text),
    reads_back x ->
    members_size ((key, x) :: ms) < fuel ->
    parse_members fuel
      (nl ind ++ quote key ++ chars ": " ++ stringify_at ind x
       ++ more_members ind ms ++ nl k ++ "}"%char :: rest)
    = Some ((key, x) :: ms, rest).
Proof.
  induction 1 as [|[k' y] ys Hy Hys IH]; intros key x ind k fuel rest Hx Hfuel;
    (destruct fuel as [|f]; [inversion Hfuel|]);
    cbn [members_size] in Hfuel;
    rewrite parse_members_nl, quote_app;
    cbn [parse_members skip_ws];
    change (is_ws dquote) with false; cbn iota;
    change (ascii_eqb dquote dquote) with true; cbn iota;
    rewrite parse_string_quoted;
    cbn [chars list_ascii_of_string List.app skip_ws];
    change (is_ws ":") with false; cbn iota;
    change (ascii_eqb ":" ":") with true; cbn iota;
    rewrite <- (parse_value_ws f (_ :: _));
    cbn [skip_ws]; change (is_ws " ") with true; cbn iota;
    rewrite parse_value_ws;
    rewrite (Hx ind f _ ltac:(lia) (ends_number_more_members _ _ _ _)).
  - cbn [more_members List.app]. rewrite skip_ws_nl. reflexivity.
  - cbn [more_members List.app skip_ws].
    change (is_ws ",") with false. cbn iota.
    change (ascii_eqb "," ",") with true. cbn iota.
    rewrite <- !app_assoc.
    cbn [snd] in Hy.
    rewrite (IH k' y ind k f rest Hy); [reflexivity|].
    cbn [members_size]. lia.
Qed.

Lemma parse_value_stringify_at (v : value) : reads_back v.
Proof.
  induction v as [| b | z | s | l IHl | l IHl] using value_ind';
    intros ind fuel rest Hfuel Hrest;
    (destruct fuel as [|f]; [inversion Hfuel|]).
  - reflexivity.
  - destruct b; reflexivity.
  - cbn [stringify_at].
    rewrite <- (parse_number_show_Z z rest Hrest).
    destruct z as [|p|p]; cbn [show_Z].
    3: now apply parse_value_number.
    1,2: match goal with |- context [show_N ?n] =>
           destruct (show_N_digit_first n) as (c & r & E & Hc) end;
         rewrite E; cbn [List.app]; apply parse_value_number;
         now rewrite Hc.
  - cbn [stringify_at]. rewrite quote_app, parse_value_string.
    now rewrite parse_string_quoted.
  - destruct l as [|x xs]; [reflexivity|].
    rewrite stringify_at_arr. rewrite size_arr in Hfuel.
    inversion IHl as [|? ? Hx Hxs]; subst.
    cbn [List.app]. rewrite <- !app_assoc. cbn [List.app].
    destruct (stringify_at_head (2 + ind) x) as (c & r & E & Hc).
    erewrite parse_value_array.
    + rewrite (parse_elements_items xs Hxs x (2 + ind) ind f rest Hx);
        [reflexivity|lia].
    + rewrite skip_ws_nl, E. cbn [List.app]. now apply skip_ws_opens.
    + unfold opens_value in Hc. apply andb_true_iff in Hc as [Hc _].
      apply andb_true_iff in Hc as [_ Hc]. now apply negb_true_iff in Hc.
  - destruct l as [|[k x] ms]; [reflexivity|].
    rewrite stringify_at_obj. rewrite size_obj in Hfuel.
    inversion IHl as [|? ? Hx Hxs]; subst. cbn [snd] in Hx.
    cbn [List.app]. rewrite <- !app_assoc. cbn [List.app].
    erewrite parse_value_object.
    + rewrite (parse_members_members ms Hxs k x (2 + ind) ind f rest Hx);
        [reflexivity|lia].
    + rewrite skip_ws_nl, quote_app. reflexivity.
    + reflexivity.
Qed.

(** **** Enough fuel: a value is no larger than its text *)

Lemma size_le_more_items (ind : nat) (xs : list value) :
  Forall (fun v => forall ind, size v <= List.length (stringify_at ind v)) xs ->
  items_size xs <= List.length (more_items ind xs).
Proof.
  induction 1 as [|y ys Hy Hys IH]; [reflexivity|].
  cbn [items_size more_items List.length]. rewrite !length_app.
  specialize (Hy ind). lia.
Qed.

Lemma size_le_more_members (ind : nat) (ms : list (string * value)) :
  Forall (fun kv => forall ind,
              size (snd kv) <= List.length (stringify_at ind (snd kv))) ms ->
  members_size ms <= List.length (more_members ind ms).
Proof.
  induction 1 as [|[k y] ys Hy Hys IH]; [reflexivity|].
  cbn [members_size more_members List.length]. rewrite !length_app.
  specialize (Hy ind). cbn [snd] in Hy. lia.
Qed.

Lemma size_le_length (v : value) (ind : nat) :
  size v <= List.length (stringify_at ind v).
Proof.
  revert ind.
  induction v as [| b | z | s | l IHl | l IHl] using value_ind'; intros ind.
  - cbn. lia.
  - destruct b; cbn; lia.
  - destruct (stringify_at_head ind (JNum z)) as (c & r & E & _).
    rewrite E. cbn. lia.
  - cbn [stringify_at size]. unfold quote. cbn [List.length]. lia.
  - destruct l as [|x xs]; [cbn; lia|].
    rewrite stringify_at_arr, size_arr.
    inversion IHl as [|? ? Hx Hxs]; subst.
    cbn [items_size List.length]. rewrite !length_app.
    pose proof (size_le_more_items (2 + ind) xs Hxs).
    specialize (Hx (2 + ind)). cbn [List.length]. lia.
  - destruct l as [|[k x] ms]; [cbn; lia|].
    rewrite stringify_at_obj, size_obj.
    inversion IHl as [|? ? Hx Hxs]; subst. cbn [snd] in Hx.
    cbn [members_size List.length]. rewrite !length_app.
    pose proof (size_le_more_members (2 + ind) ms Hxs).
    specialize (Hx (2 + ind)). cbn [List.length]. lia.
Qed.

(** **** [JSON.parse (JSON.stringify (v, null, 2))] gives [v] back *)

Lemma parse_stringify (v : value) : parse (stringify v) = Some v.
Proof.
  unfold parse, stringify, chars.
  rewrite list_ascii_of_string_of_list_ascii.
  rewrite <- (app_nil_r (stringify_at 0 v)) at 2.
  rewrite (parse_value_stringify_at v 0 _ []); [reflexivity| |reflexivity].
  pose proof (size_le_length v 0). lia.
Qed.

(** The text of a document is never empty. *)
Lemma stringify_nonempty (v : value) : stringify v <> EmptyString.
Proof.
  unfold stringify. destruct (stringify_at_head 0 v) as (c & r & E & _).
  rewrite E. discriminate.
Qed.

Lemma parse_empty : parse EmptyString = None.
Proof. reflexivity. Qed.

Lemma parse_empty_array : parse "[]" = Some (JArr []).
Proof. reflexivity. Qed.

End JSONFacts.

(** * The local store *)

Module LocalStore.
Import JSON Server.
Local Open Scope string_scope.

Ltac world :=
  cbn [supabaseAvailable data backend clock network storage trace
       set_supabaseAvailable set_data set_backend set_clock set_network
       set_storage log message] in *.

Lemma file_put_same (f : File) (txt : string) (d : Dir) :
  file f (put f txt d) = Some txt.
Proof. destruct f; reflexivity. Qed.

Lemma file_put_other (f g : File) (txt : string) (d : Dir) :
  f <> g -> file g (put f txt d) = file g d.
Proof. destruct f, g; intros H; try reflexivity; now contradiction H. Qed.

(** [readJson] unfolded: one read, and the fallback for everything that
    goes wrong. *)
Lemma readJson_eq (f : File) (fallback : value) (w : World) :
  readJson f fallback w =
  (Normal
     match data w with
     | Some d =>
         match file f d with
         | Some txt =>
             match JSON.parse (if String.eqb txt EmptyString then "[]" else txt) with
             | Some v => v
             | None => fallback
             end
         | None => fallback
         end
     | None => fallback
     end,
   log (ReadFile f) w).
Proof.
  unfold readJson, try_catch, bind, fs_readFile, ret, throw. world.
  destruct (data w) as [d|]; [|reflexivity].
  destruct (file f d) as [txt|]; [|reflexivity].
  now destruct (JSON.parse _).
Qed.

(** [writeJson] unfolded. *)
Lemma writeJson_eq (f : File) (doc : value) (w : World) :
  writeJson f doc w =
  let d := match data w with Some d => d | None => mkDir None None end in
  let w1 := log (WriteFile f (JSON.stringify doc)) (log Mkdir w) in
  match storage w with
  | Stops n :: later =>
      (Thrown (mkError "write failed"),
       set_storage later
         (set_data (Some (put f (prefix n (JSON.stringify doc)) d)) w1))
  | Completes :: later =>
      (Normal tt,
       set_storage later (set_data (Some (put f (JSON.stringify doc) d)) w1))
  | [] => (Normal tt, set_data (Some (put f (JSON.stringify doc) d)) w1)
  end.
Proof.
  unfold writeJson, bind, fs_mkdir, fs_writeFile. world.
  destruct (data w) as [d|] eqn:E; world; rewrite ?E;
    destruct (storage w) as [|[|n] later]; reflexivity.
Qed.

(** A write that came to its end left the text of the document in the
    file. *)
Lemma writeJson_done (f : File) (doc : value) (w w' : World) :
  writeJson f doc w = (Normal tt, w') ->
  exists d, data w' = Some d /\ file f d = Some (JSON.stringify doc).
Proof.
  rewrite writeJson_eq. cbv zeta.
  destruct (storage w) as [|[|n] later]; intros [= <-]; world;
    eexists; (split; [reflexivity|apply file_put_same]).
Qed.



(** C6. [readJson] never fails its caller: whatever the state of the
    file it ends normally, and for a file that is absent, empty or not
    JSON it gives the empty sequence, with nothing in the outcome or in
    the world to tell these cases apart. *)
Theorem readJson_never_fails (f : File) (fallback : value) (w : World) :
  (exists v, readJson f fallback w = (Normal v, log (ReadFile f) w)) /\
  (unreadable f w ->
   readJson f (JArr []) w = (Normal (JArr []), log (ReadFile f) w)).
Proof.
  split.
  - rewrite readJson_eq. eexists. reflexivity.
  - unfold unreadable. rewrite readJson_eq.
    destruct (data w) as [d|]; [|reflexivity].
    destruct (file f d) as [txt|]; [|reflexivity].
    intros [-> | Hp]; [reflexivity|].
    destruct (String.eqb txt EmptyString) eqn:E.
    + reflexivity.
    + now rewrite Hp.
Qed.

(** C6, at a reports file cut short. *)
Lemma readJson_never_fails_witness :
  let w := mkWorld false (Some (mkDir None (Some "[{")))
                   (mkBackend [] 0 [] 0) 0 [] [] [] in
  unreadable REPORTS_FILE w /\
  readJson REPORTS_FILE (JArr []) w = (Normal (JArr []), log (ReadFile REPORTS_FILE) w).
Proof.
  cbv zeta.
  assert (H : unreadable REPORTS_FILE
                (mkWorld false (Some (mkDir None (Some "[{")))
                         (mkBackend [] 0 [] 0) 0 [] [] [])).
  { right. reflexivity. }
  split; [exact H|].
  exact (proj2 (readJson_never_fails REPORTS_FILE (JArr []) _) H).
Defined.

(** C4 (as the code has it). [writeJson] makes sure the directory is
    there and then writes the text of the document straight into the
    collection file, in one [writeFile] and through no other file: a write
    that comes to its end leaves exactly the new snapshot in the file, a
    write that fails leaves the bytes that went in before the failure, and
    the other collection file is not touched. *)
Theorem writeJson_overwrites_in_place (f : File) (doc : value) (w : World) :
  let txt := JSON.stringify doc in
  let (r, w') := writeJson f doc w in
  trace w' = WriteFile f txt :: Mkdir :: trace w /\
  content (other f) w' = content (other f) w /\
  match storage w with
  | Stops n :: _ => r = Thrown (mkError "write failed")
                    /\ content f w' = Some (prefix n txt)
  | _ => r = Normal tt /\ content f w' = Some txt
  end.
Proof.
  cbv zeta. rewrite writeJson_eq. cbv zeta. unfold content.
  destruct (storage w) as [|[|n] later]; world;
    (split; [reflexivity|]); (split; [|split; try reflexivity]);
    try apply file_put_same;
    destruct (data w) as [d|]; destruct f; reflexivity.
Qed.

(** C4 does not hold as stated: a write that stops after four bytes
    leaves a reports file that is not JSON any more, and the snapshot
    that was there before reads back as the empty sequence. *)
Lemma interrupted_write_loses_snapshot :
  let old := JArr [JObj [("id", JNum 1); ("type", JStr "bullying")]] in
  let new := JArr [JObj [("id", JNum 2); ("type", JStr "theft")];
                   JObj [("id", JNum 1); ("type", JStr "bullying")]] in
  let w := mkWorld false (Some (mkDir None (Some (JSON.stringify old))))
                   (mkBackend [] 0 [] 0) 0 [] [Stops 4] [] in
  let (r, w') := writeJson REPORTS_FILE new w in
  fst (readJson REPORTS_FILE (JArr []) w) = Normal old /\
  r = Thrown (mkError "write failed") /\
  trace w' = [WriteFile REPORTS_FILE (JSON.stringify new); Mkdir] /\
  content REPORTS_FILE w' = Some (prefix 4 (JSON.stringify new)) /\
  fst (readJson REPORTS_FILE (JArr []) w') = Normal (JArr []) /\
  JArr [] <> old.
Proof.
  vm_compute. repeat split; discriminate.
Qed.

End LocalStore.

(** * The one-way flag *)

Module Failover.
Import JSON Server Properties.
Local Open Scope string_scope.
Local Open Scope list_scope.
Local Open Scope js_scope.

Ltac world := LocalStore.world.

(** **** Moving along a preorder *)

Section Respects.
Variable R : World -> World -> Prop.
Hypothesis R_refl : forall w, R w w.
Hypothesis R_trans : forall w1 w2 w3, R w1 w2 -> R w2 w3 -> R w1 w3.

Lemma respects_ret {A : Type} (a : A) : respects R (ret a).
Proof. intros w. apply R_refl. Qed.

Lemma respects_throw {A : Type} (e : Error) : respects R (@throw A e).
Proof. intros w. apply R_refl. Qed.

Lemma respects_lift {A : Type} (c : Completion A) : respects R (lift c).
Proof. intros w. apply R_refl. Qed.

Lemma respects_bind {A B : Type} (m : M A) (k : A -> M B) :
  respects R m -> (forall a, respects R (k a)) -> respects R (bind m k).
Proof.
  intros Hm Hk w. unfold bind. specialize (Hm w).
  destruct (m w) as [[a|e] w1]; cbn [snd] in *; [|exact Hm].
  eapply R_trans; [exact Hm|apply Hk].
Qed.

Lemma respects_try_catch {A : Type} (m : M A) (h : Error -> M A) :
  respects R m -> (forall e, respects R (h e)) -> respects R (try_catch m h).
Proof.
  intros Hm Hh w. unfold try_catch. specialize (Hm w).
  destruct (m w) as [[a|e] w1]; cbn [snd] in *; [exact Hm|].
  eapply R_trans; [exact Hm|apply Hh].
Qed.
End Respects.

Lemma stays_off_refl (w : World) : stays_off w w.
Proof. now intros H. Qed.

Lemma stays_off_trans (w1 w2 w3 : World) :
  stays_off w1 w2 -> stays_off w2 w3 -> stays_off w1 w3.
Proof.
  intros H12 H23 H1. destruct (H12 H1) as (F2 & C2 & B2 & N2).
  destruct (H23 F2) as (F3 & C3 & B3 & N3).
  repeat split; congruence.
Qed.

(** A step that touches neither the flag nor the backend, and adds no
    request to the trace. *)
Lemma stays_off_local (w w' : World) :
  supabaseAvailable w' = supabaseAvailable w ->
  calls (trace w') = calls (trace w) ->
  backend w' = backend w ->
  network w' = network w ->
  stays_off w w'.
Proof. intros F C B N H. repeat split; congruence. Qed.

Lemma off_readJson (f : File) (fallback : value) :
  respects stays_off (readJson f fallback).
Proof.
  intros w. rewrite LocalStore.readJson_eq. now apply stays_off_local.
Qed.

Lemma off_writeJson (f : File) (doc : value) :
  respects stays_off (writeJson f doc).
Proof.
  intros w. rewrite LocalStore.writeJson_eq. cbv zeta.
  destruct (storage w) as [|[|n] later]; now apply stays_off_local.
Qed.

Lemma off_Date_now : respects stays_off Date_now.
Proof. intros w. apply stays_off_refl. Qed.

Lemma off_server_error (e : Error) : respects stays_off (server_error e).
Proof. intros w. now apply stays_off_local. Qed.

(** With the flag off, what follows the test of the flag is its
    [false] branch. *)
Lemma off_guard {A : Type} (k : bool -> M A) :
  respects stays_off (k false) ->
  respects stays_off (bind read_supabaseAvailable k).
Proof.
  intros Hk w Hoff. unfold bind, read_supabaseAvailable.
  rewrite Hoff. now apply Hk.
Qed.

Lemma off_bind {A B : Type} (m : M A) (k : A -> M B) :
  respects stays_off m -> (forall a, respects stays_off (k a)) ->
  respects stays_off (bind m k).
Proof. apply respects_bind, stays_off_trans. Qed.

Lemma off_try_catch {A : Type} (m : M A) (h : Error -> M A) :
  respects stays_off m -> (forall e, respects stays_off (h e)) ->
  respects stays_off (try_catch m h).
Proof. apply respects_try_catch, stays_off_trans. Qed.

Lemma off_ret {A : Type} (a : A) : respects stays_off (ret a).
Proof. apply respects_ret, stays_off_refl. Qed.

Lemma off_lift {A : Type} (c : Completion A) : respects stays_off (lift c).
Proof. apply respects_lift, stays_off_refl. Qed.

Create HintDb off.
#[local] Hint Resolve off_readJson off_writeJson off_Date_now off_server_error
  off_ret off_lift : off.

Ltac off :=
  repeat first
    [ apply off_guard; cbn iota
    | solve [auto with off]
    | apply off_try_catch; [|intros]
    | apply off_bind; [|intros]
    | match goal with
      | |- respects _ (prop _ _) => apply off_lift
      | |- respects _ (if ?b then _ else _) => destruct b
      | |- respects _ (match ?x with _ => _ end) => destruct x
      end ].

Lemma off_signup (req : SignupBody.t) : respects stays_off (signup req).
Proof. unfold signup, signup_local. off. Qed.

Lemma off_login (req : LoginBody.t) : respects stays_off (login req).
Proof. unfold login, login_local. off. Qed.

Lemma off_createReport (req : ReportBody.t) :
  respects stays_off (createReport req).
Proof. unfold createReport, createReport_local. off. Qed.

Lemma off_listReports : respects stays_off listReports.
Proof. unfold listReports, listReports_local. off. Qed.

Lemma off_listUsers : respects stays_off listUsers.
Proof. unfold listUsers, listUsers_local. off. Qed.

Lemma off_handler (r : Request) : respects stays_off (handler r).
Proof.
  destruct r; cbn [handler];
    auto using off_signup, off_login, off_createReport, off_listReports,
               off_listUsers.
Qed.

Lemma off_serve (r : Request) (w : World) : stays_off w (snd (serve r w)).
Proof.
  unfold serve. pose proof (off_handler r w) as H.
  now destruct (handler r w) as [[res|e] w'].
Qed.

Lemma off_run (inputs : list Input) (w : World) :
  stays_off w (snd (run inputs w)).
Proof.
  revert w. induction inputs as [|[r|ms] rest IH]; intros w; cbn [run].
  - apply stays_off_refl.
  - pose proof (off_serve r w) as H1.
    destruct (serve r w) as [res w1]. cbn [snd] in H1.
    specialize (IH w1). destruct (run rest w1) as [out w2]. cbn [snd] in *.
    eapply stays_off_trans; eassumption.
  - eapply stays_off_trans; [|apply IH]. now apply stays_off_local.
Qed.

Lemma run_app (before after : list Input) (w : World) :
  snd (run (before ++ after) w) = snd (run after (snd (run before w))).
Proof.
  revert w. induction before as [|[r|ms] rest IH]; intros w; cbn [run List.app].
  - reflexivity.
  - destruct (serve r w) as [res w1]. specialize (IH w1).
    destruct (run (rest ++ after) w1), (run rest w1). exact IH.
  - apply IH.
Qed.

(** **** No request after a demotion *)

Lemma keeps_refl (w : World) : keeps w w.
Proof. now intros H. Qed.

Lemma keeps_trans (w1 w2 w3 : World) : keeps w1 w2 -> keeps w2 w3 -> keeps w1 w3.
Proof. unfold keeps. auto. Qed.

Lemma calls_cons (e : Event) (t : list Event) :
  calls (e :: t) = calls [e] ++ calls t.
Proof. unfold calls. cbn [flat_map]. now rewrite app_nil_r. Qed.

Lemma quiet_cons (e : Event) (t : list Event) :
  calls [e] = [] -> quiet_after_demotion t -> quiet_after_demotion (e :: t).
Proof.
  intros He Ht later line earlier E.
  destruct later as [|e' later']; [reflexivity|].
  cbn [List.app] in E. injection E as <- ->.
  rewrite calls_cons, He. cbn [List.app]. eapply Ht. reflexivity.
Qed.

Lemma quiet_request (c : Call) (t : list Event) :
  ~ demoted t -> quiet_after_demotion (Supabase c :: t).
Proof.
  intros Hn later line earlier E.
  destruct later as [|e' later']; [discriminate E|].
  cbn [List.app] in E. injection E as <- ->.
  contradiction Hn. exists line. apply in_or_app. right. now left.
Qed.

Lemma demoted_cons (e : Event) (t : list Event) :
  (forall line, e <> ConsoleWarn line) -> demoted (e :: t) -> demoted t.
Proof.
  intros He [line [H|H]]; [now contradiction (He line)|]. now exists line.
Qed.

(** An event of the data directory or of the console's error stream. *)
Lemma one_way_log (e : Event) (w : World) :
  calls [e] = [] -> (forall line, e <> ConsoleWarn line) ->
  one_way w -> one_way (log e w).
Proof.
  intros Hc He [Hflag Hq]. split; world.
  - intros Hd. apply Hflag. now apply demoted_cons in Hd.
  - now apply quiet_cons.
Qed.

(** A request sent while the flag is on. *)
Lemma one_way_request (c : Call) (w : World) :
  supabaseAvailable w = true -> one_way w -> one_way (log (Supabase c) w).
Proof.
  intros Hon [Hflag Hq].
  assert (Hn : ~ demoted (trace w)) by (intros Hd; apply Hflag in Hd; congruence).
  split; world.
  - intros Hd. apply demoted_cons in Hd; [contradiction|discriminate].
  - now apply quiet_request.
Qed.

(** Clearing the flag, with or without the warning. *)
Lemma one_way_off (w : World) :
  one_way w -> one_way (set_supabaseAvailable false w).
Proof. intros [Hflag Hq]. split; world; [reflexivity|exact Hq]. Qed.

Lemma one_way_warn (line : string) (w : World) :
  supabaseAvailable w = false -> one_way w -> one_way (log (ConsoleWarn line) w).
Proof.
  intros Hoff [Hflag Hq]. split; world; [now intros _|].
  now apply quiet_cons.
Qed.

(** What does not touch the flag or the trace. *)
Lemma one_way_same (w w' : World) :
  supabaseAvailable w' = supabaseAvailable w -> trace w' = trace w ->
  one_way w -> one_way w'.
Proof. unfold one_way. intros -> ->. auto. Qed.

Lemma keeps_readJson (f : File) (fallback : value) :
  respects keeps (readJson f fallback).
Proof.
  intros w H. rewrite LocalStore.readJson_eq. cbn [snd].
  apply one_way_log; [reflexivity|discriminate|exact H].
Qed.

Lemma keeps_writeJson (f : File) (doc : value) : respects keeps (writeJson f doc).
Proof.
  intros w H. rewrite LocalStore.writeJson_eq. cbv zeta.
  assert (H2 : one_way (log (WriteFile f (stringify doc)) (log Mkdir w))).
  { apply one_way_log; [reflexivity|discriminate|].
    apply one_way_log; [reflexivity|discriminate|exact H]. }
  destruct (storage w) as [|[|n] later]; cbn [snd];
    (eapply one_way_same; [| |exact H2]; reflexivity).
Qed.

Lemma keeps_Date_now : respects keeps Date_now.
Proof. intros w. apply keeps_refl. Qed.

Lemma keeps_server_error (e : Error) : respects keeps (server_error e).
Proof.
  intros w H. cbn. apply one_way_log; [reflexivity|discriminate|exact H].
Qed.

Lemma keeps_disableSupabase (reason : string) :
  respects keeps (disableSupabase reason).
Proof.
  intros w H. cbn [disableSupabase snd].
  apply one_way_warn; [reflexivity|]. now apply one_way_off.
Qed.

Lemma keeps_bind {A B : Type} (m : M A) (k : A -> M B) :
  respects keeps m -> (forall a, respects keeps (k a)) -> respects keeps (bind m k).
Proof. apply respects_bind, keeps_trans. Qed.

Lemma keeps_try_catch {A : Type} (m : M A) (h : Error -> M A) :
  respects keeps m -> (forall e, respects keeps (h e)) ->
  respects keeps (try_catch m h).
Proof. apply respects_try_catch, keeps_trans. Qed.

Lemma keeps_ret {A : Type} (a : A) : respects keeps (ret a).
Proof. apply respects_ret, keeps_refl. Qed.

Lemma keeps_throw {A : Type} (e : Error) : respects keeps (@throw A e).
Proof. apply respects_throw, keeps_refl. Qed.

Lemma keeps_lift {A : Type} (c : Completion A) : respects keeps (lift c).
Proof. apply respects_lift, keeps_refl. Qed.

Lemma keeps_unavailable_or_rethrow {A : Type} (re : list Regex.pattern)
      (err : Error) :
  respects keeps (@unavailable_or_rethrow A re err).
Proof.
  unfold unavailable_or_rethrow. destruct (Regex.test re (message err)).
  - apply keeps_bind; [apply keeps_disableSupabase|intros; apply keeps_ret].
  - apply keeps_throw.
Qed.

(** One request, sent with the flag on; the flag is still on when the
    reply is there. *)
Lemma data_or_throw_on (c : Call) (w : World) :
  supabaseAvailable w = true -> one_way w ->
  one_way (snd (data_or_throw c w)).
Proof.
  intros Hon H. unfold data_or_throw, bind, supabase. world.
  pose proof (one_way_request c w Hon H) as H1.
  destruct (network w) as [|[|msg] later];
    try destruct (answer c (clock w) (backend w)) as [[rows|e] db];
    cbn [snd ret throw]; (eapply one_way_same; [| |exact H1]; reflexivity).
Qed.

(** The body of a helper under its test of the flag. *)
Lemma keeps_guarded_call {A : Type} (c : Call) (k : list value -> M (option A))
      (re : list Regex.pattern) :
  (forall rows, respects keeps (k rows)) ->
  respects keeps
    (available <- read_supabaseAvailable ;;
     if negb available then ret None
     else try_catch (rows <- data_or_throw c ;; k rows)
                    (unavailable_or_rethrow re)).
Proof.
  intros Hk w H. unfold bind at 1. unfold read_supabaseAvailable.
  destruct (supabaseAvailable w) eqn:Hon; cbn [negb]; [|exact H].
  pose proof (data_or_throw_on c w Hon H) as H1.
  unfold try_catch, bind.
  destruct (data_or_throw c w) as [[rows|e] w1]; cbn [snd] in H1.
  - pose proof (Hk rows w1 H1) as H2.
    destruct (k rows w1) as [[a|e] w2]; cbn [snd] in *; [exact H2|].
    now apply keeps_unavailable_or_rethrow.
  - now apply keeps_unavailable_or_rethrow.
Qed.

Lemma keeps_dbCreateUser (u : new_user.t) : respects keeps (dbCreateUser u).
Proof. apply keeps_guarded_call. intros. apply keeps_ret. Qed.

Lemma keeps_dbFindUserByUsername (name : string) :
  respects keeps (dbFindUserByUsername name).
Proof. apply keeps_guarded_call. intros. apply keeps_ret. Qed.

Lemma keeps_dbCreateReport (r : new_report.t) : respects keeps (dbCreateReport r).
Proof. apply keeps_guarded_call. intros. apply keeps_ret. Qed.

Lemma keeps_dbGetReports : respects keeps dbGetReports.
Proof. apply keeps_guarded_call. intros. apply keeps_ret. Qed.

Create HintDb keeps.
#[local] Hint Resolve keeps_readJson keeps_writeJson keeps_Date_now
  keeps_server_error keeps_ret keeps_throw keeps_lift keeps_dbCreateUser
  keeps_dbFindUserByUsername keeps_dbCreateReport keeps_dbGetReports : keeps.

Ltac keeps :=
  repeat first
    [ solve [auto with keeps]
    | apply keeps_try_catch; [|intros]
    | apply keeps_bind; [|intros]
    | match goal with
      | |- respects _ (prop _ _) => apply keeps_lift
      | |- respects _ read_supabaseAvailable => intros ?; apply keeps_refl
      | |- respects _ (if ?b then _ else _) => destruct b
      | |- respects _ (match ?x with _ => _ end) => destruct x
      end ].

Lemma keeps_signup (req : SignupBody.t) : respects keeps (signup req).
Proof. unfold signup, signup_supabase, signup_local. keeps. Qed.

Lemma keeps_login (req : LoginBody.t) : respects keeps (login req).
Proof. unfold login, login_supabase, login_local. keeps. Qed.

Lemma keeps_createReport (req : ReportBody.t) : respects keeps (createReport req).
Proof. unfold createReport, createReport_supabase, createReport_local. keeps. Qed.

Lemma keeps_listReports : respects keeps listReports.
Proof. unfold listReports, listReports_supabase, listReports_local. keeps. Qed.

(** The handler of [/api/users] sends its request itself, right under
    the test of the flag, and clears the flag in its own [catch]. *)
Lemma keeps_listUsers_guarded (k : option Response -> M Response) :
  (forall r, respects keeps (k r)) ->
  respects keeps
    (available <- read_supabaseAvailable ;;
     returned <- (if available then listUsers_supabase else ret None) ;;
     k returned).
Proof.
  intros Hk w H. unfold bind at 1. unfold read_supabaseAvailable.
  destruct (supabaseAvailable w) eqn:Hon.
  - unfold bind, listUsers_supabase, try_catch, bind.
    pose proof (data_or_throw_on users_select_listing w Hon H) as H1.
    destruct (data_or_throw users_select_listing w) as [[rows|e] w1];
      cbn [snd ret] in *.
    + now apply Hk.
    + cbn [console_warn]. apply Hk.
      apply one_way_warn; [reflexivity|]. now apply one_way_off.
  - unfold bind, ret. now apply Hk.
Qed.

Lemma keeps_listUsers : respects keeps listUsers.
Proof.
  unfold listUsers. apply keeps_try_catch; [|intros; apply keeps_server_error].
  apply keeps_listUsers_guarded. intros [res|]; unfold listUsers_local; keeps.
Qed.

Lemma keeps_handler (r : Request) : respects keeps (handler r).
Proof.
  destruct r; cbn [handler];
    auto using keeps_signup, keeps_login, keeps_createReport,
               keeps_listReports, keeps_listUsers.
Qed.

Lemma keeps_run (inputs : list Input) (w : World) :
  one_way w -> one_way (snd (run inputs w)).
Proof.
  revert w. induction inputs as [|[r|ms] rest IH]; intros w H; cbn [run].
  - exact H.
  - pose proof (keeps_handler r w H) as H1. unfold serve.
    destruct (handler r w) as [[res|e] w1]; cbn [snd] in H1;
      specialize (IH w1 H1); destruct (run rest w1) as [out w2]; exact IH.
  - apply IH. eapply one_way_same; [| |exact H]; reflexivity.
Qed.

Lemma one_way_boot (url key : string) (d : option Dir) (db : Backend) (now : Z)
      (net : list Outcome) (disk : list Write) :
  one_way (boot url key d db now net disk).
Proof.
  split; cbn.
  - intros [line []].
  - intros [|e later] line earlier E; discriminate E.
Qed.

(** An error that a helper takes for a missing backend clears the flag
    and leaves a demotion on record; the helper gives [null]. *)
Lemma permanent_failure_demotes {A : Type} (re : list Regex.pattern)
      (err : Error) (w : World) :
  Regex.test re (message err) = true ->
  fst (@unavailable_or_rethrow A re err w) = Normal None
  /\ supabaseAvailable (snd (@unavailable_or_rethrow A re err w)) = false
  /\ demoted (trace (snd (@unavailable_or_rethrow A re err w))).
Proof.
  intros H. unfold unavailable_or_rethrow. rewrite H. cbn.
  repeat split. eexists. now left.
Qed.

(** One request at a time.  In every run of a process: once the flag is
    off after some requests, it is off after any further ones, these send
    nothing to the backend and use none of its answers, and the tables are
    as they were; and from the start of the process, a demotion on record
    means the flag is off, and no request to the backend is later than a
    demotion, not even in the operation that demoted. *)
Lemma off_for_good
      (before after : list Input) (w : World) :
  supabaseAvailable (snd (run before w)) = false ->
  (let w1 := snd (run before w) in
   let w2 := snd (run (before ++ after) w) in
   supabaseAvailable w2 = false
   /\ calls (trace w2) = calls (trace w1)
   /\ backend w2 = backend w1
   /\ network w2 = network w1)
  /\ (forall url key d db now net disk,
        let w' := snd (run (before ++ after) (boot url key d db now net disk)) in
        (demoted (trace w') -> supabaseAvailable w' = false)
        /\ quiet_after_demotion (trace w')).
Proof.
  intros Hoff. split.
  - cbv zeta. rewrite run_app. now apply off_run.
  - intros. apply keeps_run, one_way_boot.
Qed.

(** At a process whose first lookup meets a table that was never
    created, followed by one request of each kind. *)
Example off_for_good_after_missing_table :
  let ann := SignupBody.make (Some "Ann") (Some "ann") (Some "ann@school")
                             (Some "Student") (Some "secret") in
  let before := [Incoming (POST_signup ann)] in
  let after :=
    [Incoming (POST_signup ann);
     Incoming (POST_login (LoginBody.make (Some "ann") (Some "secret") (Some "Student")));
     Elapsed 5;
     Incoming (POST_reports (ReportBody.make None None (Some "bullying")
                                             (Some "in the yard") (Some "2024-01-01")));
     Incoming GET_reports; Incoming GET_users] in
  let w := boot "https://project.supabase.co" "anon-key" None
                (mkBackend [] 0 [] 0) 1700000000000
                [Refused "Could not find the table 'public.users' in the schema cache"]
                [] in
  supabaseAvailable (snd (run before w)) = false
  /\ supabaseAvailable (snd (run (before ++ after) w)) = false
  /\ calls (trace (snd (run (before ++ after) w)))
     = [users_select_eq "ann"].
Proof.
  cbv zeta.
  assert (H : supabaseAvailable
                (snd (run [Incoming
                             (POST_signup
                                (SignupBody.make (Some "Ann") (Some "ann")
                                   (Some "ann@school") (Some "Student")
                                   (Some "secret")))]
                        (boot "https://project.supabase.co" "anon-key" None
                              (mkBackend [] 0 [] 0) 1700000000000
                              [Refused "Could not find the table 'public.users' in the schema cache"]
                              []))) = false) by reflexivity.
  split; [exact H|].
  destruct (off_for_good _
              [Incoming
                 (POST_signup
                    (SignupBody.make (Some "Ann") (Some "ann") (Some "ann@school")
                       (Some "Student") (Some "secret")));
               Incoming (POST_login (LoginBody.make (Some "ann") (Some "secret")
                                                    (Some "Student")));
               Elapsed 5;
               Incoming (POST_reports (ReportBody.make None None (Some "bullying")
                                                       (Some "in the yard")
                                                       (Some "2024-01-01")));
               Incoming GET_reports; Incoming GET_users] _ H)
    as [(Hflag & Hcalls & _) _].
  split; [exact Hflag|]. rewrite Hcalls. reflexivity.
Qed.

End Failover.

(** * Requests in flight together *)

Module Interleaving.
Import JSON Server Properties.
Local Open Scope string_scope.
Local Open Scope list_scope.

Ltac world := LocalStore.world.

(** **** Run to its end, a task is the computation of the same name *)

Lemma exec_bind {A B : Type} (t : Async.Task A) (k : A -> Async.Task B) (w : World) :
  Async.exec (Async.bind t k) w
  = bind (Async.exec t) (fun a => Async.exec (k a)) w.
Proof.
  revert w. induction t as [[a|e]|k0 IH|k0 IH|line k0 IH|e k0 IH|k0 IH|c k0 IH
                            |f k0 IH|k0 IH|f txt k0 IH|k0 IH]; intros w;
    cbn [Async.bind Async.exec]; unfold bind in *; cbn [Async.exec]; auto.
  - destruct (Async.deliver c (log (Supabase c) w)) as [r w']. apply IH.
  - destruct (fs_readFile f w) as [x w']. apply IH.
  - destruct (fs_writeFile f txt w) as [x w']. apply IH.
Qed.

Lemma exec_try_catch {A : Type} (t : Async.Task A) (h : Error -> Async.Task A)
      (w : World) :
  Async.exec (Async.try_catch t h) w
  = try_catch (Async.exec t) (fun e => Async.exec (h e)) w.
Proof.
  revert w. induction t as [[a|e]|k0 IH|k0 IH|line k0 IH|e k0 IH|k0 IH|c k0 IH
                            |f k0 IH|k0 IH|f txt k0 IH|k0 IH]; intros w;
    cbn [Async.try_catch Async.exec]; unfold try_catch in *; cbn [Async.exec]; auto.
  - destruct (Async.deliver c (log (Supabase c) w)) as [r w']. apply IH.
  - destruct (fs_readFile f w) as [x w']. apply IH.
  - destruct (fs_writeFile f txt w) as [x w']. apply IH.
Qed.

Lemma agrees_ret {A : Type} (a : A) : agrees (Async.ret a) (ret a).
Proof. intros w. reflexivity. Qed.

Lemma agrees_throw {A : Type} (e : Error) : agrees (@Async.throw A e) (throw e).
Proof. intros w. reflexivity. Qed.

Lemma agrees_lift {A : Type} (c : Completion A) : agrees (Async.lift c) (lift c).
Proof. intros w. reflexivity. Qed.

Lemma agrees_bind {A B : Type} (t : Async.Task A) (m : M A)
      (k : A -> Async.Task B) (k' : A -> M B) :
  agrees t m -> (forall a, agrees (k a) (k' a)) ->
  agrees (Async.bind t k) (bind m k').
Proof.
  intros Ht Hk w. rewrite exec_bind. unfold bind. rewrite Ht.
  destruct (m w) as [[a|e] w']; [apply Hk|reflexivity].
Qed.

Lemma agrees_try_catch {A : Type} (t : Async.Task A) (m : M A)
      (h : Error -> Async.Task A) (h' : Error -> M A) :
  agrees t m -> (forall e, agrees (h e) (h' e)) ->
  agrees (Async.try_catch t h) (try_catch m h').
Proof.
  intros Ht Hh w. rewrite exec_try_catch. unfold try_catch. rewrite Ht.
  destruct (m w) as [[a|e] w']; [reflexivity|apply Hh].
Qed.

(** Run to its end, [await t] is [t]. *)
Lemma agrees_await {A : Type} (t : Async.Task A) (m : M A) :
  agrees t m -> agrees (Async.await t) m.
Proof.
  intros Ht w. unfold Async.await. rewrite exec_try_catch. unfold try_catch.
  rewrite exec_bind. unfold bind. rewrite Ht.
  destruct (m w) as [[a|e] w']; reflexivity.
Qed.

Lemma agrees_read_supabaseAvailable :
  agrees Async.read_supabaseAvailable read_supabaseAvailable.
Proof. intros w. reflexivity. Qed.

Lemma agrees_clear_supabaseAvailable :
  agrees Async.clear_supabaseAvailable clear_supabaseAvailable.
Proof. intros w. reflexivity. Qed.

Lemma agrees_console_warn (line : string) :
  agrees (Async.console_warn line) (console_warn line).
Proof. intros w. reflexivity. Qed.

Lemma agrees_console_error (e : Error) :
  agrees (Async.console_error e) (console_error e).
Proof. intros w. reflexivity. Qed.

Lemma agrees_Date_now : agrees Async.Date_now Date_now.
Proof. intros w. reflexivity. Qed.

Lemma agrees_fs_readFile (f : File) : agrees (Async.fs_readFile f) (fs_readFile f).
Proof.
  intros w. cbn [Async.fs_readFile Async.exec].
  now destruct (fs_readFile f w).
Qed.

Lemma agrees_fs_mkdir : agrees Async.fs_mkdir fs_mkdir.
Proof.
  intros w. cbn [Async.fs_mkdir Async.exec Async.ret]. unfold fs_mkdir.
  now destruct (data (log Mkdir w)).
Qed.

Lemma agrees_fs_writeFile (f : File) (txt : string) :
  agrees (Async.fs_writeFile f txt) (fs_writeFile f txt).
Proof.
  intros w. cbn [Async.fs_writeFile Async.exec].
  now destruct (fs_writeFile f txt w).
Qed.

Lemma agrees_supabase (c : Call) : agrees (Async.supabase c) (supabase c).
Proof.
  intros w. cbn [Async.supabase Async.exec Async.ret].
  unfold Async.deliver, supabase.
  destruct (network (log (Supabase c) w)) as [|[|msg] later];
    try destruct (answer c _ _); reflexivity.
Qed.

Create HintDb agrees.
#[local] Hint Resolve agrees_ret agrees_throw agrees_lift
  agrees_read_supabaseAvailable agrees_clear_supabaseAvailable
  agrees_console_warn agrees_console_error agrees_Date_now agrees_fs_readFile
  agrees_fs_mkdir agrees_fs_writeFile agrees_supabase : agrees.

Ltac agree :=
  repeat first
    [ progress intros
    | solve [auto with agrees]
    | match goal with
      | |- agrees (Async.await _) _ => apply agrees_await
      | |- agrees (Async.bind _ _) (bind _ _) => apply agrees_bind
      | |- agrees (Async.try_catch _ _) (try_catch _ _) => apply agrees_try_catch
      | |- agrees (if ?b then _ else _) _ => destruct b
      | |- agrees (match ?x with _ => _ end) _ => destruct x
      end ].

Lemma agrees_data_or_throw (c : Call) :
  agrees (Async.data_or_throw c) (data_or_throw c).
Proof. unfold Async.data_or_throw, data_or_throw. agree. Qed.

Lemma agrees_prop (k : string) (v : value) : agrees (Async.prop k v) (prop k v).
Proof. unfold Async.prop, prop. agree. Qed.

Lemma agrees_readJson (f : File) (fallback : value) :
  agrees (Async.readJson f fallback) (readJson f fallback).
Proof. unfold Async.readJson, readJson. agree. Qed.

Lemma agrees_writeJson (f : File) (doc : value) :
  agrees (Async.writeJson f doc) (writeJson f doc).
Proof. unfold Async.writeJson, writeJson. agree. Qed.

Lemma agrees_disableSupabase (reason : string) :
  agrees (Async.disableSupabase reason) (disableSupabase reason).
Proof. unfold Async.disableSupabase, disableSupabase. agree. Qed.

#[local] Hint Resolve agrees_data_or_throw agrees_prop agrees_readJson
  agrees_writeJson agrees_disableSupabase : agrees.

Lemma agrees_unavailable_or_rethrow {A : Type} (re : list Regex.pattern)
      (err : Error) :
  agrees (@Async.unavailable_or_rethrow A re err) (unavailable_or_rethrow re err).
Proof. unfold Async.unavailable_or_rethrow, unavailable_or_rethrow. agree. Qed.

#[local] Hint Resolve agrees_unavailable_or_rethrow : agrees.

Lemma agrees_dbCreateUser (u : new_user.t) :
  agrees (Async.dbCreateUser u) (dbCreateUser u).
Proof. unfold Async.dbCreateUser, dbCreateUser. agree. Qed.

Lemma agrees_dbFindUserByUsername (name : string) :
  agrees (Async.dbFindUserByUsername name) (dbFindUserByUsername name).
Proof. unfold Async.dbFindUserByUsername, dbFindUserByUsername. agree. Qed.

Lemma agrees_dbCreateReport (r : new_report.t) :
  agrees (Async.dbCreateReport r) (dbCreateReport r).
Proof. unfold Async.dbCreateReport, dbCreateReport. agree. Qed.

Lemma agrees_dbGetReports : agrees Async.dbGetReports dbGetReports.
Proof. unfold Async.dbGetReports, dbGetReports. agree. Qed.

Lemma agrees_server_error (e : Error) :
  agrees (Async.server_error e) (server_error e).
Proof. unfold Async.server_error, server_error. agree. Qed.

#[local] Hint Resolve agrees_dbCreateUser agrees_dbFindUserByUsername
  agrees_dbCreateReport agrees_dbGetReports agrees_server_error : agrees.

Lemma agrees_signup (req : SignupBody.t) : agrees (Async.signup req) (signup req).
Proof.
  unfold Async.signup, signup, Async.signup_supabase, signup_supabase,
    Async.signup_local, signup_local.
  agree.
Qed.

Lemma agrees_login (req : LoginBody.t) : agrees (Async.login req) (login req).
Proof.
  unfold Async.login, login, Async.login_supabase, login_supabase,
    Async.login_local, login_local.
  agree.
Qed.

Lemma agrees_createReport (req : ReportBody.t) :
  agrees (Async.createReport req) (createReport req).
Proof.
  unfold Async.createReport, createReport, Async.createReport_supabase,
    createReport_supabase, Async.createReport_local, createReport_local.
  agree.
Qed.

Lemma agrees_listReports : agrees Async.listReports listReports.
Proof.
  unfold Async.listReports, listReports, Async.listReports_supabase,
    listReports_supabase, Async.listReports_local, listReports_local.
  agree.
Qed.

Lemma agrees_listUsers : agrees Async.listUsers listUsers.
Proof.
  unfold Async.listUsers, listUsers, Async.listUsers_supabase,
    listUsers_supabase, Async.listUsers_local, listUsers_local.
  agree.
Qed.

(** Every handler, run to its end without another request in between, is
    the handler of the one-at-a-time model. *)
Lemma exec_handler (r : Request) (w : World) :
  Async.exec (Async.handler r) w = handler r w.
Proof.
  destruct r; cbn [Async.handler handler];
    [apply agrees_signup|apply agrees_login|apply agrees_createReport
    |apply agrees_listReports|apply agrees_listUsers].
Qed.

(** **** Every handler is safe *)

Lemma safe_None {A : Type} (t : Async.Task A) (known : option bool) :
  Async.safe None t -> Async.safe known t.
Proof.
  revert known.
  induction t as [c|k0 IH|k0 IH|line k0 IH|e k0 IH|k0 IH|c k0 IH
                  |f k0 IH|k0 IH|f txt k0 IH|k0 IH]; intros known H;
    cbn [Async.safe] in *; auto.
  - now destruct H.
  - now destruct H.
Qed.

Lemma safe_bind {A B : Type} (t : Async.Task A) (k : A -> Async.Task B)
      (known : option bool) :
  Async.safe known t -> (forall a, Async.safe None (k a)) ->
  Async.safe known (Async.bind t k).
Proof.
  intros Ht Hk. revert known Ht.
  induction t as [[a|e]|k0 IH|k0 IH|line k0 IH|e k0 IH|k0 IH|c k0 IH
                  |f k0 IH|k0 IH|f txt k0 IH|k0 IH]; intros known Ht;
    cbn [Async.bind Async.safe] in *; auto.
  - now apply safe_None.
  - destruct Ht. split; auto.
  - destruct Ht. split; auto.
  - destruct Ht. split; auto.
Qed.

Lemma safe_try_catch {A : Type} (t : Async.Task A) (h : Error -> Async.Task A)
      (known : option bool) :
  Async.safe known t -> (forall e, Async.safe None (h e)) ->
  Async.safe known (Async.try_catch t h).
Proof.
  intros Ht Hh. revert known Ht.
  induction t as [[a|e]|k0 IH|k0 IH|line k0 IH|e k0 IH|k0 IH|c k0 IH
                  |f k0 IH|k0 IH|f txt k0 IH|k0 IH]; intros known Ht;
    cbn [Async.try_catch Async.safe] in *; auto.
  - now apply safe_None.
  - destruct Ht. split; auto.
  - destruct Ht. split; auto.
  - destruct Ht. split; auto.
Qed.

Lemma safe_await {A : Type} (t : Async.Task A) (known : option bool) :
  Async.safe known t -> Async.safe known (Async.await t).
Proof.
  intros Ht. unfold Async.await.
  apply safe_try_catch; [apply safe_bind; [exact Ht|]|]; intros; exact I.
Qed.

Lemma safe_ret {A : Type} (a : A) (known : option bool) :
  Async.safe known (Async.ret a).
Proof. exact I. Qed.

Lemma safe_throw {A : Type} (e : Error) (known : option bool) :
  Async.safe known (@Async.throw A e).
Proof. exact I. Qed.

Lemma safe_lift {A : Type} (c : Completion A) (known : option bool) :
  Async.safe known (Async.lift c).
Proof. exact I. Qed.

(** What follows a test of the flag knows the flag. *)
Lemma safe_guard {A : Type} (k : bool -> Async.Task A) (known : option bool) :
  Async.safe (Some true) (k true) -> Async.safe (Some false) (k false) ->
  Async.safe known (Async.bind Async.read_supabaseAvailable k).
Proof. intros Hon Hoff. split; assumption. Qed.

Lemma safe_console_error (e : Error) (known : option bool) :
  Async.safe known (Async.console_error e).
Proof. exact I. Qed.

Lemma safe_Date_now (known : option bool) : Async.safe known Async.Date_now.
Proof. intros now. exact I. Qed.

Lemma safe_readJson (f : File) (fallback : value) (known : option bool) :
  Async.safe known (Async.readJson f fallback).
Proof.
  intros [txt|e]; cbn; [|exact I].
  now destruct (parse (if String.eqb txt EmptyString then "[]" else txt)).
Qed.

Lemma safe_writeJson (f : File) (doc : value) (known : option bool) :
  Async.safe known (Async.writeJson f doc).
Proof. intros x. exact I. Qed.

Lemma safe_server_error (e : Error) (known : option bool) :
  Async.safe known (Async.server_error e).
Proof. exact I. Qed.

(** A request where the flag is known to be on. *)
Lemma safe_data_or_throw (c : Call) :
  Async.safe (Some true) (Async.data_or_throw c).
Proof. split; [reflexivity|]. now intros [rows|e]. Qed.

(** The warning of [disableSupabase] comes right after the flag is cleared. *)
Lemma safe_disableSupabase (reason : string) (known : option bool) :
  Async.safe known (Async.disableSupabase reason).
Proof. split; [reflexivity|exact I]. Qed.

Lemma safe_unavailable_or_rethrow {A : Type} (re : list Regex.pattern)
      (err : Error) (known : option bool) :
  Async.safe known (@Async.unavailable_or_rethrow A re err).
Proof.
  unfold Async.unavailable_or_rethrow.
  destruct (Regex.test re (message err)); [|exact I].
  apply safe_bind; [apply safe_disableSupabase|intros; exact I].
Qed.

(** The helpers test the flag themselves, right before their request. *)
Lemma safe_guarded_call {A : Type} (c : Call)
      (k : list value -> Async.Task (option A)) (re : list Regex.pattern)
      (known : option bool) :
  (forall rows, Async.safe None (k rows)) ->
  Async.safe known
    (Async.bind Async.read_supabaseAvailable (fun available =>
       if negb available then Async.ret None
       else Async.try_catch (Async.bind (Async.data_or_throw c) k)
                            (Async.unavailable_or_rethrow re))).
Proof.
  intros Hk. apply safe_guard; cbn [negb]; [|exact I].
  apply safe_try_catch.
  - apply safe_bind; [apply safe_data_or_throw|exact Hk].
  - intros e. apply safe_unavailable_or_rethrow.
Qed.

Lemma safe_dbCreateUser (u : new_user.t) (known : option bool) :
  Async.safe known (Async.dbCreateUser u).
Proof. apply safe_guarded_call. intros; exact I. Qed.

Lemma safe_dbFindUserByUsername (name : string) (known : option bool) :
  Async.safe known (Async.dbFindUserByUsername name).
Proof. apply safe_guarded_call. intros; exact I. Qed.

Lemma safe_dbCreateReport (r : new_report.t) (known : option bool) :
  Async.safe known (Async.dbCreateReport r).
Proof. apply safe_guarded_call. intros; exact I. Qed.

Lemma safe_dbGetReports (known : option bool) : Async.safe known Async.dbGetReports.
Proof. apply safe_guarded_call. intros; exact I. Qed.

(** The handler of [/api/users] sends its request under its own test of
    the flag, and warns right after it clears the flag. *)
Lemma safe_listUsers_supabase : Async.safe (Some true) Async.listUsers_supabase.
Proof.
  apply safe_try_catch.
  - apply safe_bind; [apply safe_data_or_throw|intros; exact I].
  - intros e. split; [reflexivity|exact I].
Qed.

Create HintDb safe.
#[local] Hint Resolve safe_ret safe_throw safe_lift safe_console_error
  safe_Date_now safe_readJson safe_writeJson safe_server_error
  safe_dbCreateUser safe_dbFindUserByUsername safe_dbCreateReport
  safe_dbGetReports safe_listUsers_supabase : safe.

Ltac safe :=
  repeat first
    [ progress intros
    | solve [auto with safe]
    | progress cbv iota
    | match goal with
      | |- Async.safe _ (Async.await _) => apply safe_await
      | |- Async.safe _ (Async.bind Async.read_supabaseAvailable _) =>
          apply safe_guard
      | |- Async.safe _ (Async.bind _ _) => apply safe_bind
      | |- Async.safe _ (Async.try_catch _ _) => apply safe_try_catch
      | |- Async.safe _ (if ?b then _ else _) => destruct b
      | |- Async.safe _ (match ?x with _ => _ end) => destruct x
      end ].

Lemma safe_signup (req : SignupBody.t) : Async.safe None (Async.signup req).
Proof.
  unfold Async.signup, Async.signup_supabase, Async.signup_local, Async.prop.
  safe.
Qed.

Lemma safe_login (req : LoginBody.t) : Async.safe None (Async.login req).
Proof.
  unfold Async.login, Async.login_supabase, Async.login_local, Async.prop.
  safe.
Qed.

Lemma safe_createReport (req : ReportBody.t) :
  Async.safe None (Async.createReport req).
Proof.
  unfold Async.createReport, Async.createReport_supabase,
    Async.createReport_local.
  safe.
Qed.

Lemma safe_listReports : Async.safe None Async.listReports.
Proof.
  unfold Async.listReports, Async.listReports_supabase, Async.listReports_local.
  safe.
Qed.

Lemma safe_listUsers : Async.safe None Async.listUsers.
Proof.
  unfold Async.listUsers, Async.listUsers_local.
  safe.
Qed.

Lemma safe_handler (r : Request) : Async.safe None (Async.handler r).
Proof.
  destruct r; cbn [Async.handler];
    [apply safe_signup|apply safe_login|apply safe_createReport
    |apply safe_listReports|apply safe_listUsers].
Qed.

(** **** Whatever the order in which the requests go on *)

Lemma orderly_refl (w : World) : orderly w w.
Proof. split; [apply Failover.keeps_refl|now intros H]. Qed.

Lemma orderly_trans (w1 w2 w3 : World) :
  orderly w1 w2 -> orderly w2 w3 -> orderly w1 w3.
Proof.
  intros [K1 Q1] [K2 Q2]. split; [eapply Failover.keeps_trans; eassumption|].
  intros H. destruct (Q1 H) as [H1 E1]. destruct (Q2 H1) as [H2 E2].
  split; [exact H2|congruence].
Qed.

(** What leaves the flag alone and sends nothing. *)
Lemma orderly_local (w w' : World) :
  supabaseAvailable w' = supabaseAvailable w ->
  calls (trace w') = calls (trace w) ->
  keeps w w' -> orderly w w'.
Proof. intros Hf Hc Hk. split; [exact Hk|]. intros H. split; congruence. Qed.

Lemma orderly_same (w w' : World) :
  supabaseAvailable w' = supabaseAvailable w -> trace w' = trace w ->
  orderly w w'.
Proof.
  intros Hf Ht. apply orderly_local; [exact Hf|now rewrite Ht|].
  intros H. now apply (Failover.one_way_same w).
Qed.

Lemma orderly_log (e : Event) (w : World) :
  calls [e] = [] -> (forall line, e <> ConsoleWarn line) -> orderly w (log e w).
Proof.
  intros Hc He. apply orderly_local; world.
  - reflexivity.
  - now rewrite Failover.calls_cons, Hc.
  - intros H. now apply Failover.one_way_log.
Qed.

Lemma orderly_off (w : World) : orderly w (set_supabaseAvailable false w).
Proof.
  split; [intros H; now apply Failover.one_way_off|].
  intros H. now split.
Qed.

Lemma orderly_warn (line : string) (w : World) :
  supabaseAvailable w = false -> orderly w (log (ConsoleWarn line) w).
Proof.
  intros Hoff. apply orderly_local; world; try reflexivity.
  intros H. now apply Failover.one_way_warn.
Qed.

Lemma orderly_request (c : Call) (w : World) :
  supabaseAvailable w = true -> orderly w (log (Supabase c) w).
Proof.
  intros Hon. split; [intros H; now apply Failover.one_way_request|].
  intros H. congruence.
Qed.

Lemma orderly_deliver (c : Call) (w : World) :
  orderly w (snd (Async.deliver c w)).
Proof.
  unfold Async.deliver.
  destruct (network w) as [|[|msg] later]; try destruct (answer c _ _);
    apply orderly_same; reflexivity.
Qed.

Lemma orderly_fs_readFile (f : File) (w : World) :
  orderly w (snd (fs_readFile f w)).
Proof.
  eapply orderly_trans; [apply (orderly_log (ReadFile f)); [reflexivity|discriminate]|].
  unfold fs_readFile. cbv zeta.
  destruct (data (log (ReadFile f) w)) as [d|]; [destruct (file f d)|];
    apply orderly_refl.
Qed.

Lemma orderly_fs_mkdir (w : World) : orderly w (snd (fs_mkdir w)).
Proof.
  eapply orderly_trans; [apply (orderly_log Mkdir); [reflexivity|discriminate]|].
  unfold fs_mkdir. cbv zeta.
  destruct (data (log Mkdir w)); [apply orderly_refl|].
  apply orderly_same; reflexivity.
Qed.

Lemma orderly_fs_writeFile (f : File) (txt : string) (w : World) :
  orderly w (snd (fs_writeFile f txt w)).
Proof.
  eapply orderly_trans;
    [apply (orderly_log (WriteFile f txt)); [reflexivity|discriminate]|].
  unfold fs_writeFile. cbv zeta.
  destruct (data (log (WriteFile f txt) w)) as [d|]; [|apply orderly_refl].
  destruct (storage (log (WriteFile f txt) w)) as [|[|n] later];
    apply orderly_same; reflexivity.
Qed.

(** A safe task, up to its next wait. *)
Lemma advance_safe {A : Type} (t : Async.Task A) (known : option bool) (w : World) :
  Async.safe known t -> flag_known known w ->
  Async.safe (Some true) (fst (Async.advance t w))
  /\ orderly w (snd (Async.advance t w)).
Proof.
  revert known w.
  induction t as [c|k0 IH|k0 IH|line k0 IH|e k0 IH|k0 IH|c k0 IH
                  |f k0 IH|k0 IH|f txt k0 IH|k0 IH]; intros known w Hs Hk;
    cbn [Async.advance Async.safe fst snd] in *.
  - split; [exact I|apply orderly_refl].
  - destruct Hs as [Hon Hoff].
    destruct (supabaseAvailable w) eqn:E;
      [apply (IH true (Some true))|apply (IH false (Some false))]; assumption.
  - destruct (IH (Some false) (set_supabaseAvailable false w) Hs eq_refl) as [H1 H2].
    split; [exact H1|]. eapply orderly_trans; [apply orderly_off|exact H2].
  - destruct Hs as [-> Hs]. cbn [flag_known] in Hk.
    destruct (IH (Some false) (log (ConsoleWarn line) w) Hs Hk) as [H1 H2].
    split; [exact H1|]. eapply orderly_trans; [now apply orderly_warn|exact H2].
  - destruct (IH known (log (ConsoleError e) w) Hs) as [H1 H2].
    { now destruct known. }
    split; [exact H1|].
    eapply orderly_trans;
      [apply (orderly_log (ConsoleError e)); [reflexivity|discriminate]|exact H2].
  - now apply (IH (clock w) known).
  - destruct Hs as [-> Hs]. cbn [flag_known] in Hk.
    split; [now split|now apply orderly_request].
  - split; [exact Hs|apply orderly_refl].
  - split; [exact Hs|apply orderly_refl].
  - split; [exact Hs|apply orderly_refl].
  - split; [exact Hs|apply orderly_refl].
Qed.

(** A request in flight, from the end of its wait to its next wait. *)
Lemma resume_safe {A : Type} (t : Async.Task A) (w : World) :
  Async.safe (Some true) t ->
  Async.safe (Some true) (fst (Async.resume t w))
  /\ orderly w (snd (Async.resume t w)).
Proof.
  intros Hs. destruct t as [c|k0|k0|line k0|e k0|k0|c k0|f k0|k0|f txt k0|k0];
    cbn [Async.resume fst snd]; try (split; [exact Hs|apply orderly_refl]);
    cbn [Async.safe] in Hs.
  - destruct Hs as [_ Hs]. pose proof (orderly_deliver c w) as Hd.
    destruct (Async.deliver c w) as [r w']. cbn [snd] in Hd.
    destruct (advance_safe (k0 r) None w' (Hs r) I) as [H1 H2].
    split; [exact H1|eapply orderly_trans; eassumption].
  - pose proof (orderly_fs_readFile f w) as Hd.
    destruct (fs_readFile f w) as [x w']. cbn [snd] in Hd.
    destruct (advance_safe (k0 x) None w' (Hs x) I) as [H1 H2].
    split; [exact H1|eapply orderly_trans; eassumption].
  - destruct (advance_safe k0 None (snd (fs_mkdir w)) Hs I) as [H1 H2].
    split; [exact H1|].
    eapply orderly_trans; [apply orderly_fs_mkdir|exact H2].
  - pose proof (orderly_fs_writeFile f txt w) as Hd.
    destruct (fs_writeFile f txt w) as [x w']. cbn [snd] in Hd.
    destruct (advance_safe (k0 x) None w' (Hs x) I) as [H1 H2].
    split; [exact H1|eapply orderly_trans; eassumption].
  - now apply (advance_safe k0 None w).
Qed.

Lemma Forall_first {A : Type} (P : A -> Prop) (n : nat) (l : list A) :
  Forall P l -> Forall P (firstn n l).
Proof.
  revert l. induction n as [|n IH]; intros [|x l] H; cbn [firstn];
    try constructor; inversion H; auto.
Qed.

Lemma Forall_skip {A : Type} (P : A -> Prop) (n : nat) (l : list A) :
  Forall P l -> Forall P (skipn n l).
Proof.
  revert l. induction n as [|n IH]; intros [|x l] H; cbn [skipn];
    try assumption. inversion H; auto.
Qed.

Lemma settle_parked (before after : list (Async.Task Response))
      (t : Async.Task Response) (w : World) (out : list Response) :
  Forall (Async.safe (Some true)) before ->
  Forall (Async.safe (Some true)) after ->
  Async.safe (Some true) t ->
  parked (Async.settle before t after w out)
  /\ Async.world (Async.settle before t after w out) = w.
Proof.
  intros Hb Ha Ht. unfold parked.
  assert (H1 : Forall (Async.safe (Some true)) (before ++ after))
    by (apply Forall_app; now split).
  assert (H2 : Forall (Async.safe (Some true)) (before ++ t :: after))
    by (apply Forall_app; split; [exact Hb|now constructor]).
  destruct t as [[res|e]|k0|k0|line k0|e k0|k0|c k0|f k0|k0|f txt k0|k0];
    cbn [Async.settle Async.inflight Async.world]; now split.
Qed.

Lemma happen_orderly (h : Async.Happening) (p : Async.Process) :
  parked p ->
  parked (Async.happen h p)
  /\ orderly (Async.world p) (Async.world (Async.happen h p)).
Proof.
  intros Hp. destruct h as [r|i|ms]; cbn [Async.happen].
  - destruct (advance_safe (Async.handler r) None (Async.world p)
                           (safe_handler r) I) as [H1 H2].
    destruct (Async.advance (Async.handler r) (Async.world p)) as [t w].
    cbn [fst snd] in *.
    destruct (settle_parked (Async.inflight p) [] t w (Async.sent p) Hp
                            (Forall_nil _) H1) as [H3 H4].
    split; [exact H3|now rewrite H4].
  - destruct (nth_error (Async.inflight p) i) as [t|] eqn:E;
      [|split; [exact Hp|apply orderly_refl]].
    assert (Ht : Async.safe (Some true) t).
    { unfold parked in Hp. rewrite Forall_forall in Hp.
      eapply Hp, nth_error_In, E. }
    destruct (resume_safe t (Async.world p) Ht) as [H1 H2].
    destruct (Async.resume t (Async.world p)) as [t' w]. cbn [fst snd] in *.
    destruct (settle_parked (firstn i (Async.inflight p))
                            (skipn (S i) (Async.inflight p)) t' w (Async.sent p))
      as [H3 H4]; [now apply Forall_first|now apply Forall_skip|exact H1|].
    split; [exact H3|now rewrite H4].
  - split; [exact Hp|]. cbn [Async.world]. apply orderly_same; reflexivity.
Qed.

Lemma unfold_schedule_orderly (schedule : list Async.Happening) (p : Async.Process) :
  parked p ->
  parked (Async.unfold_schedule schedule p)
  /\ orderly (Async.world p) (Async.world (Async.unfold_schedule schedule p)).
Proof.
  revert p. induction schedule as [|h rest IH]; intros p Hp;
    cbn [Async.unfold_schedule fold_left].
  - split; [exact Hp|apply orderly_refl].
  - destruct (happen_orderly h p Hp) as [H1 H2].
    destruct (IH _ H1) as [H3 H4].
    split; [exact H3|eapply orderly_trans; eassumption].
Qed.

Lemma unfold_schedule_app (before after : list Async.Happening) (p : Async.Process) :
  Async.unfold_schedule (before ++ after) p
  = Async.unfold_schedule after (Async.unfold_schedule before p).
Proof. apply fold_left_app. Qed.

(** **** One request at a time is one of the schedules *)

Lemma happen_last (pool : list (Async.Task Response)) (t : Async.Task Response)
      (w : World) (out : list Response) :
  Async.happen (Async.Resumes (List.length pool)) (Async.mkProcess w (pool ++ [t]) out)
  = Async.settle pool (fst (Async.resume t w)) [] (snd (Async.resume t w)) out.
Proof.
  cbn [Async.happen Async.inflight Async.world Async.sent].
  rewrite nth_error_app2, Nat.sub_diag by apply Nat.le_refl. cbn [nth_error].
  destruct (Async.resume t w) as [t' w']. cbn [fst snd].
  rewrite firstn_app, Nat.sub_diag, firstn_all, skipn_app, skipn_all2 by (cbn; lia).
  cbn [firstn List.app]. rewrite app_nil_r.
  replace (S (List.length pool) - List.length pool) with 1 by lia. reflexivity.
Qed.

(** A request that goes on each time it can, before anything else
    happens, comes to the end of [exec]. *)
Lemma settle_exec (t : Async.Task Response) (pool : list (Async.Task Response))
      (w : World) (out : list Response) :
  exists n,
    Async.unfold_schedule (repeat (Async.Resumes (List.length pool)) n)
      (Async.settle pool (fst (Async.advance t w)) [] (snd (Async.advance t w)) out)
    = Async.settle pool (Async.Done (fst (Async.exec t w))) []
                   (snd (Async.exec t w)) out.
Proof.
  revert w.
  induction t as [c|k0 IH|k0 IH|line k0 IH|e k0 IH|k0 IH|c k0 IH
                  |f k0 IH|k0 IH|f txt k0 IH|k0 IH]; intros w;
    cbn [Async.advance Async.exec fst snd]; auto.
  - now exists 0.
  - destruct (IH (fst (Async.deliver c (log (Supabase c) w)))
                 (snd (Async.deliver c (log (Supabase c) w)))) as [n Hn].
    exists (S n). cbn [repeat Async.unfold_schedule fold_left Async.settle].
    rewrite happen_last. cbn [Async.resume].
    destruct (Async.deliver c (log (Supabase c) w)) as [r w']. exact Hn.
  - destruct (IH (fst (fs_readFile f w)) (snd (fs_readFile f w))) as [n Hn].
    exists (S n). cbn [repeat Async.unfold_schedule fold_left Async.settle].
    rewrite happen_last. cbn [Async.resume].
    destruct (fs_readFile f w) as [x w']. exact Hn.
  - destruct (IH (snd (fs_mkdir w))) as [n Hn].
    exists (S n). cbn [repeat Async.unfold_schedule fold_left Async.settle].
    rewrite happen_last. exact Hn.
  - destruct (IH (fst (fs_writeFile f txt w)) (snd (fs_writeFile f txt w)))
      as [n Hn].
    exists (S n). cbn [repeat Async.unfold_schedule fold_left Async.settle].
    rewrite happen_last. cbn [Async.resume].
    destruct (fs_writeFile f txt w) as [x w']. exact Hn.
  - destruct (IH w) as [n Hn].
    exists (S n). cbn [repeat Async.unfold_schedule fold_left Async.settle].
    rewrite happen_last. exact Hn.
Qed.

(** A request served with nothing else happening meanwhile, as in the
    one-at-a-time model, is a schedule; the requests already in flight
    wait. *)
Lemma serve_is_a_schedule (r : Request) (p : Async.Process) :
  exists schedule,
    Async.unfold_schedule schedule p
    = Async.mkProcess (snd (serve r (Async.world p))) (Async.inflight p)
                      (fst (serve r (Async.world p)) :: Async.sent p).
Proof.
  destruct (settle_exec (Async.handler r) (Async.inflight p) (Async.world p)
                        (Async.sent p)) as [n Hn].
  exists (Async.Arrives r :: repeat (Async.Resumes (List.length (Async.inflight p))) n).
  cbn [Async.unfold_schedule fold_left Async.happen].
  destruct (Async.advance (Async.handler r) (Async.world p)) as [t w'].
  cbn [fst snd] in Hn. unfold Async.unfold_schedule in Hn. rewrite Hn.
  unfold serve. rewrite exec_handler.
  destruct (handler r (Async.world p)) as [[res|e] w2];
    cbn [Async.settle fst snd]; now rewrite app_nil_r.
Qed.

(** Every run of the one-at-a-time model is a schedule. *)
Lemma run_is_a_schedule (inputs : list Input) (p : Async.Process) :
  exists schedule,
    Async.unfold_schedule schedule p
    = Async.mkProcess (snd (run inputs (Async.world p))) (Async.inflight p)
                      (rev (fst (run inputs (Async.world p))) ++ Async.sent p).
Proof.
  revert p. induction inputs as [|[r|ms] rest IH]; intros p; cbn [run].
  - exists []. now destruct p.
  - destruct (serve_is_a_schedule r p) as [s1 H1].
    destruct (IH (Async.unfold_schedule s1 p)) as [s2 H2].
    exists (s1 ++ s2). rewrite unfold_schedule_app, H2, H1.
    cbn [Async.world Async.inflight Async.sent].
    destruct (serve r (Async.world p)) as [res w1]. cbn [fst snd].
    destruct (run rest w1) as [out w2]. cbn [fst snd rev].
    now rewrite <- app_assoc.
  - destruct (IH (Async.happen (Async.Passes ms) p)) as [s2 H2].
    exists (Async.Passes ms :: s2).
    cbn [Async.unfold_schedule fold_left]. unfold Async.unfold_schedule in H2.
    rewrite H2. reflexivity.
Qed.



End Interleaving.

(** * The helpers and the handlers, step by step *)

Module Evaluation.
Import JSON Server Properties.
Local Open Scope string_scope.
Local Open Scope list_scope.
Local Open Scope js_scope.

Ltac world := LocalStore.world.

Lemma supabase_refused (c : Call) (msg : string) (later : list Outcome) (w : World) :
  network w = Refused msg :: later ->
  supabase c w
  = (Normal (Failure (mkError msg)), set_network later (log (Supabase c) w)).
Proof. intros H. unfold supabase. world. now rewrite H. Qed.

Lemma supabase_answered (c : Call) (w : World) :
  answered w ->
  supabase c w
  = (Normal (fst (answer c (clock w) (backend w))),
     set_backend (snd (answer c (clock w) (backend w)))
       (set_network (tl (network w)) (log (Supabase c) w))).
Proof.
  unfold answered, supabase. world.
  destruct (network w) as [|[|msg] later] eqn:E; [| |easy]; intros _;
    destruct (answer c (clock w) (backend w)) as [r db]; cbn [fst snd tl];
    unfold set_backend, set_network, log; world; now rewrite ?E.
Qed.

(** A helper, from its test of the flag to its [catch]. *)
Lemma helper_eq {A : Type} (c : Call) (k : list value -> option A)
      (re : list Regex.pattern) (w : World) :
  (available <- read_supabaseAvailable ;;
   if negb available then ret None
   else try_catch (rows <- data_or_throw c ;; ret (k rows))
                  (unavailable_or_rethrow re)) w
  = if supabaseAvailable w then
      match supabase c w with
      | (Normal (Data rows), w1) => (Normal (k rows), w1)
      | (Normal (Failure e), w1) | (Thrown e, w1) =>
          if Regex.test re (message e)
          then (Normal None, snd (disableSupabase (message e) w1))
          else (Thrown e, w1)
      end
    else (Normal None, w).
Proof.
  unfold bind at 1. unfold read_supabaseAvailable.
  destruct (supabaseAvailable w); [|reflexivity]. cbn [negb].
  unfold try_catch, data_or_throw, bind.
  destruct (supabase c w) as [[[rows|e]|e] w1]; cbn [ret throw];
    try reflexivity;
    unfold unavailable_or_rethrow; destruct (Regex.test re (message e));
    reflexivity.
Qed.

Lemma dbFindUserByUsername_eq (name : string) (w : World) :
  dbFindUserByUsername name w
  = if supabaseAvailable w then
      match supabase (users_select_eq name) w with
      | (Normal (Data rows), w1) => (Normal (or_else (hd_error rows) None), w1)
      | (Normal (Failure e), w1) | (Thrown e, w1) =>
          if Regex.test Regex.dbFindUserByUsername_re (message e)
          then (Normal None, snd (disableSupabase (message e) w1))
          else (Thrown e, w1)
      end
    else (Normal None, w).
Proof. apply (helper_eq (users_select_eq name) (fun rows => or_else (hd_error rows) None)). Qed.

Lemma dbCreateUser_eq (u : new_user.t) (w : World) :
  dbCreateUser u w
  = if supabaseAvailable w then
      match supabase (users_insert u) w with
      | (Normal (Data rows), w1) => (Normal (hd_error rows), w1)
      | (Normal (Failure e), w1) | (Thrown e, w1) =>
          if Regex.test Regex.dbCreateUser_re (message e)
          then (Normal None, snd (disableSupabase (message e) w1))
          else (Thrown e, w1)
      end
    else (Normal None, w).
Proof. apply (helper_eq (users_insert u) (@hd_error value)). Qed.

Lemma dbCreateReport_eq (r : new_report.t) (w : World) :
  dbCreateReport r w
  = if supabaseAvailable w then
      match supabase (reports_insert r) w with
      | (Normal (Data rows), w1) => (Normal (hd_error rows), w1)
      | (Normal (Failure e), w1) | (Thrown e, w1) =>
          if Regex.test Regex.dbCreateReport_re (message e)
          then (Normal None, snd (disableSupabase (message e) w1))
          else (Thrown e, w1)
      end
    else (Normal None, w).
Proof. apply (helper_eq (reports_insert r) (@hd_error value)). Qed.

Lemma dbGetReports_eq (w : World) :
  dbGetReports w
  = if supabaseAvailable w then
      match supabase reports_select_ordered w with
      | (Normal (Data rows), w1) => (Normal (Some rows), w1)
      | (Normal (Failure e), w1) | (Thrown e, w1) =>
          if Regex.test Regex.dbGetReports_re (message e)
          then (Normal None, snd (disableSupabase (message e) w1))
          else (Thrown e, w1)
      end
    else (Normal None, w).
Proof. apply (helper_eq reports_select_ordered (@Some (list value))). Qed.

(** The monad, unfolded. *)
Ltac exec :=
  cbv beta iota zeta delta
      [bind ret throw try_catch lift prop read_supabaseAvailable Date_now
       clear_supabaseAvailable console_warn console_error server_error
       disableSupabase fst snd];
  world.

End Evaluation.

(** * Errors of the backend *)

Module Routing.
Import JSON Server Properties Evaluation.
Local Open Scope string_scope.
Local Open Scope list_scope.
Local Open Scope js_scope.

Ltac world := LocalStore.world.

Lemma login_transient (req : LoginBody.t) (w : World) (msg : string)
      (later : list Outcome) :
  supabaseAvailable w = true -> network w = Refused msg :: later ->
  transient msg ->
  status (fst (serve (POST_login req) w)) = 400
  \/ propagates msg w (serve (POST_login req) w).
Proof.
  intros Hon Hnet (_ & Hfind & _ & _).
  unfold serve. cbn [handler]. unfold login.
  destruct (nonempty (LoginBody.username req)) as [username|]; [|now left].
  destruct (nonempty (LoginBody.password req)) as [password|]; [|now left].
  destruct (nonempty (LoginBody.accountType req)) as [accountType|]; [|now left].
  right. unfold login_supabase. exec. rewrite Hon.
  rewrite dbFindUserByUsername_eq, Hon, (supabase_refused _ msg later w Hnet).
  cbn [message]. rewrite Hfind. exec.
  repeat split; try reflexivity. exact Hon.
Qed.

Lemma createReport_transient (req : ReportBody.t) (w : World) (msg : string)
      (later : list Outcome) :
  supabaseAvailable w = true -> network w = Refused msg :: later ->
  transient msg ->
  status (fst (serve (POST_reports req) w)) = 400
  \/ propagates msg w (serve (POST_reports req) w).
Proof.
  intros Hon Hnet (_ & _ & Hcreate & _).
  unfold serve. cbn [handler]. unfold createReport.
  destruct (nonempty (ReportBody.type req)) as [type|]; [|now left].
  destruct (nonempty (ReportBody.description req)) as [description|]; [|now left].
  destruct (nonempty (ReportBody.date req)) as [date|]; [|now left].
  right. unfold createReport_supabase. exec. rewrite Hon.
  rewrite dbCreateReport_eq, Hon, (supabase_refused _ msg later w Hnet).
  cbn [message]. rewrite Hcreate. exec.
  repeat split; try reflexivity. exact Hon.
Qed.

Lemma listReports_transient (w : World) (msg : string) (later : list Outcome) :
  supabaseAvailable w = true -> network w = Refused msg :: later ->
  transient msg ->
  propagates msg w (serve GET_reports w).
Proof.
  intros Hon Hnet (_ & _ & _ & Hget).
  unfold serve. cbn [handler]. unfold listReports, listReports_supabase.
  exec. rewrite Hon.
  rewrite dbGetReports_eq, Hon, (supabase_refused _ msg later w Hnet).
  cbn [message]. rewrite Hget. exec.
  repeat split; try reflexivity. exact Hon.
Qed.

(** The lookup of a signup is refused. *)
Lemma signup_transient (req : SignupBody.t) (w : World) (msg : string)
      (later : list Outcome) :
  supabaseAvailable w = true -> network w = Refused msg :: later ->
  transient msg ->
  status (fst (serve (POST_signup req) w)) = 400
  \/ propagates msg w (serve (POST_signup req) w).
Proof.
  intros Hon Hnet (_ & Hfind & _ & _).
  unfold serve. cbn [handler]. unfold signup.
  destruct (nonempty (SignupBody.fullName req)) as [fullName|]; [|now left].
  destruct (nonempty (SignupBody.username req)) as [username|]; [|now left].
  destruct (nonempty (SignupBody.email req)) as [email|]; [|now left].
  destruct (nonempty (SignupBody.accountType req)) as [accountType|]; [|now left].
  destruct (nonempty (SignupBody.password req)) as [password|]; [|now left].
  right. unfold signup_supabase. exec. rewrite Hon.
  rewrite dbFindUserByUsername_eq, Hon, (supabase_refused _ msg later w Hnet).
  cbn [message]. rewrite Hfind. exec.
  repeat split; try reflexivity. exact Hon.
Qed.

(** The lookup of a signup is answered and its insert is refused. *)
Lemma signup_insert_transient (req : SignupBody.t) (w : World) (msg : string)
      (later : list Outcome) :
  supabaseAvailable w = true -> network w = Served :: Refused msg :: later ->
  transient msg ->
  status (fst (serve (POST_signup req) w)) = 400
  \/ status (fst (serve (POST_signup req) w)) = 409
  \/ propagates msg w (serve (POST_signup req) w).
Proof.
  intros Hon Hnet (Hcreate & _ & _ & _).
  unfold serve. cbn [handler]. unfold signup.
  destruct (nonempty (SignupBody.fullName req)) as [fullName|]; [|now left].
  destruct (nonempty (SignupBody.username req)) as [username|]; [|now left].
  destruct (nonempty (SignupBody.email req)) as [email|]; [|now left].
  destruct (nonempty (SignupBody.accountType req)) as [accountType|]; [|now left].
  destruct (nonempty (SignupBody.password req)) as [password|]; [|now left].
  right. unfold signup_supabase. exec. rewrite Hon.
  rewrite dbFindUserByUsername_eq, Hon.
  rewrite supabase_answered by (unfold answered; now rewrite Hnet).
  rewrite Hnet. cbn [answer fst snd tl].
  destruct (firstn 1 (filter _ (users_table (backend w)))) as [|row rows];
    cbn [map hd_error or_else truthy_opt];
    [|left; reflexivity].
  right.
  rewrite dbCreateUser_eq. world. rewrite Hon.
  erewrite supabase_refused by (world; reflexivity).
  cbn [message]. rewrite Hcreate. exec.
  repeat split; try reflexivity. exact Hon.
Qed.

(** The handler of [/api/users] takes any error of the backend for the end
    of the backend: it clears the flag, warns, and answers as it would have
    with the flag off. *)
Lemma listUsers_demotes_on_any_error (w : World) (msg : string)
      (later : list Outcome) :
  supabaseAvailable w = true -> network w = Refused msg :: later ->
  serve GET_users w = serve GET_users (users_demotion msg later w)
  /\ supabaseAvailable (snd (serve GET_users w)) = false.
Proof.
  intros Hon Hnet.
  assert (E : serve GET_users w = serve GET_users (users_demotion msg later w)).
  { unfold serve. cbn [handler]. unfold listUsers, listUsers_supabase, data_or_throw.
    exec. rewrite Hon, (supabase_refused _ msg later w Hnet). exec.
    reflexivity. }
  split; [exact E|]. rewrite E.
  now apply Failover.off_serve.
Qed.

(** C2 (as the code has it). For signup, login, createReport and
    listReports, an error of the backend whose message none of the patterns
    finds goes to the caller as a 500 with that message, leaves the flag on
    and causes no read or write of the data directory; for a signup this
    holds of its lookup and of its insert.  The handler of listUsers is
    different: on any error of the backend it clears the flag and answers
    from the JSON file. *)
Theorem transient_errors_propagate
        (r : Request) (w : World) (msg : string) (later : list Outcome) :
  supabaseAvailable w = true ->
  transient msg ->
  (network w = Refused msg :: later ->
   match r with
   | GET_users =>
       serve r w = serve r (users_demotion msg later w)
       /\ supabaseAvailable (snd (serve r w)) = false
   | _ =>
       status (fst (serve r w)) = 400 \/ propagates msg w (serve r w)
   end)
  /\ (network w = Served :: Refused msg :: later ->
      forall req, r = POST_signup req ->
        status (fst (serve r w)) = 400
        \/ status (fst (serve r w)) = 409
        \/ propagates msg w (serve r w)).
Proof.
  intros Hon Ht. split.
  - intros Hnet. destruct r as [req|req|req| |].
    + now apply signup_transient with later.
    + now apply login_transient with later.
    + now apply createReport_transient with later.
    + right. now apply listReports_transient with later.
    + now apply listUsers_demotes_on_any_error.
  - intros Hnet req ->. now apply signup_insert_transient with later.
Qed.

(** C2, at a listing of the reports that meets a network failure. *)
Lemma transient_errors_propagate_witness :
  let w := boot "https://project.supabase.co" "anon-key" None
                (mkBackend [] 0 [] 0) 1700000000000 [Refused "fetch failed"] [] in
  supabaseAvailable w = true
  /\ transient "fetch failed"
  /\ network w = [Refused "fetch failed"]
  /\ (status (fst (serve GET_reports w)) = 400
      \/ propagates "fetch failed" w (serve GET_reports w)).
Proof.
  cbv zeta.
  assert (Ht : transient "fetch failed") by (repeat split; reflexivity).
  repeat (split; [first [reflexivity | exact Ht]|]).
  exact (proj1 (transient_errors_propagate GET_reports
                  (boot "https://project.supabase.co" "anon-key" None
                        (mkBackend [] 0 [] 0) 1700000000000
                        [Refused "fetch failed"] [])
                  "fetch failed" [] eq_refl Ht) eq_refl).
Defined.

(** C2 does not hold of listUsers: a network failure, which no pattern
    finds, clears the flag, and the request is answered with a 200 from the
    users file, which is read. *)
Lemma listUsers_demotes_on_transient_error :
  let w := boot "https://project.supabase.co" "anon-key" None
                (mkBackend [] 0 [] 0) 1700000000000 [Refused "fetch failed"] [] in
  let (res, w') := serve GET_users w in
  supabaseAvailable w = true
  /\ transient "fetch failed"
  /\ status res = 200
  /\ supabaseAvailable w' = false
  /\ file_accesses (trace w') = [ReadFile USERS_FILE]
  /\ file_accesses (trace w) = [].
Proof.
  vm_compute. repeat split; reflexivity.
Qed.

(** **** Login *)

(** A lookup that is answered with a row decides the login by itself:
    the payload of that row when password and account type are the ones
    of the request, a 401 otherwise; the data directory is not read. *)
Lemma login_decided_by_found_row
      (username password accountType : string) (w : World) (row : users.row)
      (rest : list users.row) :
  supabaseAvailable w = true -> answered w ->
  filter (fun r => String.eqb (users.username r) username) (users_table (backend w))
  = row :: rest ->
  let req := LoginBody.make (Some username) (Some password) (Some accountType) in
  nonempty (Some username) = Some username ->
  nonempty (Some password) = Some password ->
  nonempty (Some accountType) = Some accountType ->
  fst (serve (POST_login req) w)
  = (if String.eqb (users.password row) password
        && String.eqb (users.account_type row) accountType
     then success_user (Some (JNum (users.id row))) (Some (JStr (users.username row)))
                       (Some (JStr (users.account_type row)))
     else refuse 401 "Invalid credentials")
  /\ file_accesses (trace (snd (serve (POST_login req) w))) = file_accesses (trace w)
  /\ supabaseAvailable (snd (serve (POST_login req) w)) = true.
Proof.
  intros Hon Hans Hrow req Hu Hp Ha. subst req.
  unfold serve. cbn [handler]. unfold login.
  cbn [LoginBody.username LoginBody.password LoginBody.accountType].
  rewrite Hu, Hp, Ha. unfold login_supabase. exec. rewrite Hon.
  rewrite dbFindUserByUsername_eq, Hon, supabase_answered by exact Hans.
  cbn [answer fst snd]. rewrite Hrow.
  unfold users_json_row.
  cbn [firstn map hd_error or_else truthy_opt truthy].
  exec. cbn [get lookup String.eqb Ascii.eqb Bool.eqb is_string].
  destruct (String.eqb (users.password row) password);
    destruct (String.eqb (users.account_type row) accountType);
    cbn [andb negb orb]; exec; repeat split; try reflexivity; exact Hon.
Qed.

(** C3 fails on the code: with the backend on and its lookup answered
    with no row, the handler goes on to the users file, finds the account
    there and logs the user in, the flag still on. *)
Theorem login_falls_back_on_unknown_user :
  let ann := JObj [("id", JNum 7); ("fullName", JStr "Ann");
                   ("username", JStr "ann"); ("email", JStr "ann@school");
                   ("accountType", JStr "Student"); ("password", JStr "secret")] in
  let w := boot "https://project.supabase.co" "anon-key"
                (Some (mkDir (Some (JSON.stringify (JArr [ann]))) None))
                (mkBackend [] 0 [] 0) 1700000000000 [Served] [] in
  let req := LoginBody.make (Some "ann") (Some "secret") (Some "Student") in
  let (res, w') := serve (POST_login req) w in
  fst (answer (users_select_eq "ann") (clock w) (backend w)) = Data []
  /\ res = success_user (Some (JNum 7)) (Some (JStr "ann")) (Some (JStr "Student"))
  /\ trace w' = [ReadFile USERS_FILE; Supabase (users_select_eq "ann")]
  /\ supabaseAvailable w' = true.
Proof.
  vm_compute. repeat split; reflexivity.
Qed.

End Routing.

(** * What the handlers answer *)

Module Handlers.
Import JSON Server Properties.
Local Open Scope string_scope.
Local Open Scope list_scope.
Local Open Scope js_scope.

Ltac world := LocalStore.world.

(** **** Reasoning on results *)

Lemma yields_ret {A : Type} (P : A -> Prop) (a : A) : P a -> yields P (ret a).
Proof. intros H w a' w' [= <- _]. exact H. Qed.

Lemma yields_throw {A : Type} (P : A -> Prop) (e : Error) : yields P (throw e).
Proof. intros w a' w' [=]. Qed.

Lemma yields_bind {A B : Type} (Q : A -> Prop) (P : B -> Prop)
      (m : M A) (k : A -> M B) :
  yields Q m -> (forall a, Q a -> yields P (k a)) -> yields P (bind m k).
Proof.
  intros Hm Hk w b w'. unfold bind.
  destruct (m w) as [[a|e] w1] eqn:E; [|discriminate].
  apply (Hk a (Hm _ _ _ E)).
Qed.

Lemma yields_any {A : Type} (m : M A) : yields (fun _ => True) m.
Proof. now intros w a w' _. Qed.

Lemma yields_then {A B : Type} (P : B -> Prop) (m : M A) (k : A -> M B) :
  (forall a, yields P (k a)) -> yields P (bind m k).
Proof. intros Hk. apply (yields_bind (fun _ => True)); auto using yields_any. Qed.

Lemma yields_try_catch {A : Type} (P : A -> Prop) (m : M A) (h : Error -> M A) :
  yields P m -> (forall e, yields P (h e)) -> yields P (try_catch m h).
Proof.
  intros Hm Hh w a w'. unfold try_catch.
  destruct (m w) as [[a'|e] w1] eqn:E.
  - intros [= <- _]. apply (Hm _ _ _ E).
  - apply Hh.
Qed.

(** **** C10: the payload of a signup or of a login *)

Lemma refuse_public (n : nat) (msg : string) :
  n <> 200 -> refusal_or_public (refuse n msg).
Proof. now left. Qed.

Lemma success_public (id name type : option value) :
  refusal_or_public (success_user id name type).
Proof. right. now exists id, name, type. Qed.

Lemma server_error_public (e : Error) : yields refusal_or_public (server_error e).
Proof.
  unfold server_error. apply yields_then. intros _.
  apply yields_ret, refuse_public. discriminate.
Qed.

Ltac results :=
  repeat first
    [ apply yields_then; intros
    | apply yields_throw
    | apply yields_ret;
      first [ exact I | apply success_public | apply refuse_public; discriminate
            | cbn [maybe]; first [ exact I | apply success_public
                                 | apply refuse_public; discriminate ] ]
    | match goal with
      | |- yields _ (if ?b then _ else _) => destruct b
      | |- yields _ (match ?x with _ => _ end) => destruct x
      end ].

Lemma signup_supabase_public (fullName username email accountType password : string) :
  yields (maybe refusal_or_public)
         (signup_supabase fullName username email accountType password).
Proof. unfold signup_supabase. results. Qed.

Lemma signup_local_public (fullName username email accountType password : string) :
  yields refusal_or_public
         (signup_local fullName username email accountType password).
Proof. unfold signup_local. results. Qed.

Lemma login_supabase_public (username password accountType : string) :
  yields (maybe refusal_or_public) (login_supabase username password accountType).
Proof. unfold login_supabase. results. Qed.

Lemma login_local_public (username password accountType : string) :
  yields refusal_or_public (login_local username password accountType).
Proof. unfold login_local. results. Qed.

(** The shape shared by the handlers: the block under the flag, then the
    fallback. *)
Lemma route_public (remote : M (option Response)) (local : M Response) :
  yields (maybe refusal_or_public) remote ->
  yields refusal_or_public local ->
  yields refusal_or_public
    (try_catch
       (available <- read_supabaseAvailable ;;
        returned <- (if available then remote else ret None) ;;
        match returned with
        | Some res => ret res
        | None => local
        end)
       server_error).
Proof.
  intros Hr Hl. apply yields_try_catch; [|apply server_error_public].
  apply yields_then. intros available.
  apply (yields_bind (maybe refusal_or_public)).
  - destruct available; [exact Hr|]. now apply yields_ret.
  - intros [res|] H; [now apply yields_ret|exact Hl].
Qed.

Lemma signup_public (req : SignupBody.t) : yields refusal_or_public (signup req).
Proof.
  unfold signup.
  repeat match goal with
         | |- yields _ (match ?x with _ => _ end) => destruct x
         end;
    try (apply yields_ret, refuse_public; discriminate).
  apply route_public;
    [apply signup_supabase_public|apply signup_local_public].
Qed.

Lemma login_public (req : LoginBody.t) : yields refusal_or_public (login req).
Proof.
  unfold login.
  repeat match goal with
         | |- yields _ (match ?x with _ => _ end) => destruct x
         end;
    try (apply yields_ret, refuse_public; discriminate).
  apply route_public;
    [apply login_supabase_public|apply login_local_public].
Qed.

Lemma object_keys (ms : list (string * option value)) (k : string) (v : value) :
  In (k, v) (object ms) -> In k (map fst ms).
Proof.
  induction ms as [|[k' [v'|]] ms IH]; cbn [object map fst In]; [easy| |].
  - intros [[= -> _]|H]; [now left|right; auto].
  - intros H. right. auto.
Qed.



(** **** C7: a report without a name *)

(** A local [createReport] that returns has put its record in front of
    the ones of the file. *)
Lemma createReport_local_returns
      (name grade : option string) (type description date : string)
      (w w' : World) (res : Response) :
  createReport_local name grade type description date w = (Normal res, w') ->
  let record := local_report (clock w) name grade type description date in
  res = json (JObj [("success", JBool true); ("report", record)])
  /\ (exists old, content REPORTS_FILE w' = Some (JSON.stringify (JArr (record :: old))))
  /\ backend w' = backend w
  /\ supabaseAvailable w' = supabaseAvailable w.
Proof.
  unfold createReport_local. Evaluation.exec.
  rewrite LocalStore.readJson_eq.
  set (reports := match data w with Some _ => _ | None => _ end).
  world. unfold array_method.
  destruct reports as [| | | |l|]; try discriminate.
  rewrite LocalStore.writeJson_eq. cbv zeta. world.
  unfold content.
  destruct (storage w) as [|[|n] later]; intros [= <- <-]; world;
    (split; [reflexivity|]); (split; [exists l; reflexivity|]);
    split; reflexivity.
Qed.

Lemma createReport_local_anonymous
      (name grade : option string) (type description date : string)
      (w w0 w1 : World) (res : Response) :
  nonempty name = None -> nonempty grade = None ->
  createReport_local name grade type description date w0 = (Normal res, w1) ->
  backend w0 = backend w ->
  anonymous_report_stored w res w1.
Proof.
  intros Hname Hgrade El Hb.
  apply createReport_local_returns in El as (-> & [old Hold] & Hb' & _).
  eexists. split; [reflexivity|].
  unfold local_report, default. rewrite Hname, Hgrade.
  repeat split; try reflexivity.
  right. exists old. split; [|congruence].
  rewrite Hold. unfold local_report, default. now rewrite Hname, Hgrade.
Qed.

(** C7. A [createReport] that carries a type, a description and a date
    but no name and no grade (absent, or the empty string) and that
    succeeds answers with a record whose name is ["Anonymous"] and whose
    grade is the empty string, and that record is the one stored: the row
    added to the [reports] table when the backend takes it, the first record
    of the reports file when the local store does. *)
Theorem anonymous_report_defaults
        (req : ReportBody.t) (w w' : World) (res : Response) :
  nonempty (ReportBody.name req) = None ->
  nonempty (ReportBody.grade req) = None ->
  serve (POST_reports req) w = (res, w') ->
  status res = 200 ->
  anonymous_report_stored w res w'.
Proof.
  intros Hname Hgrade Hs H200.
  unfold serve in Hs. cbn [handler] in Hs. unfold createReport in Hs.
  destruct (nonempty (ReportBody.type req)) as [type|];
    [|injection Hs as <- <-; discriminate H200].
  destruct (nonempty (ReportBody.description req)) as [description|];
    [|injection Hs as <- <-; discriminate H200].
  destruct (nonempty (ReportBody.date req)) as [date|];
    [|injection Hs as <- <-; discriminate H200].
  revert Hs. unfold createReport_supabase. Evaluation.exec.
  destruct (supabaseAvailable w) eqn:Hon.
  - rewrite Evaluation.dbCreateReport_eq, Hon.
    unfold supabase. world.
    destruct (network w) as [|[|msg] later] eqn:Hnet;
      cbn [answer]; Evaluation.exec.
    + (* answered *)
      intros [= <- <-]. cbn [body]. eexists. split; [reflexivity|].
      unfold default. rewrite Hname, Hgrade.
      repeat split; try reflexivity.
      left. eexists. repeat split; reflexivity.
    + intros [= <- <-]. cbn [body]. eexists. split; [reflexivity|].
      unfold default. rewrite Hname, Hgrade.
      repeat split; try reflexivity.
      left. eexists. repeat split; reflexivity.
    + (* refused *)
      destruct (Regex.test Regex.dbCreateReport_re msg); Evaluation.exec.
      * match goal with
        | |- context [createReport_local ?n ?g ?t ?d ?dt ?w0] =>
            destruct (createReport_local n g t d dt w0) as [[r|e] w1] eqn:El
        end; intros [= <- <-]; [|discriminate H200].
        apply (createReport_local_anonymous _ _ _ _ _ w _ _ _ Hname Hgrade El).
        reflexivity.
      * intros [= <- <-]. discriminate H200.
  - destruct (createReport_local _ _ type description date w)
      as [[r|e] w1] eqn:El; intros [= <- <-]; [|discriminate H200].
    apply (createReport_local_anonymous _ _ _ _ _ w _ _ _ Hname Hgrade El).
    reflexivity.
Qed.

(** C7, at the report of the specification's scenario, in a process that
    has no backend. *)
Lemma anonymous_report_defaults_witness :
  let req := ReportBody.make None None (Some "bullying") (Some "in the yard")
                             (Some "2024-01-01") in
  let w := boot EmptyString EmptyString None (mkBackend [] 0 [] 0)
                1700000000000 [] [] in
  status (fst (serve (POST_reports req) w)) = 200
  /\ anonymous_report_stored w (fst (serve (POST_reports req) w))
                             (snd (serve (POST_reports req) w)).
Proof.
  cbv zeta. split; [reflexivity|].
  eapply (anonymous_report_defaults
            (ReportBody.make None None (Some "bullying") (Some "in the yard")
                             (Some "2024-01-01"))
            (boot EmptyString EmptyString None (mkBackend [] 0 [] 0)
                  1700000000000 [] [])).
  - reflexivity.
  - reflexivity.
  - apply surjective_pairing.
  - reflexivity.
Defined.

(** **** C9: the same username twice *)

Lemma find_app_none (f : value -> Completion bool) (l l' : list value) :
  find f l = Normal None -> find f (l ++ l') = find f l'.
Proof.
  induction l as [|x l IH]; [reflexivity|]. cbn [find List.app].
  destruct (f x) as [[|]|e]; try discriminate. exact IH.
Qed.

Lemma find_some (f : value -> Completion bool) (l : list value) (u : value) :
  find f l = Normal (Some u) -> f u = Normal true.
Proof.
  induction l as [|x l IH]; [discriminate|]. cbn [find].
  destruct (f x) as [[|]|e] eqn:E; try discriminate; [|exact IH].
  now intros [= <-].
Qed.

(** What the callback accepts is an object. *)
Lemma username_is_truthy (username : string) (u : value) :
  username_is username u = Normal true -> truthy u = true.
Proof. destruct u; try discriminate; reflexivity. Qed.

(** The message of a violated [unique (username)] is not taken for a
    missing backend. *)
Lemma unique_violation_rethrown :
  Regex.test Regex.dbCreateUser_re (message unique_violation) = false.
Proof. reflexivity. Qed.

(** A local signup that succeeds leaves the account in the users file, and
    the rest as it was. *)
Lemma signup_local_registers
      (fullName username email accountType password : string)
      (w w' : World) (res : Response) :
  signup_local fullName username email accountType password w = (Normal res, w') ->
  status res = 200 ->
  supabaseAvailable w = false ->
  registered username w'.
Proof.
  unfold signup_local, registered. Evaluation.exec.
  rewrite LocalStore.readJson_eq.
  set (users := match data w with Some _ => _ | None => _ end).
  world. unfold array_method.
  destruct users as [| | | |l|]; try discriminate.
  destruct (find (username_is username) l) as [[u|]|e] eqn:Ef; try discriminate.
  - cbn [truthy_opt].
    rewrite (username_is_truthy username u (find_some _ _ _ Ef)).
    intros [= <- <-] H200. discriminate H200.
  - cbn [truthy_opt]. rewrite LocalStore.writeJson_eq. cbv zeta. world.
    destruct (storage w) as [|[|n] later]; intros [= <- <-] _ Hoff; world;
      rewrite Hoff; unfold content; world;
      eexists; eexists; (split; [reflexivity|]);
      rewrite (find_app_none _ _ _ Ef); cbn [find];
      unfold username_is; cbn [get lookup cbind is_string];
      cbn [String.eqb Ascii.eqb Bool.eqb]; unfold is_string;
      now rewrite String.eqb_refl.
Qed.

Lemma filter_app_last (username : string) (table : list users.row) (row : users.row) :
  users.username row = username ->
  exists r rest,
    filter (fun r => String.eqb (users.username r) username) (table ++ [row])
    = r :: rest.
Proof.
  intros <-. rewrite filter_app. cbn [filter]. rewrite String.eqb_refl.
  destruct (filter _ table) as [|r rest]; cbn [List.app]; eauto.
Qed.

(** **** Reading an outcome backwards *)

Lemma bind_inv {A B : Type} (m : M A) (k : A -> M B) (w w' : World) (b : B) :
  bind m k w = (Normal b, w') ->
  exists a w1, m w = (Normal a, w1) /\ k a w1 = (Normal b, w').
Proof.
  unfold bind. destruct (m w) as [[a|e] w1]; [|discriminate].
  intros H. now exists a, w1.
Qed.

Lemma ret_inv {A : Type} (a b : A) (w w' : World) :
  ret a w = (Normal b, w') -> a = b /\ w = w'.
Proof. now intros [= -> ->]. Qed.

(** The shape shared by the handlers, read backwards from a response that
    is not the 500 of the [catch] block. *)
Lemma route_inv (remote : M (option Response)) (local : M Response)
      (w w' : World) (res : Response) :
  try_catch
    (available <- read_supabaseAvailable ;;
     returned <- (if available then remote else ret None) ;;
     match returned with
     | Some res => ret res
     | None => local
     end)
    server_error w = (Normal res, w') ->
  status res <> 500 ->
  (supabaseAvailable w = true /\ remote w = (Normal (Some res), w'))
  \/ (supabaseAvailable w = true
      /\ exists w1, remote w = (Normal None, w1) /\ local w1 = (Normal res, w'))
  \/ (supabaseAvailable w = false /\ local w = (Normal res, w')).
Proof.
  unfold try_catch, bind at 1, read_supabaseAvailable.
  destruct (supabaseAvailable w); unfold bind, ret.
  - destruct (remote w) as [[[r|]|e] w1].
    + intros [= <- <-] _. now left.
    + destruct (local w1) as [[r|e] w2] eqn:El.
      * intros [= <- <-] _. right. left. split; [reflexivity|]. now exists w1.
      * intros [= <- <-] H. now contradiction H.
    + intros [= <- <-] H. now contradiction H.
  - destruct (local w) as [[r|e] w2].
    + intros [= <- <-] _. right. right. now split.
    + intros [= <- <-] H. now contradiction H.
Qed.

(** What [dbFindUserByUsername] returns: the first row of that name with
    the flag still on, or [null] with the flag off; the tables are not
    changed. *)
Lemma dbFindUserByUsername_inv (name : string) (w w1 : World) (r : option value) :
  dbFindUserByUsername name w = (Normal r, w1) ->
  backend w1 = backend w
  /\ ((supabaseAvailable w1 = false /\ r = None)
      \/ (supabaseAvailable w1 = true
          /\ r = or_else (hd_error
                            (map users_json_row
                               (firstn 1 (filter (fun r => String.eqb (users.username r) name)
                                                 (users_table (backend w))))))
                         None)).
Proof.
  rewrite Evaluation.dbFindUserByUsername_eq.
  destruct (supabaseAvailable w) eqn:Hon; [|intros [= <- <-]; auto].
  unfold supabase. world.
  destruct (network w) as [|[|msg] later]; cbn [answer]; world.
  - intros [= <- <-]. world. auto.
  - intros [= <- <-]. world. auto.
  - destruct (Regex.test _ msg); [|discriminate].
    intros [= <- <-]. cbn. auto.
Qed.

(** What [dbCreateUser] returns: the new row, now in the table, with the
    flag still on, or [null] with the flag off. *)
Lemma dbCreateUser_inv (u : new_user.t) (w w1 : World) (r : option value) :
  dbCreateUser u w = (Normal r, w1) ->
  (supabaseAvailable w1 = false /\ r = None)
  \/ (supabaseAvailable w1 = true
      /\ exists row,
           r = Some (users_json_row row)
           /\ users.username row = new_user.username u
           /\ users_table (backend w1) = users_table (backend w) ++ [row]).
Proof.
  rewrite Evaluation.dbCreateUser_eq.
  destruct (supabaseAvailable w) eqn:Hon; [|intros [= <- <-]; auto].
  unfold supabase. world.
  destruct (network w) as [|[|msg] later]; cbn [answer]; world.
  - destruct (existsb _ _); world.
    + rewrite unique_violation_rethrown. discriminate.
    + intros [= <- <-]. world. right. split; [exact Hon|].
      eexists. repeat split.
  - destruct (existsb _ _); world.
    + rewrite unique_violation_rethrown. discriminate.
    + intros [= <- <-]. world. right. split; [exact Hon|].
      eexists. repeat split.
  - destruct (Regex.test _ msg); [|discriminate].
    intros [= <- <-]. cbn. auto.
Qed.

(** The block of a signup under the flag: it returns a success only with
    the account in the table and the flag on, and goes on to the fallback
    only with the flag off. *)
Lemma signup_supabase_inv
      (fullName username email accountType password : string)
      (w w' : World) (returned : option Response) :
  signup_supabase fullName username email accountType password w
  = (Normal returned, w') ->
  match returned with
  | Some res =>
      status res = 200 ->
      supabaseAvailable w' = true
      /\ exists row rest,
           filter (fun r => String.eqb (users.username r) username)
                  (users_table (backend w')) = row :: rest
  | None => supabaseAvailable w' = false
  end.
Proof.
  unfold signup_supabase. intros H.
  apply bind_inv in H as (existing & w1 & Hfind & H).
  destruct (truthy_opt existing).
  { apply ret_inv in H as [<- <-]. discriminate. }
  apply bind_inv in H as (inserted & w2 & Hins & H).
  apply dbCreateUser_inv in Hins as [[Hoff ->]|(Hon & row & -> & Hname & Htable)].
  - now apply ret_inv in H as [<- <-].
  - change (truthy (users_json_row row)) with true in H. cbn iota in H.
    apply bind_inv in H as (id & w3 & [= <- <-] & H).
    apply bind_inv in H as (name & w4 & [= <- <-] & H).
    apply bind_inv in H as (type & w5 & [= <- <-] & H).
    apply ret_inv in H as [<- <-]. intros _. split; [exact Hon|].
    rewrite Htable. now apply filter_app_last.
Qed.

(** After a signup that succeeded, the store in charge holds the account. *)
Lemma signup_registers (req : SignupBody.t) (w w' : World) (res : Response) :
  serve (POST_signup req) w = (res, w') ->
  status res = 200 ->
  exists username,
    nonempty (SignupBody.username req) = Some username
    /\ registered username w'.
Proof.
  intros Hs H200.
  unfold serve in Hs. cbn [handler] in Hs. unfold signup in Hs.
  destruct (nonempty (SignupBody.fullName req)) as [fullName|];
    [|injection Hs as <- <-; discriminate H200].
  destruct (nonempty (SignupBody.username req)) as [username|];
    [|injection Hs as <- <-; discriminate H200].
  destruct (nonempty (SignupBody.email req)) as [email|];
    [|injection Hs as <- <-; discriminate H200].
  destruct (nonempty (SignupBody.accountType req)) as [accountType|];
    [|injection Hs as <- <-; discriminate H200].
  destruct (nonempty (SignupBody.password req)) as [password|];
    [|injection Hs as <- <-; discriminate H200].
  exists username. split; [reflexivity|].
  match type of Hs with
  | match ?m with _ => _ end = _ => destruct m as [[r|e] w1] eqn:E
  end; injection Hs as <- <-; [|discriminate H200].
  apply route_inv in E; [|rewrite H200; discriminate].
  destruct E as [[Hon Hr]|[(Hon & w0 & Hr & Hl)|[Hoff Hl]]].
  - apply signup_supabase_inv in Hr. destruct (Hr H200) as [Hon' Hrow].
    unfold registered. now rewrite Hon'.
  - apply signup_supabase_inv in Hr.
    exact (signup_local_registers _ _ _ _ _ _ _ _ Hl H200 Hr).
  - exact (signup_local_registers _ _ _ _ _ _ _ _ Hl H200 Hoff).
Qed.

(** A signup for a name that the store in charge holds is a conflict, and
    nothing is stored. *)
Lemma signup_conflicts_when_registered
      (req : SignupBody.t) (username : string) (w : World) :
  registered username w ->
  complete req ->
  nonempty (SignupBody.username req) = Some username ->
  (supabaseAvailable w = true -> answered w) ->
  fst (serve (POST_signup req) w) = refuse 409 "Username already exists"
  /\ backend (snd (serve (POST_signup req) w)) = backend w
  /\ data (snd (serve (POST_signup req) w)) = data w
  /\ supabaseAvailable (snd (serve (POST_signup req) w)) = supabaseAvailable w.
Proof.
  intros Hreg (Hf & _ & He & Ha & Hp) Hu Hans.
  unfold serve. cbn [handler]. unfold signup. rewrite Hu.
  destruct (nonempty (SignupBody.fullName req)) as [fullName|]; [|easy].
  destruct (nonempty (SignupBody.email req)) as [email|]; [|easy].
  destruct (nonempty (SignupBody.accountType req)) as [accountType|]; [|easy].
  destruct (nonempty (SignupBody.password req)) as [password|]; [|easy].
  unfold registered in Hreg. unfold signup_supabase. Evaluation.exec.
  destruct (supabaseAvailable w) eqn:Hon.
  - destruct Hreg as (row & rest & Hrow).
    rewrite Evaluation.dbFindUserByUsername_eq, Hon.
    rewrite Evaluation.supabase_answered by auto.
    cbn [answer fst snd]. rewrite Hrow.
    cbn [firstn map hd_error or_else truthy_opt truthy users_json_row].
    Evaluation.exec. repeat split; try reflexivity. exact Hon.
  - destruct Hreg as (l & u & Hfile & Hfind).
    unfold signup_local. Evaluation.exec.
    rewrite LocalStore.readJson_eq. unfold content in Hfile.
    destruct (data w) as [d|] eqn:Hd; [|discriminate]. rewrite Hfile.
    destruct (String.eqb (JSON.stringify (JArr l)) EmptyString) eqn:E.
    { apply String.eqb_eq in E. now apply JSONFacts.stringify_nonempty in E. }
    rewrite JSONFacts.parse_stringify. world. cbn [array_method].
    rewrite Hfind. cbn [truthy_opt].
    rewrite (username_is_truthy username u (find_some _ _ _ Hfind)).
    repeat split; try reflexivity; assumption.
Qed.



(** **** C8: the listing of the users *)

Lemma select_listed (r : users.row) :
  listed (select listing_columns (users_json_row r)).
Proof.
  eexists. split; [reflexivity|]. intros k v H.
  apply object_keys in H. cbn in H. exact H.
Qed.

Lemma Normal_inj {A : Type} (a b : A) : Normal a = Normal b -> a = b.
Proof. now intros [= ->]. Qed.

Lemma user_for_listing_listed (u v : value) :
  user_for_listing u = Normal v -> listed v.
Proof.
  unfold user_for_listing.
  destruct u; cbn [get cbind]; try discriminate; intros H;
    apply Normal_inj in H; subst v;
    (eexists; split; [reflexivity|]); intros k v H;
    apply object_keys in H; exact H.
Qed.

Lemma map_throwing_Forall (f : value -> Completion value) (P : value -> Prop)
      (l ys : list value) :
  (forall x y, f x = Normal y -> P y) ->
  map_throwing f l = Normal ys -> Forall P ys.
Proof.
  intros Hf. revert ys. induction l as [|x l IH]; cbn [map_throwing].
  - intros ys [= <-]. constructor.
  - destruct (f x) as [y|e] eqn:E; [|discriminate].
    destruct (map_throwing f l) as [ys'|e]; [|discriminate].
    intros ys [= <-]. constructor; eauto.
Qed.

Lemma listing_request_listed :
  yields (Forall listed) (data_or_throw users_select_listing).
Proof.
  intros w rows w'. unfold data_or_throw, bind, supabase. world.
  destruct (network w) as [|[|msg] later]; cbn [answer ret throw];
    try discriminate; intros [= <- _];
    apply Forall_forall; intros r Hr; apply in_map_iff in Hr as (row & <- & _);
    apply select_listed.
Qed.

Lemma listUsers_supabase_listing :
  yields (maybe refusal_or_listing) listUsers_supabase.
Proof.
  unfold listUsers_supabase. apply yields_try_catch.
  - apply (yields_bind (Forall listed)); [apply listing_request_listed|].
    intros rows Hrows. apply yields_ret. right. now exists rows.
  - intros e. do 2 (apply yields_then; intros). now apply yields_ret.
Qed.

Lemma listUsers_local_listing : yields refusal_or_listing listUsers_local.
Proof.
  unfold listUsers_local. apply yields_then. intros users.
  apply yields_then. intros l.
  intros w r w' H. apply bind_inv in H as (mapped & w1 & Hm & H).
  apply ret_inv in H as [<- _]. injection Hm as Hm _.
  right. exists mapped. split; [reflexivity|].
  exact (map_throwing_Forall _ _ _ _ user_for_listing_listed Hm).
Qed.

Lemma listUsers_listing : yields refusal_or_listing listUsers.
Proof.
  unfold listUsers. apply yields_try_catch.
  - apply yields_then. intros available.
    apply (yields_bind (maybe refusal_or_listing)).
    + destruct available; [apply listUsers_supabase_listing|now apply yields_ret].
    + intros [res|] H; [now apply yields_ret|apply listUsers_local_listing].
  - intros e. unfold server_error. apply yields_then. intros _.
    apply yields_ret. left. discriminate.
Qed.

(** The listing, as a function of what it looks at. *)
Lemma collection_eq (f : File) (w : World) :
  readJson f (JArr []) w = (Normal (collection f w), log (ReadFile f) w).
Proof.
  unfold collection. now rewrite LocalStore.readJson_eq.
Qed.

Lemma collection_data (f : File) (w w' : World) :
  data w' = data w -> collection f w' = collection f w.
Proof.
  intros H. unfold collection. rewrite !LocalStore.readJson_eq. cbn [fst].
  now rewrite H.
Qed.

Lemma listUsers_local_eq (w : World) :
  listUsers_local w
  = (local_listing (collection USERS_FILE w), log (ReadFile USERS_FILE) w).
Proof.
  unfold listUsers_local, local_listing, bind, lift.
  rewrite collection_eq.
  destruct (array_method "users" "map" (collection USERS_FILE w)) as [l|e];
    cbn [cbind]; [|reflexivity].
  now destruct (map_throwing user_for_listing l).
Qed.

Lemma serve_users_eq (w : World) :
  fst (serve GET_users w)
  = if supabaseAvailable w then
      match network w with
      | Refused _ :: _ => respond (local_listing (collection USERS_FILE w))
      | _ =>
          json (JArr (map (fun r => select listing_columns (users_json_row r))
                          (order_desc users.created_at (users_table (backend w)))))
      end
    else respond (local_listing (collection USERS_FILE w)).
Proof.
  unfold serve. cbn [handler]. unfold listUsers, listUsers_supabase, data_or_throw.
  Evaluation.exec. destruct (supabaseAvailable w).
  - unfold supabase. world.
    destruct (network w) as [|[|msg] later]; cbn [answer]; Evaluation.exec;
      try reflexivity.
    rewrite listUsers_local_eq.
    rewrite (collection_data USERS_FILE w) by reflexivity.
    destruct (local_listing (collection USERS_FILE w)); reflexivity.
  - rewrite listUsers_local_eq.
    destruct (local_listing (collection USERS_FILE w)); reflexivity.
Qed.

Lemma insert_desc_map {A : Type} (key : A -> Z) (g : A -> A) (x : A) (l : list A) :
  (forall a, key (g a) = key a) ->
  insert_desc key (g x) (map g l) = map g (insert_desc key x l).
Proof.
  intros Hg. induction l as [|y l IH]; [reflexivity|].
  cbn [map insert_desc]. rewrite !Hg.
  destruct (key y <? key x)%Z; [reflexivity|]. cbn [map]. now rewrite IH.
Qed.

Lemma order_desc_map {A : Type} (key : A -> Z) (g : A -> A) (l : list A) :
  (forall a, key (g a) = key a) ->
  order_desc key (map g l) = map g (order_desc key l).
Proof.
  intros Hg. unfold order_desc. induction l as [|x l IH]; [reflexivity|].
  cbn [map fold_right]. rewrite IH. now apply insert_desc_map.
Qed.

Lemma select_blank (r : users.row) :
  select listing_columns (users_json_row (blank_password r))
  = select listing_columns (users_json_row r).
Proof. reflexivity. Qed.

Lemma remote_listing_blank (table1 table2 : list users.row) :
  map blank_password table1 = map blank_password table2 ->
  map (fun r => select listing_columns (users_json_row r))
      (order_desc users.created_at table1)
  = map (fun r => select listing_columns (users_json_row r))
        (order_desc users.created_at table2).
Proof.
  intros H.
  assert (E : forall t,
             map (fun r => select listing_columns (users_json_row r))
                 (order_desc users.created_at t)
             = map (fun r => select listing_columns (users_json_row r))
                   (order_desc users.created_at (map blank_password t))).
  { intros t. rewrite order_desc_map by reflexivity.
    rewrite map_map. apply map_ext. intros r. symmetry. apply select_blank. }
  now rewrite (E table1), (E table2), H.
Qed.

Lemma lookup_without_password (k : string) (ms : list (string * value)) :
  String.eqb "password" k = false ->
  lookup k (filter (fun kv => negb (String.eqb (fst kv) "password")) ms)
  = lookup k ms.
Proof.
  intros Hk. induction ms as [|[k' v] ms IH]; [reflexivity|].
  cbn [filter fst lookup].
  destruct (String.eqb k' "password") eqn:E; cbn [negb].
  - apply String.eqb_eq in E. subst k'. rewrite IH, Hk.
    now destruct (lookup k ms).
  - cbn [lookup]. now rewrite IH.
Qed.

Lemma user_for_listing_without_password (u : value) :
  user_for_listing (without_password u) = user_for_listing u.
Proof.
  destruct u as [| | | | |ms]; try reflexivity.
  unfold user_for_listing, without_password. cbn [get cbind].
  now rewrite !lookup_without_password by reflexivity.
Qed.

Lemma map_throwing_without_password (l : list value) :
  map_throwing user_for_listing (map without_password l)
  = map_throwing user_for_listing l.
Proof.
  induction l as [|u l IH]; [reflexivity|].
  cbn [map map_throwing]. now rewrite user_for_listing_without_password, IH.
Qed.

Lemma local_listing_same (v1 v2 : value) :
  same_but_passwords v1 v2 -> local_listing v1 = local_listing v2.
Proof.
  unfold same_but_passwords.
  destruct v1 as [| | | |l1|]; try (now intros <-);
    destruct v2 as [| | | |l2|]; try (now intros <-); try (now intros ->).
  intros H. unfold local_listing. cbn [array_method cbind].
  now rewrite <- (map_throwing_without_password l1),
              <- (map_throwing_without_password l2), H.
Qed.

(** C8. A listing of the users never carries a password, whichever store
    answers: every record of a successful listing is an object whose fields
    are among [id], [full_name], [username], [email], [account_type] and
    [created_at]; and the response is the same in two worlds that differ
    only in the passwords they store. *)
Theorem listUsers_hides_passwords (w : World) :
  (status (fst (serve GET_users w)) = 200 ->
   exists records,
     body (fst (serve GET_users w)) = JArr records
     /\ Forall (fun r => listed r /\ get "password" r = Normal None) records)
  /\ (forall w2,
        differ_in_passwords_only w w2 ->
        fst (serve GET_users w) = fst (serve GET_users w2)).
Proof.
  split.
  - intros H200.
    assert (Hl : refusal_or_listing (fst (serve GET_users w))).
    { unfold serve. cbn [handler].
      destruct (listUsers w) as [[res|e] w1] eqn:E; cbn [fst].
      - exact (listUsers_listing _ _ _ E).
      - left. discriminate. }
    destruct Hl as [Hn|(records & -> & Hrec)]; [contradiction|].
    exists records. split; [reflexivity|].
    eapply Forall_impl; [|exact Hrec].
    intros r Hr. split; [exact Hr|].
    destruct Hr as (ms & -> & Hkeys). cbn [get]. f_equal.
    destruct (lookup "password" ms) as [v|] eqn:El; [|reflexivity].
    assert (Hin : In ("password", v) ms).
    { clear Hkeys. induction ms as [|[k' v'] ms IH]; [discriminate|].
      cbn [lookup] in El. destruct (lookup "password" ms) as [v''|].
      - right. apply IH. exact El.
      - destruct (String.eqb k' "password") eqn:Ek; [|discriminate].
        apply String.eqb_eq in Ek. injection El as <-. subst k'. now left. }
    apply Hkeys in Hin. cbn in Hin.
    repeat (destruct Hin as [Hin|Hin]; [discriminate Hin|]). contradiction.
  - intros w2 (Hflag & Hnet & Htable & Hfile).
    rewrite !serve_users_eq, <- Hflag, <- Hnet.
    rewrite (local_listing_same _ _ Hfile), (remote_listing_blank _ _ Htable).
    reflexivity.
Qed.

End Handlers.

(** * The scenarios of the specification, run *)

Module Scenarios.
Import JSON Server Properties Samples.
Local Open Scope string_scope.
Local Open Scope list_scope.

(** The message of PostgreSQL for a missing table is found by the pattern
    of [dbFindUserByUsername], whose dot is escaped once, and not by the
    pattern of [dbCreateUser], whose backslash is escaped too. *)
Example relation_missing_at_lookup :
  Regex.test Regex.dbFindUserByUsername_re (relation_does_not_exist "users") = true.
Proof. reflexivity. Qed.

Example relation_missing_at_insert :
  Regex.test Regex.dbCreateUser_re (relation_does_not_exist "users") = false.
Proof. reflexivity. Qed.

Example schema_cache_message_at_insert :
  Regex.test Regex.dbCreateUser_re
             "Could not find the table 'public.users' in the schema cache" = true.
Proof. reflexivity. Qed.

Example policy_message_any_case :
  Regex.test Regex.dbCreateReport_re
             "new row violates ROW-LEVEL SECURITY policy for table" = true.
Proof. reflexivity. Qed.

(** Scenario A: the backend is configured, the lookup of the first signup
    meets a table that does not exist; the flag goes off and the same
    request is answered from the users file. *)
Example scenario_A :
  let w := boot "https://project.supabase.co" "anon-key" None empty_tables
                1700000000000 [Refused (relation_does_not_exist "users")] [] in
  let (res, w') := serve (POST_signup ann) w in
  res = success_user (Some (JNum 1700000000000)) (Some (JStr "ann"))
                     (Some (JStr "Student"))
  /\ supabaseAvailable w' = false
  /\ users_table (backend w') = []
  /\ collection USERS_FILE w'
     = JArr [JObj [("id", JNum 1700000000000); ("fullName", JStr "Ann");
                   ("username", JStr "ann"); ("email", JStr "ann@school");
                   ("accountType", JStr "Student"); ("password", JStr "secret")]].
Proof. vm_compute. repeat split; reflexivity. Qed.

(** Scenario B: nothing configured; no request ever goes to the backend. *)
Example scenario_B :
  let w := boot EmptyString EmptyString None empty_tables 1700000000000 [] [] in
  let inputs :=
    [Incoming (POST_signup ann);
     Incoming (POST_login (LoginBody.make (Some "ann") (Some "secret") (Some "Student")));
     Incoming (POST_reports (ReportBody.make None None (Some "bullying")
                                             (Some "in the yard") (Some "2024-01-01")));
     Incoming GET_reports; Incoming GET_users] in
  map status (fst (run inputs w)) = [200; 200; 200; 200; 200]
  /\ calls (trace (snd (run inputs w))) = [].
Proof. vm_compute. split; reflexivity. Qed.

(** Scenario D: the rows of the backend carry [incident_date]; the
    listing shows it as [date]. *)
Example scenario_D :
  let w := boot "https://project.supabase.co" "anon-key" None empty_tables
                1700000000000 [] [] in
  let inputs :=
    [Incoming (POST_reports (ReportBody.make (Some "Ben") (Some "7") (Some "theft")
                                             (Some "a bag") (Some "2024-02-03")));
     Incoming GET_reports] in
  map body (fst (run inputs w))
  = [JObj [("success", JBool true);
           ("report",
            JObj [("id", JNum 1); ("name", JStr "Ben"); ("grade", JStr "7");
                  ("type", JStr "theft"); ("description", JStr "a bag");
                  ("incident_date", JStr "2024-02-03");
                  ("created_at", JNum 1700000000000)])];
     JArr [JObj [("id", JNum 1); ("name", JStr "Ben"); ("grade", JStr "7");
                 ("type", JStr "theft"); ("description", JStr "a bag");
                 ("date", JStr "2024-02-03");
                 ("created_at", JNum 1700000000000)]]].
Proof. vm_compute. reflexivity. Qed.

(** Two signups for one username in flight together, nothing configured:
    each reads the users file before the other writes it, both are answered
    200, and the file keeps the record of the one that wrote last. *)
Example signups_in_flight_together_on_the_file :
  let schedule :=
    [Async.Arrives (POST_signup ann); Async.Arrives (POST_signup anna);
     Async.Resumes 0; Async.Resumes 1]
    ++ repeat (Async.Resumes 0) 4 ++ [Async.Passes 1]
    ++ repeat (Async.Resumes 0) 4 in
  let p := Async.unfold_schedule schedule
             (start EmptyString EmptyString None empty_tables 1700000000000 [] []) in
  Async.inflight p = []
  /\ map status (Async.sent p) = [200; 200]
  /\ collection USERS_FILE (Async.world p)
     = JArr [JObj [("id", JNum 1700000000001); ("fullName", JStr "Anna");
                   ("username", JStr "ann"); ("email", JStr "anna@school");
                   ("accountType", JStr "Admin"); ("password", JStr "hidden")]].
Proof. vm_compute. repeat split; reflexivity. Qed.

(** The same two signups with the backend on and answering: both lookups
    find no row, the first insert goes in, and the second breaks the
    uniqueness of [username], which its helper throws on: a 500 with the
    message of the backend, the flag still on. *)
Example signups_in_flight_together_on_the_backend :
  let schedule :=
    [Async.Arrives (POST_signup ann); Async.Arrives (POST_signup anna);
     Async.Resumes 0; Async.Resumes 1]
    ++ repeat (Async.Resumes 0) 3 ++ repeat (Async.Resumes 0) 3 in
  let p := Async.unfold_schedule schedule
             (start "https://project.supabase.co" "anon-key" None empty_tables
                    1700000000000 [] []) in
  Async.inflight p = []
  /\ Async.sent p
     = [refuse 500 (message unique_violation);
        success_user (Some (JNum 1)) (Some (JStr "ann")) (Some (JStr "Student"))]
  /\ map users.username (users_table (backend (Async.world p))) = ["ann"]
  /\ supabaseAvailable (Async.world p) = true.
Proof. vm_compute. repeat split; reflexivity. Qed.

(** A text as [JSON.stringify (v, null, 2)] lays it out, and read back. *)
Example stringify_layout :
  JSON.stringify (JArr [JObj [("id", JNum 7); ("tags", JArr [])]; JNull])
  = string_of_list_ascii
      (chars "[" ++ LF :: chars "  {" ++ LF
       :: chars "    " ++ dquote :: chars "id" ++ dquote :: chars ": 7," ++ LF
       :: chars "    " ++ dquote :: chars "tags" ++ dquote :: chars ": []" ++ LF
       :: chars "  }," ++ LF :: chars "  null" ++ LF :: chars "]").
Proof. reflexivity. Qed.

Example parse_spaced_text :
  JSON.parse " [ 1 , -20 ,true , null ] " = Some (JArr [JNum 1; JNum (-20); JBool true; JNull]).
Proof. reflexivity. Qed.

Example parse_rejects_leading_zero : JSON.parse "[01]" = None.
Proof. reflexivity. Qed.

Example parse_rejects_trailing_comma : JSON.parse "[1,]" = None.
Proof. reflexivity. Qed.

End Scenarios.

(** * Classification of errors, queries, accounts and reports *)

Module Classification.
Import JSON Server Properties ServerProperties.
Local Open Scope string_scope.
Local Open Scope list_scope.

Lemma chars_app (s t : string) : chars (s ++ t) = chars s ++ chars t.
Proof.
  unfold chars. induction s as [|c s IH]; [reflexivity|].
  cbn [String.append list_ascii_of_string List.app]. now rewrite IH.
Qed.

(** A literal matches any text of the same letters, whatever follows. *)
Lemma match_here_letters (sig s rest : text) :
  map Regex.fold_case s = map Regex.fold_case sig ->
  Regex.match_here (map Regex.Lit sig) (s ++ rest) = true.
Proof.
  revert s. induction sig as [|c sig IH]; intros [|a s] H; try discriminate;
    [reflexivity|].
  cbn [map] in H. injection H as Hc Hs.
  cbn [map Regex.match_here List.app]. rewrite Hc, JSONFacts.ascii_eqb_refl.
  now apply IH.
Qed.

Lemma search_after (p : Regex.pattern) (before s : text) :
  Regex.match_here p s = true -> Regex.search p (before ++ s) = true.
Proof.
  intros H. induction before as [|a before IH]; cbn [List.app].
  - destruct s; cbn [Regex.search]; now rewrite H.
  - cbn [Regex.search]. rewrite IH. apply orb_true_r.
Qed.

Lemma search_letters (sig : string) (before s after : string) :
  same_letters s sig ->
  Regex.search (Regex.lit sig) (chars (before ++ s ++ after)) = true.
Proof.
  intros H. rewrite !chars_app. apply search_after.
  now apply match_here_letters.
Qed.

Lemma relation_missing_lit (table : string) :
  Regex.relation_missing table
  = Regex.lit (Samples.relation_does_not_exist table).
Proof.
  unfold Regex.relation_missing, Regex.lit, Samples.relation_does_not_exist.
  rewrite !chars_app, !map_app.
  change (chars (String dquote ("public." ++ table)%string))
    with (dquote :: chars ("public." ++ table)%string).
  change (chars (String dquote " does not exist"))
    with (dquote :: chars " does not exist").
  rewrite chars_app. cbn [map List.app]. rewrite !map_app.
  cbn [chars list_ascii_of_string map List.app].
  now rewrite <- ?app_assoc.
Qed.

(** X1. A message that holds one of the signatures of a helper, anywhere
    in it and in any letter case, is found by the pattern of that helper:
    the missing table of the schema cache and the rejection by a policy for
    all four, the missing relation for the two helpers that read. *)
Theorem signature_found_anywhere
        (re : list Regex.pattern) (sig before s after : string) :
  In (re, sig) recognised -> same_letters s sig ->
  Regex.test re (before ++ s ++ after) = true.
Proof.
  intros Hin Hs. unfold Regex.test.
  pose proof (search_letters sig before s after Hs) as H.
  unfold recognised in Hin. cbn [In] in Hin.
  repeat (destruct Hin as [[= <- <-]|Hin]);
    [..|contradiction Hin];
    cbn [existsb Regex.dbCreateUser_re Regex.dbFindUserByUsername_re
         Regex.dbCreateReport_re Regex.dbGetReports_re];
    rewrite ?relation_missing_lit;
    unfold Regex.table_not_found, Regex.rls_rejection;
    rewrite H; now rewrite ?orb_true_r.
Qed.

(** X1, at the message of PostgreSQL for a policy, in capitals. *)
Lemma signature_found_anywhere_witness :
  In (Regex.dbGetReports_re, "row-level security policy") recognised
  /\ same_letters "ROW-LEVEL Security Policy" "row-level security policy"
  /\ Regex.test Regex.dbGetReports_re
       ("new row violates " ++ "ROW-LEVEL Security Policy"
        ++ " for table reports") = true.
Proof.
  assert (H1 : In (Regex.dbGetReports_re, "row-level security policy") recognised)
    by (unfold recognised; cbn [In]; auto 12).
  assert (H2 : same_letters "ROW-LEVEL Security Policy" "row-level security policy")
    by reflexivity.
  split; [exact H1|]. split; [exact H2|].
  exact (signature_found_anywhere _ _ "new row violates "
           "ROW-LEVEL Security Policy" " for table reports" H1 H2).
Defined.

(** Only a backslash folds to a backslash. *)
Lemma fold_case_backslash (a : ascii) :
  ascii_eqb (Regex.fold_case a) (Regex.fold_case backslash) = true -> a = backslash.
Proof.
  destruct a as [[] [] [] [] [] [] [] []]; vm_compute; intros H;
    try discriminate H; reflexivity.
Qed.

(** A pattern with a literal backslash after literals matches only where
    the text has a backslash. *)
Lemma match_here_backslash (pre : text) (p : Regex.pattern) (s : text) :
  Regex.match_here (map Regex.Lit pre ++ Regex.Lit backslash :: p) s = true ->
  In backslash s.
Proof.
  revert s. induction pre as [|c pre IH]; intros [|a s];
    cbn [map List.app Regex.match_here]; try discriminate.
  - intros H. apply andb_prop in H as [H _].
    left. now apply fold_case_backslash.
  - intros H. apply andb_prop in H as [_ H]. right. now apply IH.
Qed.

Lemma search_backslash (pre : text) (p : Regex.pattern) (s : text) :
  ~ In backslash s ->
  Regex.search (map Regex.Lit pre ++ Regex.Lit backslash :: p) s = false.
Proof.
  intros Hn. induction s as [|a s IH]; cbn [Regex.search].
  - destruct (Regex.match_here _ []) eqn:E; [|reflexivity].
    now apply match_here_backslash in E.
  - destruct (Regex.match_here _ (a :: s)) eqn:E.
    + apply match_here_backslash in E. contradiction.
    + apply IH. intros H. apply Hn. now right.
Qed.

Lemma relation_missing_backslash_shape (table : string) :
  Regex.relation_missing_backslash table
  = map Regex.Lit (chars "relation " ++ dquote :: chars "public")
    ++ Regex.Lit backslash
       :: Regex.Dot :: Regex.lit table ++ [Regex.Lit dquote]
          ++ Regex.lit " does not exist".
Proof. reflexivity. Qed.

(** X2. A message that holds no backslash is never taken for a missing
    relation by the helpers of an insert, [dbCreateUser] and
    [dbCreateReport]: of the three alternatives of their patterns, only the
    missing table of the schema cache and the rejection by a policy are
    left. *)
Theorem insert_patterns_need_backslash (msg : string) :
  ~ In backslash (chars msg) ->
  Regex.test Regex.dbCreateUser_re msg = Regex.test insert_signatures msg
  /\ Regex.test Regex.dbCreateReport_re msg = Regex.test insert_signatures msg.
Proof.
  intros Hn. unfold Regex.test, Regex.dbCreateUser_re, Regex.dbCreateReport_re,
    insert_signatures.
  cbn [existsb]. rewrite !relation_missing_backslash_shape.
  rewrite !(search_backslash _ _ _ Hn). split; reflexivity.
Qed.

(** X2, at the message of PostgreSQL for a table that does not exist. *)
Lemma insert_patterns_need_backslash_witness :
  ~ In backslash (chars (Samples.relation_does_not_exist "users"))
  /\ Regex.test Regex.dbCreateUser_re (Samples.relation_does_not_exist "users")
     = false.
Proof.
  assert (H : ~ In backslash (chars (Samples.relation_does_not_exist "users"))).
  { intros H. vm_compute in H.
    repeat (destruct H as [H|H]; [discriminate H|]). exact H. }
  split; [exact H|].
  destruct (insert_patterns_need_backslash _ H) as [-> _]. reflexivity.
Defined.

End Classification.

Module Queries.
Import JSON Server Properties ServerProperties Evaluation.
Local Open Scope string_scope.
Local Open Scope list_scope.
Local Open Scope js_scope.

Ltac world := LocalStore.world.

Lemma untouched_refl (w : World) : untouched w w.
Proof. now repeat split. Qed.

Lemma untouched_trans (w1 w2 w3 : World) :
  untouched w1 w2 -> untouched w2 w3 -> untouched w1 w3.
Proof. intros (D1 & B1 & S1) (D2 & B2 & S2). repeat split; congruence. Qed.

Lemma untouched_ret {A : Type} (a : A) : respects untouched (ret a).
Proof. apply Failover.respects_ret, untouched_refl. Qed.

Lemma untouched_throw {A : Type} (e : Error) : respects untouched (@throw A e).
Proof. apply Failover.respects_throw, untouched_refl. Qed.

Lemma untouched_lift {A : Type} (c : Completion A) : respects untouched (lift c).
Proof. apply Failover.respects_lift, untouched_refl. Qed.

Lemma untouched_bind {A B : Type} (m : M A) (k : A -> M B) :
  respects untouched m -> (forall a, respects untouched (k a)) ->
  respects untouched (bind m k).
Proof. apply Failover.respects_bind, untouched_trans. Qed.

Lemma untouched_try_catch {A : Type} (m : M A) (h : Error -> M A) :
  respects untouched m -> (forall e, respects untouched (h e)) ->
  respects untouched (try_catch m h).
Proof. apply Failover.respects_try_catch, untouched_trans. Qed.

Lemma untouched_read_supabaseAvailable : respects untouched read_supabaseAvailable.
Proof. intros w. apply untouched_refl. Qed.

Lemma untouched_readJson (f : File) (fallback : value) :
  respects untouched (readJson f fallback).
Proof. intros w. rewrite LocalStore.readJson_eq. now repeat split. Qed.

Lemma untouched_server_error (e : Error) : respects untouched (server_error e).
Proof. intros w. now repeat split. Qed.

Lemma untouched_disableSupabase (reason : string) :
  respects untouched (disableSupabase reason).
Proof. intros w. now repeat split. Qed.

Lemma untouched_supabase (c : Call) : selects c -> respects untouched (supabase c).
Proof.
  intros Hc w. unfold supabase. world.
  destruct (network w) as [|[|msg] later];
    destruct c; try contradiction; cbn [answer snd]; now repeat split.
Qed.

Lemma untouched_data_or_throw (c : Call) :
  selects c -> respects untouched (data_or_throw c).
Proof.
  intros Hc. unfold data_or_throw.
  apply untouched_bind; [now apply untouched_supabase|].
  intros [rows|e]; [apply untouched_ret|apply untouched_throw].
Qed.

Lemma untouched_unavailable_or_rethrow {A : Type} (re : list Regex.pattern)
      (err : Error) :
  respects untouched (@unavailable_or_rethrow A re err).
Proof.
  unfold unavailable_or_rethrow. destruct (Regex.test re (message err)).
  - apply untouched_bind; [apply untouched_disableSupabase|].
    intros _. apply untouched_ret.
  - apply untouched_throw.
Qed.

Lemma untouched_helper {A : Type} (c : Call) (k : list value -> M (option A))
      (re : list Regex.pattern) :
  selects c -> (forall rows, respects untouched (k rows)) ->
  respects untouched
    (available <- read_supabaseAvailable ;;
     if negb available then ret None
     else try_catch (rows <- data_or_throw c ;; k rows)
                    (unavailable_or_rethrow re)).
Proof.
  intros Hc Hk. apply untouched_bind; [apply untouched_read_supabaseAvailable|].
  intros [|]; cbn [negb]; [|apply untouched_ret].
  apply untouched_try_catch.
  - apply untouched_bind; [now apply untouched_data_or_throw|exact Hk].
  - intros e. apply untouched_unavailable_or_rethrow.
Qed.

Lemma untouched_dbFindUserByUsername (name : string) :
  respects untouched (dbFindUserByUsername name).
Proof. apply untouched_helper; [exact I|]. intros. apply untouched_ret. Qed.

Lemma untouched_dbGetReports : respects untouched dbGetReports.
Proof. apply untouched_helper; [exact I|]. intros. apply untouched_ret. Qed.

Lemma untouched_listUsers_supabase : respects untouched listUsers_supabase.
Proof.
  unfold listUsers_supabase. apply untouched_try_catch.
  - apply untouched_bind; [now apply untouched_data_or_throw|].
    intros. apply untouched_ret.
  - intros e. apply untouched_bind; [intros w; now repeat split|].
    intros _. apply untouched_bind; [intros w; now repeat split|].
    intros _. apply untouched_ret.
Qed.

Create HintDb untouched.
#[local] Hint Resolve untouched_ret untouched_throw untouched_lift
  untouched_read_supabaseAvailable untouched_readJson untouched_server_error
  untouched_dbFindUserByUsername untouched_dbGetReports
  untouched_listUsers_supabase : untouched.

Ltac untouched :=
  repeat first
    [ solve [auto with untouched]
    | match goal with
      | |- respects _ (prop _ _) => apply untouched_lift
      | |- respects _ (bind _ _) => apply untouched_bind; [|intros]
      | |- respects _ (try_catch _ _) => apply untouched_try_catch; [|intros]
      | |- respects _ (if ?b then _ else _) => destruct b
      | |- respects _ (match ?x with _ => _ end) => destruct x
      end ].

Lemma untouched_login (req : LoginBody.t) : respects untouched (login req).
Proof. unfold login, login_supabase, login_local. untouched. Qed.

Lemma untouched_listReports : respects untouched listReports.
Proof. unfold listReports, listReports_supabase, listReports_local. untouched. Qed.

Lemma untouched_listUsers : respects untouched listUsers.
Proof. unfold listUsers, listUsers_local. untouched. Qed.

Lemma untouched_serve (r : Request) (w : World) :
  respects untouched (handler r) -> untouched w (snd (serve r w)).
Proof.
  intros H. specialize (H w). unfold serve.
  now destruct (handler r w) as [[res|e] w'].
Qed.

(** X3. A login, a listing of the reports and a listing of the users only
    read: whatever the request holds, whichever store answers, and whether
    or not the backend is turned off on the way, the tables of the backend
    and the files of the data directory are after the request as they were
    before it, and no write to the disk is used up. *)
Theorem queries_change_nothing (w : World) :
  (forall req, untouched w (snd (serve (POST_login req) w)))
  /\ untouched w (snd (serve GET_reports w))
  /\ untouched w (snd (serve GET_users w)).
Proof.
  split; [intros req|split]; apply untouched_serve; cbn [handler].
  - apply untouched_login.
  - apply untouched_listReports.
  - apply untouched_listUsers.
Qed.

End Queries.

Module Accounts.
Import JSON Server Properties ServerProperties Evaluation.
Local Open Scope string_scope.
Local Open Scope list_scope.
Local Open Scope js_scope.

Ltac world := LocalStore.world.

Lemma nonempty_some (x : option string) (s : string) :
  nonempty x = Some s -> x = Some s /\ s <> EmptyString.
Proof.
  destruct x as [t|]; [|discriminate]. cbn [nonempty].
  destruct (String.eqb t EmptyString) eqn:E; [discriminate|].
  intros [= ->]. split; [reflexivity|]. intros ->. discriminate.
Qed.

(** The callback of the local login is the one in [login_local]. *)
Lemma login_local_eq (username password accountType : string) :
  login_local username password accountType
  = (users <- readJson USERS_FILE (JArr []) ;;
     l <- lift (array_method "users" "find" users) ;;
     user <- lift (find (credentials_are username password accountType) l) ;;
     match user with
     | Some u =>
         if truthy u then
           id <- prop "id" u ;;
           name <- prop "username" u ;;
           type <- prop "accountType" u ;;
           ret (success_user id name type)
         else ret (refuse 401 "Invalid credentials")
     | None => ret (refuse 401 "Invalid credentials")
     end).
Proof. reflexivity. Qed.

(** Where no record has the name, none has the credentials. *)
Lemma find_credentials_none (username password accountType : string) (l : list value) :
  find (username_is username) l = Normal None ->
  find (credentials_are username password accountType) l = Normal None.
Proof.
  induction l as [|x l IH]; [reflexivity|]. cbn [find].
  unfold username_is at 1, credentials_are at 1.
  destruct (get "username" x) as [y|e]; cbn [cbind]; [|discriminate].
  destruct (is_string username y); [discriminate|]. exact IH.
Qed.

Lemma is_string_refl (s : string) : is_string s (Some (JStr s)) = true.
Proof. unfold is_string. apply String.eqb_refl. Qed.

Lemma is_string_neq (s t : string) : s <> t -> is_string s (Some (JStr t)) = false.
Proof.
  intros H. unfold is_string. apply String.eqb_neq. congruence.
Qed.

Lemma credentials_are_local_user
      (now : Z) (fullName username email accountType password other : string) :
  credentials_are username other accountType
    (local_user now fullName username email accountType password)
  = Normal (String.eqb password other).
Proof.
  unfold credentials_are, local_user.
  cbn [get lookup cbind String.eqb Ascii.eqb Bool.eqb].
  rewrite is_string_refl. unfold is_string at 1.
  destruct (String.eqb password other); [|reflexivity].
  now rewrite is_string_refl.
Qed.

(** A local signup that succeeds leaves the account at the end of the
    users file. *)
Lemma signup_local_enrols
      (fullName username email accountType password : string)
      (w w' : World) (res : Response) :
  signup_local fullName username email accountType password w = (Normal res, w') ->
  status res = 200 ->
  supabaseAvailable w = false ->
  enrolled fullName username email accountType password res w'.
Proof.
  unfold signup_local, enrolled. Evaluation.exec.
  rewrite LocalStore.readJson_eq.
  set (users := match data w with Some _ => _ | None => _ end).
  world. unfold array_method.
  destruct users as [| | | |l|]; try discriminate.
  destruct (find (username_is username) l) as [[u|]|e] eqn:Ef; try discriminate.
  - cbn [truthy_opt].
    rewrite (Handlers.username_is_truthy username u (Handlers.find_some _ _ _ Ef)).
    intros [= <- <-] H200. discriminate H200.
  - cbn [truthy_opt]. rewrite LocalStore.writeJson_eq. cbv zeta. world.
    destruct (storage w) as [|[|n] later]; intros [= <- <-] _ Hoff; world;
      rewrite Hoff; unfold content; world;
      exists l, (clock w);
      (split; [reflexivity|]); now split.
Qed.

Lemma filter_none_existsb (username : string) (table : list users.row) :
  filter (fun r => String.eqb (users.username r) username) table = [] ->
  existsb (fun r => String.eqb (users.username r) username) table = false.
Proof.
  induction table as [|r table IH]; [reflexivity|]. cbn [filter existsb].
  destruct (String.eqb (users.username r) username); [discriminate|exact IH].
Qed.

(** The block of a signup under the flag: it returns a success only for
    the one row of that name, just added, with the flag on, and goes on to
    the fallback only with the flag off. *)
Lemma signup_supabase_enrols
      (fullName username email accountType password : string)
      (w w' : World) (returned : option Response) :
  signup_supabase fullName username email accountType password w
  = (Normal returned, w') ->
  match returned with
  | Some res =>
      status res = 200 ->
      supabaseAvailable w' = true
      /\ enrolled fullName username email accountType password res w'
  | None => supabaseAvailable w' = false
  end.
Proof.
  unfold signup_supabase. intros H.
  apply Handlers.bind_inv in H as (existing & w1 & Hfind & H).
  destruct (truthy_opt existing) eqn:Hex.
  { apply Handlers.ret_inv in H as [<- <-]. discriminate. }
  apply Handlers.bind_inv in H as (inserted & w2 & Hins & H).
  apply Handlers.dbFindUserByUsername_inv in Hfind
    as [Hdb [[Hoff1 ->]|[Hon1 ->]]].
  - (* the lookup turned the backend off *)
    rewrite Evaluation.dbCreateUser_eq, Hoff1 in Hins.
    injection Hins as <- <-. now apply Handlers.ret_inv in H as [<- <-].
  - assert (Hnone : filter (fun r => String.eqb (users.username r) username)
                           (users_table (backend w1)) = []).
    { rewrite Hdb.
      destruct (filter _ (users_table (backend w))) as [|r rest];
        [reflexivity|discriminate Hex]. }
    rewrite Evaluation.dbCreateUser_eq, Hon1 in Hins.
    unfold supabase in Hins. world.
    destruct (network w1) as [|[|msg] later];
      cbn [answer new_user.full_name new_user.username new_user.email
           new_user.account_type new_user.password] in Hins; world;
      try (rewrite (filter_none_existsb _ _ Hnone) in Hins;
           injection Hins as <- <-; cbn [hd_error] in H;
           change (truthy (users_json_row ?r)) with true in H; cbn iota in H;
           apply Handlers.bind_inv in H as (id & w3 & [= <- <-] & H);
           apply Handlers.bind_inv in H as (name & w4 & [= <- <-] & H);
           apply Handlers.bind_inv in H as (type & w5 & [= <- <-] & H);
           apply Handlers.ret_inv in H as [<- <-]; intros _; world;
           split; [exact Hon1|]; unfold enrolled; world; rewrite Hon1;
           eexists; cbn [users_table]; rewrite filter_app, Hnone;
           cbn [filter List.app users.username];
           rewrite String.eqb_refl; repeat split).
    destruct (Regex.test _ msg); [|discriminate].
    injection Hins as <- <-. now apply Handlers.ret_inv in H as [<- <-].
Qed.

(** After a signup that succeeded, the store in charge holds the account
    with the fields of the request. *)
Lemma signup_enrols (req : SignupBody.t) (w w' : World) (res : Response) :
  serve (POST_signup req) w = (res, w') ->
  status res = 200 ->
  exists fullName username email accountType password,
    nonempty (SignupBody.fullName req) = Some fullName
    /\ nonempty (SignupBody.username req) = Some username
    /\ nonempty (SignupBody.email req) = Some email
    /\ nonempty (SignupBody.accountType req) = Some accountType
    /\ nonempty (SignupBody.password req) = Some password
    /\ enrolled fullName username email accountType password res w'.
Proof.
  intros Hs H200.
  unfold serve in Hs. cbn [handler] in Hs. unfold signup in Hs.
  destruct (nonempty (SignupBody.fullName req)) as [fullName|];
    [|injection Hs as <- <-; discriminate H200].
  destruct (nonempty (SignupBody.username req)) as [username|];
    [|injection Hs as <- <-; discriminate H200].
  destruct (nonempty (SignupBody.email req)) as [email|];
    [|injection Hs as <- <-; discriminate H200].
  destruct (nonempty (SignupBody.accountType req)) as [accountType|];
    [|injection Hs as <- <-; discriminate H200].
  destruct (nonempty (SignupBody.password req)) as [password|];
    [|injection Hs as <- <-; discriminate H200].
  exists fullName, username, email, accountType, password.
  repeat (split; [reflexivity|]).
  match type of Hs with
  | match ?m with _ => _ end = _ => destruct m as [[r|e] w1] eqn:E
  end; injection Hs as <- <-; [|discriminate H200].
  apply Handlers.route_inv in E; [|rewrite H200; discriminate].
  destruct E as [[Hon Hr]|[(Hon & w0 & Hr & Hl)|[Hoff Hl]]].
  - apply signup_supabase_enrols in Hr. now destruct (Hr H200).
  - apply signup_supabase_enrols in Hr.
    exact (signup_local_enrols _ _ _ _ _ _ _ _ Hl H200 Hr).
  - exact (signup_local_enrols _ _ _ _ _ _ _ _ Hl H200 Hoff).
Qed.

Lemma enrolled_holds (fullName username email accountType password : string)
      (res : Response) (w : World) :
  enrolled fullName username email accountType password res w ->
  holds_account username password accountType res w.
Proof.
  unfold enrolled, holds_account. destruct (supabaseAvailable w).
  - intros (row & Hrow & _ & Hname & _ & Htype & Hpw & Hres).
    exists row. repeat split; assumption.
  - intros (l & now & Hfile & Hnone & Hres).
    exists l, now, fullName, email. repeat split; assumption.
Qed.

(** After a signup that succeeded, the store in charge holds the account
    with the credentials of the request. *)
Lemma signup_holds (req : SignupBody.t) (w w' : World) (res : Response) :
  serve (POST_signup req) w = (res, w') ->
  status res = 200 ->
  exists username password accountType,
    nonempty (SignupBody.username req) = Some username
    /\ nonempty (SignupBody.password req) = Some password
    /\ nonempty (SignupBody.accountType req) = Some accountType
    /\ holds_account username password accountType res w'.
Proof.
  intros Hs H200.
  destruct (signup_enrols req w w' res Hs H200)
    as (fullName & username & email & accountType & password
        & _ & Hu & _ & Ht & Hp & He).
  exists username, password, accountType.
  repeat (split; [assumption|]). exact (enrolled_holds _ _ _ _ _ _ _ He).
Qed.

Lemma nonempty_Some (s : string) : s <> EmptyString -> nonempty (Some s) = Some s.
Proof.
  intros H. cbn [nonempty]. apply String.eqb_neq in H. now rewrite H.
Qed.

(** What [readJson] makes of a file that holds the text of a document. *)
Lemma readJson_content (f : File) (doc fallback : value) (w : World) :
  content f w = Some (JSON.stringify doc) ->
  readJson f fallback w = (Normal doc, log (ReadFile f) w).
Proof.
  intros H. rewrite LocalStore.readJson_eq. unfold content in H.
  destruct (data w) as [d|]; [|discriminate]. rewrite H.
  pose proof (JSONFacts.stringify_nonempty doc) as Hne.
  apply String.eqb_neq in Hne. now rewrite Hne, JSONFacts.parse_stringify.
Qed.

(** A login against the store that holds the account: the success the
    signup showed when the password is the one of the account, and a
    rejection when it is another. *)
Lemma login_of_account
      (username password accountType other : string) (res : Response) (w : World) :
  username <> EmptyString -> other <> EmptyString -> accountType <> EmptyString ->
  holds_account username password accountType res w ->
  (supabaseAvailable w = true -> answered w) ->
  fst (serve (POST_login (LoginBody.make (Some username) (Some other)
                                         (Some accountType))) w)
  = if String.eqb password other then res
    else refuse 401 "Invalid credentials".
Proof.
  intros Hu Ho Ht Hacc Hans.
  unfold serve. cbn [handler]. unfold login.
  cbn [LoginBody.username LoginBody.password LoginBody.accountType].
  rewrite !nonempty_Some by assumption.
  unfold holds_account in Hacc.
  destruct (supabaseAvailable w) eqn:Hon.
  - destruct Hacc as (row & Hrow & Hname & Hpw & Htype & ->).
    unfold login_supabase. Evaluation.exec. rewrite Hon.
    rewrite Evaluation.dbFindUserByUsername_eq, Hon.
    rewrite Evaluation.supabase_answered by auto.
    cbn [answer fst snd]. rewrite Hrow.
    cbn [firstn map hd_error]. unfold or_else. cbn [truthy_opt].
    change (truthy (users_json_row row)) with true. cbn iota.
    unfold users_json_row.
    cbn [get lookup String.eqb Ascii.eqb Bool.eqb truthy].
    rewrite Hpw, Htype, Hname.
    rewrite is_string_refl, andb_true_r, orb_false_r.
    unfold is_string. rewrite String.eqb_sym.
    destruct (String.eqb other password); reflexivity.
  - destruct Hacc as (l & now & fullName & email & Hfile & Hnone & ->).
    rewrite login_local_eq. Evaluation.exec. rewrite Hon.
    rewrite (readJson_content _ _ _ _ Hfile). cbn [array_method].
    rewrite (Handlers.find_app_none _ _ _
               (find_credentials_none _ other accountType _ Hnone)).
    cbn [find]. rewrite credentials_are_local_user.
    destruct (String.eqb password other); reflexivity.
Qed.



End Accounts.

Module Reporting.
Import JSON Server Properties ServerProperties Evaluation.
Local Open Scope string_scope.
Local Open Scope list_scope.
Local Open Scope js_scope.

Ltac world := LocalStore.world.

Lemma In_insert_desc {A : Type} (key : A -> Z) (x y : A) (l : list A) :
  In y (insert_desc key x l) <-> y = x \/ In y l.
Proof.
  induction l as [|z l IH]; cbn [insert_desc In].
  - intuition.
  - destruct (key z <? key x)%Z; cbn [In]; [intuition|].
    rewrite IH. intuition.
Qed.

Lemma In_order_desc {A : Type} (key : A -> Z) (y : A) (l : list A) :
  In y (order_desc key l) <-> In y l.
Proof.
  unfold order_desc. induction l as [|x l IH]; cbn [fold_right In]; [tauto|].
  rewrite In_insert_desc, IH. intuition.
Qed.

(** The callback of the listing never throws on a row of the table. *)
Lemma report_for_frontend_row (r : reports.row) :
  report_for_frontend (reports_json_row r) = Normal (listed_report r).
Proof.
  unfold report_for_frontend, reports_json_row, listed_report.
  cbn [get lookup cbind String.eqb Ascii.eqb Bool.eqb]. reflexivity.
Qed.

Lemma map_throwing_rows (rows : list reports.row) :
  map_throwing report_for_frontend (map reports_json_row rows)
  = Normal (map listed_report rows).
Proof.
  induction rows as [|r rows IH]; [reflexivity|].
  cbn [map map_throwing]. now rewrite report_for_frontend_row, IH.
Qed.

(** A listing of the reports answered by the backend. *)
Lemma listReports_answered (w : World) :
  supabaseAvailable w = true -> answered w ->
  fst (serve GET_reports w)
  = json (JArr (map listed_report
                    (order_desc reports.created_at (reports_table (backend w))))).
Proof.
  intros Hon Hans. unfold serve. cbn [handler].
  unfold listReports, listReports_supabase. exec. rewrite Hon.
  rewrite dbGetReports_eq, Hon, supabase_answered by exact Hans.
  cbn [answer fst snd]. now rewrite map_throwing_rows.
Qed.

(** A listing of the reports from a file that holds a document. *)
Lemma listReports_local_content (doc : value) (w : World) :
  supabaseAvailable w = false ->
  content REPORTS_FILE w = Some (JSON.stringify doc) ->
  fst (serve GET_reports w) = json doc.
Proof.
  intros Hoff Hfile. unfold serve. cbn [handler].
  unfold listReports, listReports_local. exec. rewrite Hoff.
  now rewrite (Accounts.readJson_content _ _ _ _ Hfile).
Qed.

(** The block of a [createReport] under the flag: it returns only with the
    row in the table and the flag on, and goes on to the fallback only
    with the flag off. *)
Lemma createReport_supabase_inv
      (name grade : option string) (type description date : string)
      (w w' : World) (returned : option Response) :
  createReport_supabase name grade type description date w = (Normal returned, w') ->
  match returned with
  | Some res =>
      supabaseAvailable w' = true
      /\ exists id now,
           reports_table (backend w')
           = reports_table (backend w)
             ++ [reports.mkRow id (Some (default "Anonymous" name))
                               (Some (default EmptyString grade))
                               type description date now]
  | None => supabaseAvailable w' = false
  end.
Proof.
  unfold createReport_supabase. intros H.
  apply Handlers.bind_inv in H as (inserted & w1 & Hins & H).
  rewrite dbCreateReport_eq in Hins.
  destruct (supabaseAvailable w) eqn:Hon.
  - unfold supabase in Hins. world.
    destruct (network w) as [|[|msg] later];
      cbn [answer new_report.name new_report.grade new_report.type
           new_report.description new_report.incident_date] in Hins; world;
      try (injection Hins as <- <-; cbn [hd_error] in H;
           change (truthy (reports_json_row ?r)) with true in H; cbn iota in H;
           apply Handlers.ret_inv in H as [<- <-]; world;
           split; [exact Hon|]; eexists; eexists; reflexivity).
    destruct (Regex.test _ msg); [|discriminate].
    injection Hins as <- <-. now apply Handlers.ret_inv in H as [<- <-].
  - injection Hins as <- <-. now apply Handlers.ret_inv in H as [<- <-].
Qed.

Lemma shows_listed_report (id now : Z) (name grade : option string)
      (type description date : string) :
  date <> EmptyString ->
  shows_report name grade type description date
    (listed_report (reports.mkRow id (Some (default "Anonymous" name))
                                  (Some (default EmptyString grade))
                                  type description date now)).
Proof.
  intros Hd. unfold shows_report, listed_report.
  cbn [reports.id reports.name reports.grade reports.type reports.description
       reports.incident_date reports.created_at nullable].
  unfold or_else. cbn [truthy_opt truthy].
  apply String.eqb_neq in Hd. rewrite Hd. cbn [negb object].
  cbn [get lookup String.eqb Ascii.eqb Bool.eqb]. now repeat split.
Qed.

Lemma shows_local_report (now : Z) (name grade : option string)
      (type description date : string) :
  shows_report name grade type description date
    (local_report now name grade type description date).
Proof.
  unfold shows_report, local_report.
  cbn [get lookup String.eqb Ascii.eqb Bool.eqb]. now repeat split.
Qed.



End Reporting.

Module Demotion.
Import JSON Server Properties ServerProperties Evaluation.
Local Open Scope string_scope.
Local Open Scope list_scope.
Local Open Scope js_scope.

Ltac world := LocalStore.world.

(** A helper whose request comes back with a message its pattern finds. *)
Lemma helper_demotes {A : Type} (c : Call) (k : list value -> option A)
      (re : list Regex.pattern) (msg : string) (later : list Outcome) (w : World) :
  supabaseAvailable w = true -> network w = Refused msg :: later ->
  Regex.test re msg = true ->
  (available <- read_supabaseAvailable ;;
   if negb available then ret None
   else try_catch (rows <- data_or_throw c ;; ret (k rows))
                  (unavailable_or_rethrow re)) w
  = (Normal None, demotion c msg later w).
Proof.
  intros Hon Hnet Hre.
  rewrite helper_eq, Hon, (supabase_refused _ msg later w Hnet).
  cbn [message]. now rewrite Hre.
Qed.

(** X6. A permanent failure is invisible to the caller. When the first
    request a handler sends (the lookup of a signup or of a login, the
    insert of a [createReport], the select of a listing of the reports)
    comes back with a message that the pattern of its helper finds, the
    handler answers, and leaves the process, exactly as it would have
    had the flag been off when the request arrived, in a process that
    differs by the record of the refused request and the warning; and
    the flag is off afterwards. *)
Theorem demotion_is_invisible
        (r : Request) (c : Call) (re : list Regex.pattern) (msg : string)
        (later : list Outcome) (w : World) :
  first_call r = Some (c, re) ->
  supabaseAvailable w = true -> network w = Refused msg :: later ->
  Regex.test re msg = true ->
  serve r w = serve r (demotion c msg later w)
  /\ supabaseAvailable (snd (serve r w)) = false.
Proof.
  intros Hfirst Hon Hnet Hre.
  assert (E : serve r w = serve r (demotion c msg later w)).
  { unfold serve. destruct r as [req|req|req| |]; cbn [handler first_call] in *.
    - unfold signup.
      destruct (nonempty (SignupBody.fullName req)) as [fullName|]; [|discriminate].
      destruct (nonempty (SignupBody.username req)) as [username|]; [|discriminate].
      destruct (nonempty (SignupBody.email req)) as [email|]; [|discriminate].
      destruct (nonempty (SignupBody.accountType req)) as [accountType|];
        [|discriminate].
      destruct (nonempty (SignupBody.password req)) as [password|]; [|discriminate].
      injection Hfirst as <- <-.
      unfold try_catch, bind at 1 2 3. unfold read_supabaseAvailable at 1 2.
      rewrite Hon. cbn [demotion supabaseAvailable set_supabaseAvailable log].
      unfold signup_supabase, bind at 1.
      unfold dbFindUserByUsername. rewrite (helper_demotes _ _ _ msg later w Hon Hnet Hre).
      cbn [truthy_opt]. unfold bind at 1. rewrite dbCreateUser_eq.
      reflexivity.
    - unfold login.
      destruct (nonempty (LoginBody.username req)) as [username|]; [|discriminate].
      destruct (nonempty (LoginBody.password req)) as [password|]; [|discriminate].
      destruct (nonempty (LoginBody.accountType req)) as [accountType|];
        [|discriminate].
      injection Hfirst as <- <-.
      unfold try_catch, bind at 1 2 3. unfold read_supabaseAvailable at 1 2.
      rewrite Hon. cbn [demotion supabaseAvailable set_supabaseAvailable log].
      unfold login_supabase, bind at 1.
      unfold dbFindUserByUsername. rewrite (helper_demotes _ _ _ msg later w Hon Hnet Hre).
      reflexivity.
    - unfold createReport.
      destruct (nonempty (ReportBody.type req)) as [type|]; [|discriminate].
      destruct (nonempty (ReportBody.description req)) as [description|];
        [|discriminate].
      destruct (nonempty (ReportBody.date req)) as [date|]; [|discriminate].
      injection Hfirst as <- <-. cbv zeta.
      unfold try_catch, bind at 1 2 3. unfold read_supabaseAvailable at 1 2.
      rewrite Hon. cbn [demotion supabaseAvailable set_supabaseAvailable log].
      unfold createReport_supabase, bind at 1.
      unfold dbCreateReport.
      rewrite (helper_demotes _ _ _ msg later w Hon Hnet Hre).
      reflexivity.
    - injection Hfirst as <- <-. unfold listReports.
      unfold try_catch, bind at 1 2 3. unfold read_supabaseAvailable at 1 2.
      rewrite Hon. cbn [demotion supabaseAvailable set_supabaseAvailable log].
      unfold listReports_supabase, bind at 1.
      unfold dbGetReports.
      rewrite (helper_demotes _ _ _ msg later w Hon Hnet Hre).
      reflexivity.
    - discriminate. }
  split; [exact E|]. rewrite E. now apply Failover.off_serve.
Qed.

(** X6, at the first signup of a process whose [users] table was never
    created. *)
Lemma demotion_is_invisible_witness :
  let msg := Samples.relation_does_not_exist "users" in
  let w := boot "https://project.supabase.co" "anon-key" None Samples.empty_tables
                1700000000000 [Refused msg] [] in
  let w0 := demotion (users_select_eq "ann") msg [] w in
  first_call (POST_signup Samples.ann)
  = Some (users_select_eq "ann", Regex.dbFindUserByUsername_re)
  /\ Regex.test Regex.dbFindUserByUsername_re msg = true
  /\ serve (POST_signup Samples.ann) w = serve (POST_signup Samples.ann) w0
  /\ fst (serve (POST_signup Samples.ann) w0)
     = success_user (Some (JNum 1700000000000)) (Some (JStr "ann"))
                    (Some (JStr "Student"))
  /\ supabaseAvailable (snd (serve (POST_signup Samples.ann) w)) = false.
Proof.
  cbv zeta.
  set (msg := Samples.relation_does_not_exist "users").
  set (w := boot "https://project.supabase.co" "anon-key" None Samples.empty_tables
                 1700000000000 [Refused msg] []).
  assert (H1 : first_call (POST_signup Samples.ann)
               = Some (users_select_eq "ann", Regex.dbFindUserByUsername_re))
    by reflexivity.
  assert (H2 : Regex.test Regex.dbFindUserByUsername_re msg = true) by reflexivity.
  destruct (demotion_is_invisible _ _ _ msg [] w H1 eq_refl eq_refl H2) as [E Hoff].
  split; [exact H1|]. split; [exact H2|]. split; [exact E|].
  split; [reflexivity|exact Hoff].
Defined.

End Demotion.

Module Corruption.
Import JSON Server Properties ServerProperties Evaluation.
Local Open Scope string_scope.
Local Open Scope list_scope.
Local Open Scope js_scope.

Ltac world := LocalStore.world.

Lemma array_method_not_array (receiver method : string) (doc : value) :
  not_array doc -> exists e, array_method receiver method doc = Thrown e.
Proof. destruct doc; cbn; intros H; try contradiction; eauto. Qed.

Lemma collection_readJson (f : File) (w : World) :
  readJson f (JArr []) w = (Normal (collection f w), log (ReadFile f) w).
Proof.
  unfold collection. rewrite LocalStore.readJson_eq. reflexivity.
Qed.

(** The body of a fallback that reads a document which is not an array
    and calls an array method on it. *)
Lemma local_throws {A : Type} (f : File) (receiver method : string)
      (k : list value -> M A) (w : World) :
  not_array (collection f w) ->
  exists e,
    (doc <- readJson f (JArr []) ;;
     l <- lift (array_method receiver method doc) ;;
     k l) w = (Thrown e, log (ReadFile f) w).
Proof.
  intros H. destruct (array_method_not_array receiver method _ H) as [e He].
  exists e. unfold bind at 1. rewrite collection_readJson.
  unfold bind, lift. now rewrite He.
Qed.

Lemma signup_not_array (req : SignupBody.t) (w : World) :
  supabaseAvailable w = false -> not_array (collection USERS_FILE w) ->
  status (fst (serve (POST_signup req) w)) = 400
  \/ fails_without_writing w (serve (POST_signup req) w).
Proof.
  intros Hoff Hdoc. unfold serve. cbn [handler]. unfold signup.
  destruct (nonempty (SignupBody.fullName req)) as [fullName|]; [|now left].
  destruct (nonempty (SignupBody.username req)) as [username|]; [|now left].
  destruct (nonempty (SignupBody.email req)) as [email|]; [|now left].
  destruct (nonempty (SignupBody.accountType req)) as [accountType|]; [|now left].
  destruct (nonempty (SignupBody.password req)) as [password|]; [|now left].
  right. unfold try_catch, bind at 1 2. unfold read_supabaseAvailable.
  rewrite Hoff. cbn [ret]. unfold signup_local.
  destruct (local_throws USERS_FILE "users" "find"
              (fun l =>
                 taken <- lift (find (username_is username) l) ;;
                 if truthy_opt taken then ret (refuse 409 "Username already exists")
                 else
                   now <- Date_now ;;
                   writeJson USERS_FILE
                     (JArr (l ++ [JObj [("id", JNum now); ("fullName", JStr fullName);
                                        ("username", JStr username);
                                        ("email", JStr email);
                                        ("accountType", JStr accountType);
                                        ("password", JStr password)]])) ;;;
                   ret (success_user (Some (JNum now)) (Some (JStr username))
                                     (Some (JStr accountType)))) w Hdoc)
    as [e He].
  rewrite He. now repeat split.
Qed.

Lemma login_not_array (req : LoginBody.t) (w : World) :
  supabaseAvailable w = false -> not_array (collection USERS_FILE w) ->
  status (fst (serve (POST_login req) w)) = 400
  \/ fails_without_writing w (serve (POST_login req) w).
Proof.
  intros Hoff Hdoc. unfold serve. cbn [handler]. unfold login.
  destruct (nonempty (LoginBody.username req)) as [username|]; [|now left].
  destruct (nonempty (LoginBody.password req)) as [password|]; [|now left].
  destruct (nonempty (LoginBody.accountType req)) as [accountType|]; [|now left].
  right. unfold try_catch, bind at 1 2. unfold read_supabaseAvailable.
  rewrite Hoff. cbn [ret]. rewrite Accounts.login_local_eq.
  match goal with
  | |- context [bind (readJson _ _) (fun users => bind _ ?k)] =>
      destruct (local_throws USERS_FILE "users" "find" k w Hdoc) as [e He]
  end.
  rewrite He. now repeat split.
Qed.

Lemma listUsers_not_array (w : World) :
  supabaseAvailable w = false -> not_array (collection USERS_FILE w) ->
  fails_without_writing w (serve GET_users w).
Proof.
  intros Hoff Hdoc. unfold serve. cbn [handler]. unfold listUsers.
  unfold try_catch, bind at 1 2. unfold read_supabaseAvailable.
  rewrite Hoff. cbn [ret]. unfold listUsers_local.
  match goal with
  | |- context [bind (readJson _ _) (fun users => bind _ ?k)] =>
      destruct (local_throws USERS_FILE "users" "map" k w Hdoc) as [e He]
  end.
  rewrite He. now repeat split.
Qed.

Lemma createReport_not_array (req : ReportBody.t) (w : World) :
  supabaseAvailable w = false -> not_array (collection REPORTS_FILE w) ->
  status (fst (serve (POST_reports req) w)) = 400
  \/ fails_without_writing w (serve (POST_reports req) w).
Proof.
  intros Hoff Hdoc. unfold serve. cbn [handler]. unfold createReport.
  destruct (nonempty (ReportBody.type req)) as [type|]; [|now left].
  destruct (nonempty (ReportBody.description req)) as [description|]; [|now left].
  destruct (nonempty (ReportBody.date req)) as [date|]; [|now left].
  right. cbv zeta. unfold try_catch, bind at 1 2. unfold read_supabaseAvailable.
  rewrite Hoff. cbn [ret]. unfold createReport_local.
  unfold bind at 1. rewrite collection_readJson.
  unfold bind at 1. cbn [Date_now]. world.
  destruct (array_method_not_array "reports" "unshift" _ Hdoc) as [e He].
  unfold bind at 1, lift. rewrite He. now repeat split.
Qed.

Lemma listReports_any_document (w : World) :
  supabaseAvailable w = false ->
  fst (serve GET_reports w) = json (collection REPORTS_FILE w).
Proof.
  intros Hoff. unfold serve. cbn [handler]. unfold listReports.
  unfold try_catch, bind at 1 2. unfold read_supabaseAvailable.
  rewrite Hoff. cbn [ret]. unfold listReports_local, bind.
  now rewrite collection_readJson.
Qed.

(** X7. A collection file that holds a JSON document other than an array
    (an object, a number, [null], ...) is not taken for an empty
    collection, as an unparsable file is. With the flag off, every signup,
    login and listing of the users that gets past the check of its fields
    is answered 500 when the users file is such, and so is every
    [createReport] when the reports file is such; nothing is written. The
    listing of the reports answers 200 with the document as it is. *)
Theorem collection_that_is_not_an_array (w : World) :
  supabaseAvailable w = false ->
  (not_array (collection USERS_FILE w) ->
   (forall req, status (fst (serve (POST_signup req) w)) = 400
                \/ fails_without_writing w (serve (POST_signup req) w))
   /\ (forall req, status (fst (serve (POST_login req) w)) = 400
                   \/ fails_without_writing w (serve (POST_login req) w))
   /\ fails_without_writing w (serve GET_users w))
  /\ (not_array (collection REPORTS_FILE w) ->
      forall req, status (fst (serve (POST_reports req) w)) = 400
                  \/ fails_without_writing w (serve (POST_reports req) w))
  /\ fst (serve GET_reports w) = json (collection REPORTS_FILE w).
Proof.
  intros Hoff. split; [|split].
  - intros Hdoc. split; [|split].
    + intros req. now apply signup_not_array.
    + intros req. now apply login_not_array.
    + now apply listUsers_not_array.
  - intros Hdoc req. now apply createReport_not_array.
  - now apply listReports_any_document.
Qed.

(** X7, at a data directory whose two files hold an empty object. *)
Lemma collection_that_is_not_an_array_witness :
  let w := boot EmptyString EmptyString (Some (mkDir (Some "{}") (Some "{}")))
                Samples.empty_tables 1700000000000 [] [] in
  supabaseAvailable w = false
  /\ collection USERS_FILE w = JObj []
  /\ fst (serve (POST_signup Samples.ann) w) = refuse 500 "users.find is not a function"
  /\ fails_without_writing w (serve GET_users w)
  /\ fst (serve GET_reports w) = json (JObj []).
Proof.
  cbv zeta.
  set (w := boot EmptyString EmptyString (Some (mkDir (Some "{}") (Some "{}")))
                 Samples.empty_tables 1700000000000 [] []).
  assert (Hoff : supabaseAvailable w = false) by reflexivity.
  destruct (collection_that_is_not_an_array w Hoff) as (Husers & _ & Hlist).
  destruct (Husers I) as (_ & _ & Hget).
  split; [exact Hoff|]. split; [reflexivity|]. split; [reflexivity|].
  split; [exact Hget|exact Hlist].
Defined.

End Corruption.

Module Statuses.
Import JSON Server Properties ServerProperties Evaluation.
Local Open Scope string_scope.
Local Open Scope list_scope.
Local Open Scope js_scope.

Lemma nonempty_None (x : option string) : nonempty x = None <-> blank x.
Proof.
  unfold blank. destruct x as [s|]; cbn [nonempty]; [|tauto].
  destruct (String.eqb s EmptyString) eqn:E.
  - apply String.eqb_eq in E as ->. tauto.
  - apply String.eqb_neq in E. split; [discriminate|].
    intros [H|[= H]]; [discriminate H|contradiction].
Qed.

Lemma answers_server_error (codes : list nat) (e : Error) :
  In 500 codes -> yields (answers codes) (server_error e).
Proof.
  intros H. unfold server_error. apply Handlers.yields_then. intros _.
  now apply Handlers.yields_ret.
Qed.

(** The shape shared by the handlers. *)
Lemma route_answers (codes : list nat) (remote : M (option Response))
      (local : M Response) :
  In 500 codes ->
  yields (maybe (answers codes)) remote ->
  yields (answers codes) local ->
  yields (answers codes)
    (try_catch
       (available <- read_supabaseAvailable ;;
        returned <- (if available then remote else ret None) ;;
        match returned with
        | Some res => ret res
        | None => local
        end)
       server_error).
Proof.
  intros H500 Hr Hl.
  apply Handlers.yields_try_catch; [|intros e; now apply answers_server_error].
  apply Handlers.yields_then. intros available.
  apply (Handlers.yields_bind (maybe (answers codes))).
  - destruct available; [exact Hr|]. now apply Handlers.yields_ret.
  - intros [res|] H; [now apply Handlers.yields_ret|exact Hl].
Qed.

Ltac answers :=
  repeat first
    [ progress intros
    | apply Handlers.yields_then; intros
    | apply Handlers.yields_throw
    | apply Handlers.yields_ret;
      cbn [maybe answers status json refuse success_user In]; tauto
    | match goal with
      | |- yields _ (if ?b then _ else _) => destruct b
      | |- yields _ (match ?x with _ => _ end) => destruct x
      end ].

Lemma signup_answers (fullName username email accountType password : string) :
  yields (answers [200; 409; 500])
    (try_catch
       (available <- read_supabaseAvailable ;;
        returned <- (if available
                     then signup_supabase fullName username email accountType password
                     else ret None) ;;
        match returned with
        | Some res => ret res
        | None => signup_local fullName username email accountType password
        end)
       server_error).
Proof.
  apply route_answers; [cbn; tauto| |].
  - unfold signup_supabase. answers.
  - unfold signup_local. answers.
Qed.

Lemma login_answers (username password accountType : string) :
  yields (answers [200; 401; 500])
    (try_catch
       (available <- read_supabaseAvailable ;;
        returned <- (if available
                     then login_supabase username password accountType
                     else ret None) ;;
        match returned with
        | Some res => ret res
        | None => login_local username password accountType
        end)
       server_error).
Proof.
  apply route_answers; [cbn; tauto| |].
  - unfold login_supabase. answers.
  - unfold login_local. answers.
Qed.

Lemma createReport_answers (name grade : option string)
      (type description date : string) :
  yields (answers [200; 500])
    (try_catch
       (available <- read_supabaseAvailable ;;
        returned <- (if available
                     then createReport_supabase name grade type description date
                     else ret None) ;;
        match returned with
        | Some res => ret res
        | None => createReport_local name grade type description date
        end)
       server_error).
Proof.
  apply route_answers; [cbn; tauto| |].
  - unfold createReport_supabase. answers.
  - unfold createReport_local. answers.
Qed.

Lemma listReports_answers : yields (answers [200; 500]) listReports.
Proof.
  apply route_answers; [cbn; tauto| |].
  - unfold listReports_supabase. answers.
  - unfold listReports_local. answers.
Qed.

Lemma listUsers_answers : yields (answers [200; 500]) listUsers.
Proof.
  apply route_answers; [cbn; tauto| |].
  - unfold listUsers_supabase. apply Handlers.yields_try_catch; answers.
  - unfold listUsers_local. answers.
Qed.

(** What [serve] makes of a handler. *)
Lemma serve_answers (codes : list nat) (r : Request) (w : World) :
  In 500 codes -> yields (answers codes) (handler r) ->
  In (status (fst (serve r w))) codes.
Proof.
  intros H500 H. unfold serve.
  destruct (handler r w) as [[res|e] w'] eqn:E; [|exact H500].
  exact (H _ _ _ E).
Qed.

(** A request that has its fields is not answered 400. *)
Lemma complete_answers (codes : list nat) (r : Request) (w : World) :
  In 500 codes -> ~ In 400 codes -> incl codes (statuses r) ->
  yields (answers codes) (handler r) ->
  In (status (fst (serve r w))) (statuses r)
  /\ (status (fst (serve r w)) = 400 -> lacks_a_field r).
Proof.
  intros H500 H400 Hincl H.
  pose proof (serve_answers codes r w H500 H) as Hin.
  split; [now apply Hincl|]. intros E. rewrite E in Hin. contradiction.
Qed.


End Statuses.

Module Inserts.
Import JSON Server Properties ServerProperties Evaluation.
Local Open Scope string_scope.
Local Open Scope list_scope.
Local Open Scope js_scope.

Ltac world := LocalStore.world.

Lemma insert_patterns_miss (msg : string) :
  ~ In backslash (chars msg) -> Regex.test insert_signatures msg = false ->
  Regex.test Regex.dbCreateUser_re msg = false
  /\ Regex.test Regex.dbCreateReport_re msg = false.
Proof.
  intros Hn Hs. unfold Regex.test, Regex.dbCreateUser_re, Regex.dbCreateReport_re.
  unfold Regex.test, insert_signatures in Hs. cbn [existsb] in *.
  rewrite !Classification.relation_missing_backslash_shape.
  rewrite !(Classification.search_backslash _ _ _ Hn).
  apply orb_false_elim in Hs as [H1 H2]. rewrite H1.
  rewrite orb_false_r in H2. rewrite H2. now split.
Qed.

(** X9. The helpers of an insert do not take a missing relation for the
    end of the backend. When the insert of a [createReport], or the insert
    of a signup whose lookup was answered, comes back with a message that
    holds no backslash and neither of the two other signatures (as the
    message of PostgreSQL for a relation that does not exist), the request
    is answered 500 with that message, the flag stays on and the data
    directory is neither read nor written. *)
Theorem inserts_miss_a_missing_relation
        (msg : string) (later : list Outcome) (w : World) :
  supabaseAvailable w = true ->
  ~ In backslash (chars msg) -> Regex.test insert_signatures msg = false ->
  (forall req,
     network w = Refused msg :: later ->
     status (fst (serve (POST_reports req) w)) = 400
     \/ propagates msg w (serve (POST_reports req) w))
  /\ (forall req,
        network w = Served :: Refused msg :: later ->
        status (fst (serve (POST_signup req) w)) = 400
        \/ status (fst (serve (POST_signup req) w)) = 409
        \/ propagates msg w (serve (POST_signup req) w)).
Proof.
  intros Hon Hn Hs.
  destruct (insert_patterns_miss msg Hn Hs) as [Huser Hreport].
  split; intros req Hnet.
  - unfold serve. cbn [handler]. unfold createReport.
    destruct (nonempty (ReportBody.type req)) as [type|]; [|now left].
    destruct (nonempty (ReportBody.description req)) as [description|]; [|now left].
    destruct (nonempty (ReportBody.date req)) as [date|]; [|now left].
    right. unfold createReport_supabase. exec. rewrite Hon.
    rewrite dbCreateReport_eq, Hon, (supabase_refused _ msg later w Hnet).
    cbn [message]. rewrite Hreport. exec.
    repeat split; try reflexivity. exact Hon.
  - unfold serve. cbn [handler]. unfold signup.
    destruct (nonempty (SignupBody.fullName req)) as [fullName|]; [|now left].
    destruct (nonempty (SignupBody.username req)) as [username|]; [|now left].
    destruct (nonempty (SignupBody.email req)) as [email|]; [|now left].
    destruct (nonempty (SignupBody.accountType req)) as [accountType|]; [|now left].
    destruct (nonempty (SignupBody.password req)) as [password|]; [|now left].
    right. unfold signup_supabase. exec. rewrite Hon.
    rewrite dbFindUserByUsername_eq, Hon.
    rewrite supabase_answered by (unfold answered; now rewrite Hnet).
    rewrite Hnet. cbn [answer fst snd tl].
    destruct (firstn 1 (filter _ (users_table (backend w)))) as [|row rows];
      cbn [map hd_error or_else truthy_opt];
      [|left; reflexivity].
    right.
    rewrite dbCreateUser_eq. world. rewrite Hon.
    erewrite supabase_refused by (world; reflexivity).
    cbn [message]. rewrite Huser. exec.
    repeat split; try reflexivity. exact Hon.
Qed.

(** X9, at a process whose [reports] table was never created: posting a
    report is answered 500 and leaves the flag on, while listing the
    reports turns the backend off. *)
Lemma inserts_miss_a_missing_relation_witness :
  let msg := Samples.relation_does_not_exist "reports" in
  let w := boot "https://project.supabase.co" "anon-key" None Samples.empty_tables
                1700000000000 [Refused msg] [] in
  let req := ReportBody.make None None (Some "bullying") (Some "in the yard")
                             (Some "2024-01-01") in
  ~ In backslash (chars msg)
  /\ Regex.test insert_signatures msg = false
  /\ propagates msg w (serve (POST_reports req) w)
  /\ supabaseAvailable (snd (serve GET_reports w)) = false.
Proof.
  cbv zeta.
  set (msg := Samples.relation_does_not_exist "reports").
  set (w := boot "https://project.supabase.co" "anon-key" None Samples.empty_tables
                 1700000000000 [Refused msg] []).
  assert (Hn : ~ In backslash (chars msg)).
  { intros H. vm_compute in H.
    repeat (destruct H as [H|H]; [discriminate H|]). exact H. }
  assert (Hs : Regex.test insert_signatures msg = false) by reflexivity.
  destruct (inserts_miss_a_missing_relation msg [] w eq_refl Hn Hs) as [H _].
  split; [exact Hn|]. split; [exact Hs|]. split; [|reflexivity].
  destruct (H (ReportBody.make None None (Some "bullying") (Some "in the yard")
                               (Some "2024-01-01")) eq_refl) as [H400|Hp];
    [discriminate H400|exact Hp].
Defined.

End Inserts.

(** * Binding a port *)

Module Binding.
Import JSON Server Startup.
Local Open Scope string_scope.
Local Open Scope list_scope.

Lemma startServer_Listening (listen : Z -> Listen) (env_PORT : option string)
      (port : Z) (retries : nat) :
  listen port = Listening ->
  snd (startServer listen env_PORT port retries) = Serving port.
Proof. intros H. destruct retries; cbn [startServer]; now rewrite H. Qed.

Lemma startServer_in_use (listen : Z -> Listen) (env_PORT : option string)
      (port : Z) (fewer : nat) :
  listen port = Fails "EADDRINUSE" ->
  snd (startServer listen env_PORT port (S fewer))
  = snd (startServer listen env_PORT (port + 1) fewer).
Proof.
  intros H. cbn [startServer]. rewrite H. cbn [String.eqb Ascii.eqb Bool.eqb].
  now destruct (startServer listen env_PORT (port + 1) fewer).
Qed.


Lemma startServer_retry (listen : Z -> Listen) (env_PORT : option string)
      (port : Z) (fewer : nat) :
  listen port = Fails "EADDRINUSE" ->
  startServer listen env_PORT port (S fewer)
  = (retry_warning port fewer
     :: fst (startServer listen env_PORT (port + 1) fewer),
     snd (startServer listen env_PORT (port + 1) fewer)).
Proof.
  intros H. cbn [startServer]. rewrite H. cbn [String.eqb Ascii.eqb Bool.eqb].
  now destruct (startServer listen env_PORT (port + 1) fewer).
Qed.

(** The port at which a start stops: [k] ports in use before it, and
    then a port refused for another reason, or no retry left. *)
Lemma startServer_stops_at (listen : Z -> Listen) (env_PORT : option string)
      (retries k : nat) (code : string) (port : Z) :
  (k <= retries)%nat ->
  listen (port + Z.of_nat k)%Z = Fails code ->
  code <> "EADDRINUSE" \/ k = retries ->
  (forall j, (j < k)%nat -> listen (port + Z.of_nat j)%Z = Fails "EADDRINUSE") ->
  startServer listen env_PORT port retries
  = (retry_warnings port (retries - k) k ++ [Error "Server failed to start:" code],
     Exit 1).
Proof.
  revert port k. induction retries as [|fewer IH]; intros port k Hk Hfail Hwhy Hbefore.
  - assert (k = 0)%nat as -> by lia. rewrite Z.add_0_r in Hfail.
    cbn [startServer]. now rewrite Hfail.
  - destruct k as [|k].
    + rewrite Z.add_0_r in Hfail. cbn [startServer]. rewrite Hfail.
      destruct Hwhy as [Hcode|[=]].
      apply String.eqb_neq in Hcode. now rewrite Hcode.
    + rewrite startServer_retry
        by (specialize (Hbefore 0%nat); rewrite Z.add_0_r in Hbefore;
            apply Hbefore; lia).
      rewrite (IH (port + 1)%Z k).
      * cbn [fst snd retry_warnings List.app].
        replace (S fewer - S k + k)%nat with fewer by lia.
        now replace (S fewer - S k)%nat with (fewer - k)%nat by lia.
      * lia.
      * now replace (port + 1 + Z.of_nat k)%Z with (port + Z.of_nat (S k))%Z by lia.
      * destruct Hwhy; [now left|right; lia].
      * intros j Hj.
        replace (port + 1 + Z.of_nat j)%Z with (port + Z.of_nat (S j))%Z by lia.
        apply Hbefore. lia.
Qed.

Lemma startServer_exit_inv (listen : Z -> Listen) (env_PORT : option string)
      (retries : nat) (port c : Z) :
  snd (startServer listen env_PORT port retries) = Exit c ->
  exists k code,
    (k <= retries)%nat
    /\ listen (port + Z.of_nat k)%Z = Fails code
    /\ (code <> "EADDRINUSE" \/ k = retries)
    /\ (forall j, (j < k)%nat -> listen (port + Z.of_nat j)%Z = Fails "EADDRINUSE").
Proof.
  revert port. induction retries as [|fewer IH]; intros port.
  - cbn [startServer].
    destruct (listen port) as [|code|code] eqn:E; [discriminate| |discriminate].
    intros _. exists 0%nat, code.
    rewrite Z.add_0_r. repeat split; auto. intros j Hj. lia.
  - destruct (listen port) as [|code|code] eqn:E.
    + now rewrite startServer_Listening.
    + destruct (String.eqb code "EADDRINUSE") eqn:Ec.
      * apply String.eqb_eq in Ec. subst code.
        rewrite startServer_retry by exact E. cbn [snd].
        intros Hs. apply IH in Hs as (k & code & Hk & Hfail & Hwhy & Hbefore).
        exists (S k), code. split; [lia|]. split.
        { now replace (port + Z.of_nat (S k))%Z
            with (port + 1 + Z.of_nat k)%Z by lia. }
        split; [destruct Hwhy; [now left|right; lia]|].
        intros [|j] Hj; [now rewrite Z.add_0_r|].
        replace (port + Z.of_nat (S j))%Z with (port + 1 + Z.of_nat j)%Z by lia.
        apply Hbefore. lia.
      * intros _. exists 0%nat, code. rewrite Z.add_0_r.
        repeat split; auto; try lia.
        left. intros ->. discriminate Ec.
    + cbn [startServer]. rewrite E. discriminate.
Qed.


Lemma fallback_note_first (env_PORT : option string) (port p : Z) :
  In (fallback_note p)
     (Log ("SWDSMS backend running at http://localhost:" ++ show port)
      :: (if differs_from_configured env_PORT port
          then [fallback_note port] else []))
  <-> differs_from_configured env_PORT port = true /\ fallback_note p = fallback_note port.
Proof.
  cbn [In]. split.
  - intros [H|H]; [discriminate H|].
    destruct (differs_from_configured env_PORT port); [|contradiction].
    destruct H as [H|[]]. now split.
  - intros [-> ->]. right. now left.
Qed.



(** Ports 3000 and 3001 are taken: the server comes up on 3002. *)
Example third_port :
  let listen := fun p : Z => if (p <? 3002)%Z then Fails "EADDRINUSE" else Listening in
  startServer listen None 3000 5
  = ([Warn "Port 3000 in use — trying port 3001 (retries left: 4)";
      Warn "Port 3001 in use — trying port 3002 (retries left: 3)";
      Log "SWDSMS backend running at http://localhost:3002";
      Log "(bound to fallback port 3002)"],
     Serving 3002).
Proof. reflexivity. Qed.

End Binding.

(** * The migration *)

Module Migrating.
Import JSON Server Migration MigrationProperties.
Local Open Scope string_scope.
Local Open Scope list_scope.

Section AnyBackend.
Variable B : Type.
Variable insert : Table -> value -> B -> Completion Reply * B.

Lemma get_not_null (k : string) (v : value) :
  v <> JNull -> exists x, get k v = Normal x.
Proof. destruct v; cbn [get]; intros H; eauto. now contradiction H. Qed.

Lemma user_payload_not_null (u : value) :
  u <> JNull -> exists p, user_payload u = Normal p.
Proof.
  intros H. unfold user_payload.
  repeat match goal with
         | |- context [get ?k u] =>
             let x := fresh "x" in
             destruct (get_not_null k u H) as [x ->]; cbn [cbind]
         end.
  eauto.
Qed.

Lemma report_payload_not_null (r : value) :
  r <> JNull -> exists p, report_payload r = Normal p.
Proof.
  intros H. unfold report_payload.
  repeat match goal with
         | |- context [get ?k r] =>
             let x := fresh "x" in
             destruct (get_not_null k r H) as [x ->]; cbn [cbind]
         end.
  eauto.
Qed.

Lemma inserts_console (e : Event) (t : list Event) :
  (forall table payload, e <> Insert table payload) ->
  inserts (e :: t) = inserts t.
Proof.
  intros H. unfold inserts. cbn [flat_map].
  destruct e; [now contradiction (H t0 payload)|reflexivity|reflexivity].
Qed.

Lemma inserts_insert (table : Table) (payload : value) (t : list Event) :
  inserts (Insert table payload :: t) = inserts t ++ [(table, payload)].
Proof. unfold inserts. cbn [flat_map List.app rev]. reflexivity. Qed.

(** A turn of the loop over the users on a record that is not [null]: the
    row is sent, one line goes to the console, and the loop goes on,
    whatever the backend makes of the row. *)
Lemma migrate_user_sends (u : value) (s : State B) :
  u <> JNull ->
  exists b line,
    migrate_user B insert u s
    = Some (Normal tt, (b, line :: Insert users_t (snd (user_row u)) :: snd s))
    /\ (forall table payload, line <> Insert table payload).
Proof.
  intros H. destruct (user_payload_not_null u H) as [p Hp].
  destruct (get_not_null "username" u H) as [name Hname].
  unfold user_row. rewrite Hp. cbn [snd].
  unfold Migration.migrate_user, try_catch, bind, lift, supabase_insert, emit.
  rewrite Hp. destruct (insert users_t p (fst s)) as [[[rows|e]|e] b];
    rewrite ?Hname; cbn [fst snd].
  - destruct (first_row "username" rows) as [x|e];
      [destruct (first_row "id" rows) as [y|e]|];
      rewrite ?Hname; eexists; eexists; (split; [reflexivity|discriminate]).
  - eexists; eexists; (split; [reflexivity|discriminate]).
  - eexists; eexists; (split; [reflexivity|discriminate]).
Qed.

Lemma migrate_report_sends (r : value) (s : State B) :
  r <> JNull ->
  exists b line,
    migrate_report B insert r s
    = Some (Normal tt, (b, line :: Insert reports_t (snd (report_row r)) :: snd s))
    /\ (forall table payload, line <> Insert table payload).
Proof.
  intros H. destruct (report_payload_not_null r H) as [p Hp].
  destruct (get_not_null "id" r H) as [id Hid].
  unfold report_row. rewrite Hp. cbn [snd].
  unfold Migration.migrate_report, try_catch, bind, lift, supabase_insert, emit.
  rewrite Hp. destruct (insert reports_t p (fst s)) as [[[rows|e]|e] b];
    rewrite ?Hid; cbn [fst snd].
  - destruct (first_row "id" rows) as [y|e];
      rewrite ?Hid; eexists; eexists; (split; [reflexivity|discriminate]).
  - eexists; eexists; (split; [reflexivity|discriminate]).
  - eexists; eexists; (split; [reflexivity|discriminate]).
Qed.

(** A loop over records none of which is [null] sends a row for each, in
    order, and comes to its end. *)
Lemma for_each_sends (body : value -> Script B unit) (row : value -> Table * value)
      (l : list value) (s : State B) :
  (forall x s, x <> JNull ->
     exists b line,
       body x s = Some (Normal tt, (b, line :: Insert (fst (row x)) (snd (row x)) :: snd s))
       /\ (forall table payload, line <> Insert table payload)) ->
  Forall (fun x => x <> JNull) l ->
  exists b t,
    for_each B body l s = Some (Normal tt, (b, t))
    /\ inserts t = inserts (snd s) ++ map row l.
Proof.
  intros Hbody Hl. revert s. induction Hl as [|x l Hx Hl IH]; intros s.
  - exists (fst s), (snd s). cbn [Migration.for_each map]. unfold ret.
    rewrite app_nil_r. now destruct s.
  - cbn [Migration.for_each map]. unfold bind.
    destruct (Hbody x s Hx) as (b & line & -> & Hline).
    destruct (IH (b, line :: Insert (fst (row x)) (snd (row x)) :: snd s))
      as (b' & t & -> & Ht).
    exists b', t. split; [reflexivity|]. rewrite Ht. cbn [snd].
    rewrite (inserts_console _ _ Hline), inserts_insert, <- app_assoc.
    cbn [List.app]. now destruct (row x).
Qed.

Lemma for_each_app (body : value -> Script B unit) (l1 l2 : list value) (s : State B) :
  for_each B body (l1 ++ l2) s
  = bind B (for_each B body l1) (fun _ => for_each B body l2) s.
Proof.
  revert s. induction l1 as [|x l1 IH]; intros s; cbn [Migration.for_each List.app].
  - reflexivity.
  - unfold bind. destruct (body x s) as [[[[]|e] s']|]; [|reflexivity..].
    rewrite IH. reflexivity.
Qed.

Lemma parse_or_empty_array (txt : string) (l : list value) (s : State B) :
  JSON.parse txt = Some (JArr l) ->
  parse_or_empty B txt s = Some (Normal (JArr l), s).
Proof. intros H. unfold parse_or_empty. now rewrite H. Qed.

Lemma length_truthy (l : list value) :
  truthy_opt (length_of (JArr l)) = negb (match l with [] => true | _ => false end).
Proof. destruct l; reflexivity. Qed.

(** The part of [run] on the reports, for a file that is absent or holds an
    array of records none of which is [null]. *)
Lemma migrate_reports_sends (d : Dir) (rs : list value) (s : State B) :
  match reports_json d with
  | Some txt => JSON.parse txt = Some (JArr rs)
  | None => rs = []
  end ->
  Forall (fun r => r <> JNull) rs ->
  exists b t,
    migrate_reports B insert (Some d) s = Some (Normal tt, (b, t))
    /\ inserts t = inserts (snd s) ++ map report_row rs.
Proof.
  intros Hfile Hrs. unfold migrate_reports. cbn [option_map].
  destruct (reports_json d) as [txt|].
  - unfold bind at 1. rewrite (parse_or_empty_array _ _ _ Hfile).
    unfold bind at 1, emit. cbn [fst snd for_of].
    destruct (for_each_sends (migrate_report B insert) report_row rs
                (fst s, ConsoleLog
                          [Text ("Migrating " ++ interpolate (length_of (JArr rs))
                                 ++ " reports to Supabase (table: public.reports)")]
                        :: snd s))
      as (b & t & -> & Ht); [|exact Hrs|].
    + intros x s0 Hx. exact (migrate_report_sends x s0 Hx).
    + exists b, t. split; [reflexivity|]. rewrite Ht. cbn [snd].
      rewrite inserts_console by discriminate. reflexivity.
  - subst rs. unfold emit. eexists; eexists. split; [reflexivity|].
    cbn [snd map]. rewrite inserts_console by discriminate.
    now rewrite app_nil_r.
Qed.

(** X13. Every record is sent, whatever the backend answers. When
    [users.json] holds an array with at least one record, [reports.json]
    is absent or holds an array, and no record is [null], the script hands
    one row to [insert] for each user, in the order of the file, and then
    one for each report, and runs to its end: an insert that fails, or that
    throws, stops nothing. *)
Theorem every_record_is_sent
        (d : Dir) (b : B) (utxt : string) (us rs : list value) :
  users_json d = Some utxt -> JSON.parse utxt = Some (JArr us) -> us <> [] ->
  match reports_json d with
  | Some rtxt => JSON.parse rtxt = Some (JArr rs)
  | None => rs = []
  end ->
  Forall (fun u => u <> JNull) us -> Forall (fun r => r <> JNull) rs ->
  exists b' t,
    run B insert (Some d) b = Some (Finished, (b', t))
    /\ inserts t = map user_row us ++ map report_row rs.
Proof.
  intros Hufile Hus Hne Hrfile Hnull_us Hnull_rs.
  unfold run. cbn [option_map]. rewrite Hufile. unfold migrate.
  unfold bind at 1. rewrite (parse_or_empty_array _ _ _ Hus).
  rewrite length_truthy. destruct us as [|u us']; [now contradiction Hne|].
  cbn [negb]. set (us := u :: us') in *.
  unfold bind at 1, emit at 1. cbn [fst snd for_of].
  unfold bind at 1.
  destruct (for_each_sends (migrate_user B insert) user_row us
              (b, [ConsoleLog
                     [Text ("Migrating " ++ interpolate (length_of (JArr us))
                            ++ " users to Supabase (table: public.users)")]]))
    as (b1 & t1 & -> & Ht1); [|exact Hnull_us|].
  { intros x s0 Hx. exact (migrate_user_sends x s0 Hx). }
  unfold bind at 1.
  destruct (migrate_reports_sends d rs (b1, t1) Hrfile Hnull_rs)
    as (b2 & t2 & -> & Ht2).
  unfold bind, emit, ret. cbn [fst snd].
  exists b2. eexists. split; [reflexivity|].
  rewrite inserts_console by discriminate. rewrite Ht2. cbn [snd].
  rewrite Ht1. cbn [snd]. rewrite inserts_console by discriminate.
  reflexivity.
Qed.

(** X14. A record that is [null] stops the migration. When the array of
    [users.json] holds [null] after some records that are not, the script
    sends the rows of those records and then ends on an error that nothing
    handles (the [catch] of the loop reads [u.username] itself): the users
    after it and the reports are never sent. *)
Theorem null_record_stops_the_migration
        (d : Dir) (b : B) (utxt : string) (before after : list value) :
  users_json d = Some utxt ->
  JSON.parse utxt = Some (JArr (before ++ JNull :: after)) ->
  Forall (fun u => u <> JNull) before ->
  exists b' t,
    run B insert (Some d) b
    = Some (Crashed (mkError "Cannot read properties of null (reading 'username')"),
            (b', t))
    /\ inserts t = map user_row before.
Proof.
  intros Hufile Hus Hbefore.
  unfold run. cbn [option_map]. rewrite Hufile. unfold migrate.
  unfold bind at 1. rewrite (parse_or_empty_array _ _ _ Hus).
  rewrite length_truthy.
  replace (match before ++ JNull :: after with [] => true | _ => false end)
    with false by (now destruct before).
  cbn [negb]. unfold bind at 1, emit at 1. cbn [fst snd for_of].
  unfold bind at 1. rewrite for_each_app. unfold bind at 1.
  destruct (for_each_sends (migrate_user B insert) user_row before
              (b, [ConsoleLog
                     [Text ("Migrating "
                            ++ interpolate (length_of (JArr (before ++ JNull :: after)))
                            ++ " users to Supabase (table: public.users)")]]))
    as (b1 & t1 & -> & Ht1); [|exact Hbefore|].
  { intros x s0 Hx. exact (migrate_user_sends x s0 Hx). }
  cbn [Migration.for_each]. unfold bind at 1.
  exists b1, t1. split; [reflexivity|].
  rewrite Ht1. cbn [snd]. now rewrite inserts_console by discriminate.
Qed.

(** X15. Without users, no report is migrated. When [users.json] is absent
    the script ends with [process.exit (1)], and when it holds an empty
    array the script returns at [No users to migrate.]: in both cases
    before it looks at [reports.json], so that nothing is sent and the
    tables are as they were, whatever reports there are. *)
Theorem no_users_no_reports (d : option Dir) (b : B) :
  (forall txt, option_map users_json d = Some (Some txt) ->
               JSON.parse txt = Some (JArr [])) ->
  exists e line,
    run B insert d b = Some (e, (b, [line]))
    /\ inserts [line] = []
    /\ (e = Exit 1 \/ e = Finished).
Proof.
  intros Hempty. unfold run.
  destruct (option_map users_json d) as [[txt|]|] eqn:E.
  - specialize (Hempty txt eq_refl). unfold migrate.
    unfold bind at 1. rewrite (parse_or_empty_array _ _ _ Hempty).
    cbn [length_of List.length Z.of_nat truthy_opt truthy Z.eqb negb].
    unfold bind, emit, ret. cbn [fst snd].
    eexists; eexists. split; [reflexivity|]. split; [reflexivity|now right].
  - eexists; eexists. split; [reflexivity|]. split; [reflexivity|now left].
  - eexists; eexists. split; [reflexivity|]. split; [reflexivity|now left].
Qed.

End AnyBackend.

(** X13, at one user and one report sent to a backend that refuses every
    row. *)
Lemma every_record_is_sent_witness :
  let us := [local_record
               (1%Z, new_user.make "Ann" "ann" "ann@school" "Student" "secret")] in
  let rs := [JObj [("id", JNum 1); ("type", JStr "bullying");
                   ("description", JStr "in the yard");
                   ("date", JStr "2024-01-01")]] in
  let d := mkDir (Some (JSON.stringify (JArr us))) (Some (JSON.stringify (JArr rs))) in
  exists b' t,
    run unit refusing (Some d) tt = Some (Finished, (b', t))
    /\ inserts t = map user_row us ++ map report_row rs.
Proof.
  cbv zeta.
  apply (every_record_is_sent unit refusing (mkDir (Some _) _) tt _ _ _ eq_refl).
  - vm_compute. reflexivity.
  - discriminate.
  - vm_compute. reflexivity.
  - repeat constructor; discriminate.
  - repeat constructor; discriminate.
Defined.

(** X14, at a file whose second record is [null]. *)
Lemma null_record_stops_the_migration_witness :
  let ann := local_record
               (1%Z, new_user.make "Ann" "ann" "ann@school" "Student" "secret") in
  let bob := local_record
               (2%Z, new_user.make "Bob" "bob" "bob@school" "Teacher" "hidden") in
  let d := mkDir (Some (JSON.stringify (JArr [ann; JNull; bob]))) None in
  exists b' t,
    run unit refusing (Some d) tt
    = Some (Crashed (mkError "Cannot read properties of null (reading 'username')"),
            (b', t))
    /\ inserts t = map user_row [ann].
Proof.
  cbv zeta.
  apply (null_record_stops_the_migration
           unit refusing (mkDir (Some _) _) tt _ [_]
           [local_record (2%Z, new_user.make "Bob" "bob" "bob@school" "Teacher" "hidden")]
           eq_refl).
  - vm_compute. reflexivity.
  - repeat constructor; discriminate.
Defined.

(** X15, at a directory whose [users.json] holds an empty array and whose
    [reports.json] holds a report. *)
Lemma no_users_no_reports_witness :
  let rs := [JObj [("id", JNum 1); ("type", JStr "bullying");
                   ("description", JStr "in the yard");
                   ("date", JStr "2024-01-01")]] in
  let d := mkDir (Some (JSON.stringify (JArr []))) (Some (JSON.stringify (JArr rs))) in
  exists e line,
    run unit refusing (Some d) tt = Some (e, (tt, [line]))
    /\ inserts [line] = []
    /\ (e = Exit 1 \/ e = Finished).
Proof.
  cbv zeta.
  apply (no_users_no_reports unit refusing (Some _) tt).
  intros txt [= <-]. vm_compute. reflexivity.
Defined.

End Migrating.

Module Migrated.
Import JSON Server Properties Migration MigrationProperties.
Import ServerProperties.
Local Open Scope string_scope.
Local Open Scope list_scope.

Lemma existsb_filter (name : string) (table : list users.row) :
  existsb (named name) table = false <-> filter (named name) table = [].
Proof.
  induction table as [|r table IH]; cbn [existsb filter]; [tauto|].
  destruct (named name r); cbn [orb]; [split; discriminate|exact IH].
Qed.

Lemma filter_insert_other (now : Z) (u : new_user.t) (name : string) (db : Backend) :
  new_user.username u <> name ->
  filter (named name) (users_table (snd (answer (users_insert u) now db)))
  = filter (named name) (users_table db).
Proof.
  intros Hne. cbn [answer].
  destruct (existsb _ (users_table db)); cbn [snd users_table]; [reflexivity|].
  rewrite filter_app. cbn [filter]. unfold named at 2. cbn [users.username].
  apply String.eqb_neq in Hne. rewrite Hne. apply app_nil_r.
Qed.

Lemma insert_fresh (now : Z) (u : new_user.t) (db : Backend) :
  filter (named (new_user.username u)) (users_table db) = [] ->
  has_row u (snd (answer (users_insert u) now db)).
Proof.
  intros Hnone. cbn [answer].
  change (fun r : users.row => String.eqb (users.username r) (new_user.username u))
    with (named (new_user.username u)).
  rewrite (proj2 (existsb_filter _ _) Hnone). cbn [snd users_table].
  unfold has_row. cbn [users_table].
  eexists. rewrite filter_app, Hnone. cbn [filter List.app].
  unfold named. cbn [users.username]. rewrite String.eqb_refl.
  repeat split.
Qed.

Lemma insert_all_other (clock : new_user.t -> Backend -> Z) (us : list new_user.t) (name : string) (db : Backend) :
  ~ In name (map new_user.username us) ->
  filter (named name) (users_table (insert_all clock us db))
  = filter (named name) (users_table db).
Proof.
  revert db. induction us as [|u us IH]; intros db Hn; [reflexivity|].
  cbn [insert_all map In] in *. rewrite IH by tauto.
  apply filter_insert_other. tauto.
Qed.

(** Users of different names, none of them in the table: after their
    rows were handed to the table, each has the one row of its name. *)
Lemma insert_all_has_rows (clock : new_user.t -> Backend -> Z) (us : list new_user.t) (db : Backend) :
  NoDup (map new_user.username us) ->
  (forall u, In u us -> filter (named (new_user.username u)) (users_table db) = []) ->
  forall u, In u us -> has_row u (insert_all clock us db).
Proof.
  revert db. induction us as [|u0 us IH]; intros db Hnd Hfresh u Hin; [easy|].
  cbn [map] in Hnd. apply NoDup_cons_iff in Hnd as [Hnot Hnd].
  cbn [insert_all]. destruct Hin as [->|Hin].
  - destruct (insert_fresh (clock u db) u db (Hfresh u (or_introl eq_refl)))
      as (row & Hrow & Hfields).
    exists row. split; [|exact Hfields].
    now rewrite insert_all_other.
  - apply IH; [exact Hnd| |exact Hin].
    intros u' Hin'. rewrite filter_insert_other.
    + apply Hfresh. now right.
    + intros E. apply Hnot. rewrite E. now apply in_map.
Qed.

Lemma user_payload_local_record (a : Z * new_user.t) :
  new_user.account_type (snd a) <> EmptyString ->
  user_payload (local_record a) = Normal (text_payload (snd a)).
Proof.
  intros Ht. unfold user_payload, local_record, text_payload.
  cbn [get lookup cbind String.eqb Ascii.eqb Bool.eqb].
  unfold or_else. cbn [truthy_opt truthy].
  apply String.eqb_neq in Ht. rewrite Ht. cbn [negb].
  destruct (String.eqb (new_user.full_name (snd a)) EmptyString) eqn:E1;
    destruct (String.eqb (new_user.password (snd a)) EmptyString) eqn:E2;
    cbn [negb truthy_opt truthy object];
    rewrite ?Ht, ?E1, ?E2; cbn [negb truthy_opt truthy object];
    rewrite ?Ht, ?E1, ?E2; cbn [negb truthy_opt truthy object];
    try (apply String.eqb_eq in E1; rewrite E1);
    try (apply String.eqb_eq in E2; rewrite E2);
    reflexivity.
Qed.

Lemma insert_keeps_present (now : Z) (u : new_user.t) (name : string) (db : Backend) :
  existsb (named name) (users_table db) = true ->
  existsb (named name) (users_table (snd (answer (users_insert u) now db))) = true.
Proof.
  intros H. cbn [answer].
  destruct (existsb (fun r => String.eqb (users.username r) (new_user.username u))
                    (users_table db)); cbn [snd users_table]; [exact H|].
  rewrite existsb_app, H. reflexivity.
Qed.

Lemma insert_makes_present (now : Z) (u : new_user.t) (db : Backend) :
  existsb (named (new_user.username u))
          (users_table (snd (answer (users_insert u) now db))) = true.
Proof.
  cbn [answer].
  change (fun r : users.row => String.eqb (users.username r) (new_user.username u))
    with (named (new_user.username u)).
  destruct (existsb _ (users_table db)) eqn:E; cbn [snd users_table]; [exact E|].
  rewrite existsb_app. cbn [existsb]. unfold named at 2. cbn [users.username].
  rewrite String.eqb_refl. now rewrite orb_true_r.
Qed.

Lemma insert_all_keeps_present (clock : new_user.t -> Backend -> Z) (us : list new_user.t) (name : string)
      (db : Backend) :
  existsb (named name) (users_table db) = true ->
  existsb (named name) (users_table (insert_all clock us db)) = true.
Proof.
  revert db. induction us as [|u us IH]; intros db H; [exact H|].
  cbn [insert_all]. apply IH. now apply insert_keeps_present.
Qed.

(** After the rows of these users were handed to the table, it holds a
    row of the name of each. *)
Lemma insert_all_present (clock : new_user.t -> Backend -> Z) (us : list new_user.t) (db : Backend)
      (u : new_user.t) :
  In u us ->
  existsb (named (new_user.username u)) (users_table (insert_all clock us db)) = true.
Proof.
  revert db. induction us as [|u0 us IH]; intros db Hin; [easy|].
  cbn [insert_all]. destruct Hin as [->|Hin]; [|now apply IH].
  apply insert_all_keeps_present, insert_makes_present.
Qed.

(** A table that holds a row of the name of each of these users takes
    none of their rows. *)
Lemma insert_all_nothing_new (clock : new_user.t -> Backend -> Z) (us : list new_user.t) (db : Backend) :
  (forall u, In u us -> existsb (named (new_user.username u)) (users_table db) = true) ->
  users_table (insert_all clock us db) = users_table db.
Proof.
  revert db. induction us as [|u us IH]; intros db H; [reflexivity|].
  cbn [insert_all].
  assert (E : users_table (snd (answer (users_insert u) (clock u db) db))
              = users_table db).
  { cbn [answer].
    change (fun r : users.row => String.eqb (users.username r) (new_user.username u))
      with (named (new_user.username u)).
    now rewrite (H u (or_introl eq_refl)). }
  rewrite IH; [exact E|].
  intros u' Hin. rewrite E. apply H. now right.
Qed.

Lemma insert_all_reports (clock : new_user.t -> Backend -> Z) (us : list new_user.t)
      (db : Backend) :
  reports_table (insert_all clock us db) = reports_table db.
Proof.
  revert db. induction us as [|u us IH]; intros db; [reflexivity|].
  cbn [insert_all]. rewrite IH. cbn [answer].
  now destruct (existsb _ (users_table db)).
Qed.

Section TextBackend.
Variable clock : new_user.t -> Backend -> Z.
Variable insert : Table -> value -> Backend -> Completion Reply * Backend.
Variable accepted : value -> Prop.
Hypothesis insert_users : takes_users clock insert.
Hypothesis insert_reports : keeps_users insert.
Hypothesis insert_accepted : takes_reports accepted insert.

(** A turn of the loop over the users on a record of a local signup. *)
Lemma migrate_user_local_record (a : Z * new_user.t) (s : State Backend) :
  new_user.account_type (snd a) <> EmptyString ->
  exists line,
    migrate_user Backend insert (local_record a) s
    = Some (Normal tt,
            (snd (answer (users_insert (snd a)) (clock (snd a) (fst s)) (fst s)),
             line :: Insert users_t (text_payload (snd a)) :: snd s))
    /\ (forall table payload, line <> Insert table payload).
Proof.
  intros Ht.
  unfold migrate_user, try_catch, Migration.bind, lift, supabase_insert, emit.
  rewrite (user_payload_local_record a Ht), insert_users.
  cbn [fst snd answer].
  destruct (existsb _ (users_table (fst s))); cbn [fst snd].
  - eexists. split; [reflexivity|discriminate].
  - eexists. split; [reflexivity|discriminate].
Qed.

Lemma for_each_local_records (accounts : list (Z * new_user.t)) (s : State Backend) :
  (forall a, In a accounts -> new_user.account_type (snd a) <> EmptyString) ->
  exists t,
    for_each Backend (migrate_user Backend insert) (map local_record accounts) s
    = Some (Normal tt, (insert_all clock (map snd accounts) (fst s), t)).
Proof.
  revert s. induction accounts as [|a accounts IH]; intros s Ht.
  - exists (snd s). cbn [map for_each insert_all]. unfold Migration.ret.
    now destruct s.
  - cbn [map for_each insert_all]. unfold Migration.bind.
    destruct (migrate_user_local_record a s (Ht a (or_introl eq_refl)))
      as (line & -> & _).
    destruct (IH (snd (answer (users_insert (snd a)) (clock (snd a) (fst s)) (fst s)),
                  line :: Insert users_t (text_payload (snd a)) :: snd s))
      as [t ->]; [intros a' Hin; apply Ht; now right|].
    now exists t.
Qed.

(** The part of [run] on the reports leaves the [users] table alone. *)
Lemma for_each_reports_keep_users (rs : list value) (s : State Backend) :
  Forall (fun r => r <> JNull) rs ->
  exists db t,
    for_each Backend (migrate_report Backend insert) rs s = Some (Normal tt, (db, t))
    /\ users_table db = users_table (fst s)
    /\ (Forall (fun r => accepted (snd (report_row r))) rs ->
        exists rows,
          reports_table db = reports_table (fst s) ++ rows
          /\ List.length rows = List.length rs).
Proof.
  intros Hrs. revert s. induction Hrs as [|r rs Hr Hrs IH]; intros s.
  - exists (fst s), (snd s). cbn [for_each]. unfold Migration.ret.
    split; [now destruct s|]. split; [reflexivity|].
    intros _. exists []. now rewrite app_nil_r.
  - cbn [for_each]. unfold Migration.bind.
    destruct (Migrating.report_payload_not_null r Hr) as [p Hp].
    destruct (Migrating.get_not_null "id" r Hr) as [id Hid].
    assert (Hstep : exists line,
               migrate_report Backend insert r s
               = Some (Normal tt,
                       (snd (insert reports_t p (fst s)),
                        line :: Insert reports_t p :: snd s))).
    { unfold migrate_report, try_catch, Migration.bind, lift, supabase_insert, emit.
      rewrite Hp.
      destruct (insert reports_t p (fst s)) as [[[rows|e]|e] b];
        rewrite ?Hid; cbn [fst snd].
      - destruct (first_row "id" rows) as [y|e]; rewrite ?Hid; eauto.
      - eauto.
      - eauto. }
    destruct Hstep as [line ->].
    destruct (IH (snd (insert reports_t p (fst s)),
                  line :: Insert reports_t p :: snd s))
      as (db & t & -> & Hdb & Hrows).
    exists db, t. split; [reflexivity|]. cbn [fst] in *. split.
    + rewrite Hdb. apply insert_reports.
    + intros Hok. apply Forall_cons_iff in Hok as [Hok1 Hok].
      destruct (Hrows Hok) as (rows & Erows & Hlen).
      unfold report_row in Hok1. rewrite Hp in Hok1. cbn [snd] in Hok1.
      destruct (insert_accepted p (fst s) Hok1) as [row Erow].
      exists (row :: rows). rewrite Erows, Erow, <- app_assoc.
      split; [reflexivity|]. cbn [List.length]. now rewrite Hlen.
Qed.

Lemma migrate_reports_keep_users (d : Dir) (rs : list value) (s : State Backend) :
  match reports_json d with
  | Some txt => JSON.parse txt = Some (JArr rs)
  | None => rs = []
  end ->
  Forall (fun r => r <> JNull) rs ->
  exists db t,
    migrate_reports Backend insert (Some d) s = Some (Normal tt, (db, t))
    /\ users_table db = users_table (fst s)
    /\ (Forall (fun r => accepted (snd (report_row r))) rs ->
        exists rows,
          reports_table db = reports_table (fst s) ++ rows
          /\ List.length rows = List.length rs).
Proof.
  intros Hfile Hrs. unfold migrate_reports. cbn [option_map].
  destruct (reports_json d) as [txt|].
  - unfold Migration.bind at 1.
    rewrite (Migrating.parse_or_empty_array _ _ _ _ Hfile).
    unfold Migration.bind at 1, emit. cbn [fst snd for_of].
    destruct (for_each_reports_keep_users rs
                (fst s, ConsoleLog
                          [Text ("Migrating " ++ interpolate (length_of (JArr rs))
                                 ++ " reports to Supabase (table: public.reports)")]
                        :: snd s) Hrs)
      as (db & t & -> & Hdb).
    now exists db, t.
  - subst rs. unfold emit. eexists; eexists. split; [reflexivity|].
    split; [reflexivity|]. intros _. exists []. cbn [fst]. now rewrite app_nil_r.
Qed.

(** The whole of [run] on a file of local signups. *)
Lemma run_local_records (d : Dir) (db : Backend) (utxt : string)
      (accounts : list (Z * new_user.t)) (rs : list value) :
  users_json d = Some utxt ->
  JSON.parse utxt = Some (JArr (map local_record accounts)) ->
  accounts <> [] ->
  match reports_json d with
  | Some rtxt => JSON.parse rtxt = Some (JArr rs)
  | None => rs = []
  end ->
  Forall (fun r => r <> JNull) rs ->
  (forall a, In a accounts -> new_user.account_type (snd a) <> EmptyString) ->
  exists db' t,
    run Backend insert (Some d) db = Some (Finished, (db', t))
    /\ users_table db' = users_table (insert_all clock (map snd accounts) db)
    /\ (Forall (fun r => accepted (snd (report_row r))) rs ->
        exists rows,
          reports_table db' = reports_table db ++ rows
          /\ List.length rows = List.length rs).
Proof.
  intros Hufile Hus Hne Hrfile Hrs Htypes.
  unfold run. cbn [option_map]. rewrite Hufile. unfold migrate.
  unfold Migration.bind at 1.
  rewrite (Migrating.parse_or_empty_array _ _ _ _ Hus).
  rewrite Migrating.length_truthy.
  destruct accounts as [|a accounts']; [now contradiction Hne|].
  cbn [map negb]. set (accounts := a :: accounts') in *.
  change (local_record a :: map local_record accounts')
    with (map local_record accounts).
  unfold Migration.bind at 1, emit at 1. cbn [fst snd for_of].
  unfold Migration.bind at 1.
  destruct (for_each_local_records accounts
              (db, [ConsoleLog
                      [Text ("Migrating "
                             ++ interpolate (length_of (JArr (map local_record accounts)))
                             ++ " users to Supabase (table: public.users)")]])
              Htypes) as [t1 ->].
  unfold Migration.bind at 1. cbn [fst].
  destruct (migrate_reports_keep_users d rs
              (insert_all clock (map snd accounts) db, t1) Hrfile Hrs)
    as (db2 & t2 & -> & Hdb2 & Hrows).
  unfold Migration.bind, emit, Migration.ret. cbn [fst snd] in *.
  exists db2. eexists. split; [reflexivity|]. split; [exact Hdb2|].
  intros Hok. destruct (Hrows Hok) as (rows & Erows & Hlen).
  exists rows. now rewrite Erows, insert_all_reports.
Qed.

End TextBackend.

(** X16. A user who signed up on the JSON file can log in through the
    backend once the script has run. Let [users.json] hold the records of
    local signups of different usernames, none of which is in the [users]
    table, and let the backend take rows as the tables of
    [supabase_setup.sql] do. Then the script runs to its end, and in a
    server whose flag is on and whose backend answers from the tables as
    the script left them, a login with the username, the password and the
    account type of any of these users is answered with a success that
    carries them. *)
Theorem migrated_users_can_log_in
        (clock : new_user.t -> Backend -> Z)
        (insert : Table -> value -> Backend -> Completion Reply * Backend)
        (d : Dir) (db : Backend) (utxt : string)
        (accounts : list (Z * new_user.t)) (rs : list value) :
  takes_users clock insert -> keeps_users insert ->
  users_json d = Some utxt ->
  JSON.parse utxt = Some (JArr (map local_record accounts)) ->
  accounts <> [] ->
  match reports_json d with
  | Some rtxt => JSON.parse rtxt = Some (JArr rs)
  | None => rs = []
  end ->
  Forall (fun r => r <> JNull) rs ->
  (forall a, In a accounts ->
             new_user.username (snd a) <> EmptyString
             /\ new_user.password (snd a) <> EmptyString
             /\ new_user.account_type (snd a) <> EmptyString) ->
  NoDup (map new_user.username (map snd accounts)) ->
  (forall a, In a accounts ->
             filter (named (new_user.username (snd a))) (users_table db) = []) ->
  exists db' t,
    run Backend insert (Some d) db = Some (Finished, (db', t))
    /\ forall a w,
         In a accounts ->
         supabaseAvailable w = true -> answered w -> backend w = db' ->
         exists id,
           fst (serve (POST_login
                         (LoginBody.make (Some (new_user.username (snd a)))
                                         (Some (new_user.password (snd a)))
                                         (Some (new_user.account_type (snd a))))) w)
           = success_user (Some (JNum id))
                          (Some (JStr (new_user.username (snd a))))
                          (Some (JStr (new_user.account_type (snd a)))).
Proof.
  intros Hu Hr Hufile Hus Hne Hrfile Hrs Hfields Hnd Hfresh.
  destruct (run_local_records clock insert (fun _ => False) Hu Hr
              (fun p db0 (H : False) => match H with end)
              d db utxt accounts rs
              Hufile Hus Hne Hrfile Hrs) as (db' & t & Hrun & Htable & _).
  { intros a Hin. now apply Hfields. }
  exists db', t. split; [exact Hrun|].
  intros a w Hin Hon Hans Hdb.
  destruct (Hfields a Hin) as (Hname & Hpw & Htype).
  destruct (insert_all_has_rows clock (map snd accounts) db Hnd) with (u := snd a)
    as (row & Hrow & Huser & Hpass & Hacc).
  { intros u Hu'. apply in_map_iff in Hu' as (a' & <- & Hin'). now apply Hfresh. }
  { now apply in_map. }
  exists (users.id row).
  rewrite (Accounts.login_of_account
             (new_user.username (snd a)) (new_user.password (snd a))
             (new_user.account_type (snd a)) (new_user.password (snd a))
             (success_user (Some (JNum (users.id row)))
                           (Some (JStr (new_user.username (snd a))))
                           (Some (JStr (new_user.account_type (snd a))))) w);
    try assumption.
  - now rewrite String.eqb_refl.
  - unfold holds_account. rewrite Hon. exists row.
    rewrite Hdb, Htable. repeat split; assumption.
  - intros _. exact Hans.
Qed.

(** The tables of the examples take rows as the hypotheses of this part
    ask. *)
Lemma text_tables_takes_users (now : Z) :
  takes_users (fun _ _ => now) (text_tables now).
Proof.
  intros [full_name username email account_type password] db.
  unfold text_tables, text_payload, as_text.
  cbn [new_user.full_name new_user.username new_user.email new_user.account_type
       new_user.password].
  change (get "full_name" _) with (@Normal (option value) (Some (JStr full_name))).
  change (get "username" _) with (@Normal (option value) (Some (JStr username))).
  change (get "email" _) with (@Normal (option value) (Some (JStr email))).
  change (get "account_type" _)
    with (@Normal (option value) (Some (JStr account_type))).
  change (get "password" _) with (@Normal (option value) (Some (JStr password))).
  cbv iota beta.
  now destruct (answer _ now db).
Qed.

Lemma text_tables_keeps_users (now : Z) : keeps_users (text_tables now).
Proof.
  intros p db. unfold text_tables.
  now destruct (as_text "type" p), (as_text "description" p),
    (as_text "incident_date" p).
Qed.

Lemma text_tables_takes_reports (now : Z) :
  takes_reports report_row_ok (text_tables now).
Proof.
  intros p db (H1 & H2 & H3). unfold text_tables.
  destruct (as_text "type" p); [|now contradiction H1].
  destruct (as_text "description" p); [|now contradiction H2].
  destruct (as_text "incident_date" p); [|now contradiction H3].
  eexists. reflexivity.
Qed.

(** X16, at two local accounts and one report migrated into empty
    tables. *)
Lemma migrated_users_can_log_in_witness :
  let ann := new_user.make "Ann" "ann" "ann@school" "Student" "secret" in
  let bob := new_user.make "Bob" "bob" "bob@school" "Teacher" "hidden" in
  let accounts := [(1700000000000%Z, ann); (1700000000001%Z, bob)] in
  let rs := [JObj [("id", JNum 1); ("type", JStr "bullying");
                   ("description", JStr "in the yard");
                   ("date", JStr "2024-01-01")]] in
  let d := mkDir (Some (JSON.stringify (JArr (map local_record accounts))))
                 (Some (JSON.stringify (JArr rs))) in
  exists db' t,
    run Backend (text_tables 1700000000002) (Some d) Samples.empty_tables
    = Some (Finished, (db', t))
    /\ forall a w,
         In a accounts -> supabaseAvailable w = true -> answered w ->
         backend w = db' ->
         exists id,
           fst (serve (POST_login
                         (LoginBody.make (Some (new_user.username (snd a)))
                                         (Some (new_user.password (snd a)))
                                         (Some (new_user.account_type (snd a))))) w)
           = success_user (Some (JNum id))
                          (Some (JStr (new_user.username (snd a))))
                          (Some (JStr (new_user.account_type (snd a)))).
Proof.
  intros ann bob accounts rs d.
  apply (migrated_users_can_log_in (fun _ _ => 1700000000002%Z)
           (text_tables 1700000000002)
           d Samples.empty_tables _ accounts rs
           (text_tables_takes_users _) (text_tables_keeps_users _) eq_refl).
  - vm_compute. reflexivity.
  - discriminate.
  - vm_compute. reflexivity.
  - repeat constructor; discriminate.
  - intros a [<-|[<-|[]]]; repeat split; discriminate.
  - cbn. repeat constructor; cbn; intuition discriminate.
  - intros a _. reflexivity.
Defined.

(** X17. Running the script a second time. Let [users.json] hold the
    records of local signups and [reports.json] records whose rows the
    backend accepts, and let the backend take rows as the tables of
    [supabase_setup.sql] do. After a first run, a second run adds no user,
    every row of a user now breaking the uniqueness of [username], and adds
    every report once more. *)
Theorem second_run_duplicates_reports
        (clock : new_user.t -> Backend -> Z)
        (insert : Table -> value -> Backend -> Completion Reply * Backend)
        (accepted : value -> Prop)
        (d : Dir) (db : Backend) (utxt : string)
        (accounts : list (Z * new_user.t)) (rs : list value) :
  takes_users clock insert -> keeps_users insert ->
  takes_reports accepted insert ->
  users_json d = Some utxt ->
  JSON.parse utxt = Some (JArr (map local_record accounts)) ->
  accounts <> [] ->
  match reports_json d with
  | Some rtxt => JSON.parse rtxt = Some (JArr rs)
  | None => rs = []
  end ->
  Forall (fun r => r <> JNull) rs ->
  Forall (fun r => accepted (snd (report_row r))) rs ->
  (forall a, In a accounts -> new_user.account_type (snd a) <> EmptyString) ->
  exists db1 t1 db2 t2,
    run Backend insert (Some d) db = Some (Finished, (db1, t1))
    /\ run Backend insert (Some d) db1 = Some (Finished, (db2, t2))
    /\ users_table db2 = users_table db1
    /\ List.length (reports_table db1)
       = (List.length (reports_table db) + List.length rs)%nat
    /\ List.length (reports_table db2)
       = (List.length (reports_table db) + 2 * List.length rs)%nat.
Proof.
  intros Hu Hr Ha Hufile Hus Hne Hrfile Hrs Hok Htypes.
  destruct (run_local_records clock insert accepted Hu Hr Ha d db utxt accounts rs
              Hufile Hus Hne Hrfile Hrs Htypes)
    as (db1 & t1 & Hrun1 & Htable1 & Hrows1).
  destruct (run_local_records clock insert accepted Hu Hr Ha d db1 utxt accounts rs
              Hufile Hus Hne Hrfile Hrs Htypes)
    as (db2 & t2 & Hrun2 & Htable2 & Hrows2).
  exists db1, t1, db2, t2. split; [exact Hrun1|]. split; [exact Hrun2|].
  destruct (Hrows1 Hok) as (rows1 & E1 & L1).
  destruct (Hrows2 Hok) as (rows2 & E2 & L2).
  split; [|split].
  - rewrite Htable2. apply insert_all_nothing_new.
    intros u Hin. rewrite Htable1. now apply insert_all_present.
  - rewrite E1, length_app. lia.
  - rewrite E2, E1, !length_app. lia.
Qed.

(** X17, at two runs over two local accounts and one report, from empty
    tables. *)
Lemma second_run_duplicates_reports_witness :
  let ann := new_user.make "Ann" "ann" "ann@school" "Student" "secret" in
  let bob := new_user.make "Bob" "bob" "bob@school" "Teacher" "hidden" in
  let accounts := [(1700000000000%Z, ann); (1700000000001%Z, bob)] in
  let rs := [JObj [("id", JNum 1); ("type", JStr "bullying");
                   ("description", JStr "in the yard");
                   ("date", JStr "2024-01-01")]] in
  let d := mkDir (Some (JSON.stringify (JArr (map local_record accounts))))
                 (Some (JSON.stringify (JArr rs))) in
  let insert := text_tables 1700000000002 in
  exists db1 t1 db2 t2,
    run Backend insert (Some d) Samples.empty_tables = Some (Finished, (db1, t1))
    /\ run Backend insert (Some d) db1 = Some (Finished, (db2, t2))
    /\ users_table db2 = users_table db1
    /\ List.length (reports_table db1) = 1%nat
    /\ List.length (reports_table db2) = 2%nat.
Proof.
  intros ann bob accounts rs d insert.
  apply (second_run_duplicates_reports (fun _ _ => 1700000000002%Z)
           (text_tables 1700000000002) report_row_ok
           d Samples.empty_tables _ accounts rs
           (text_tables_takes_users _) (text_tables_keeps_users _)
           (text_tables_takes_reports _) eq_refl).
  - vm_compute. reflexivity.
  - discriminate.
  - vm_compute. reflexivity.
  - repeat constructor; discriminate.
  - repeat constructor; discriminate.
  - intros a [<-|[<-|[]]]; discriminate.
Defined.

End Migrated.

(** * A signup and the listing of the users *)

Module Listing.
Import JSON Server Properties ServerProperties Evaluation.
Local Open Scope string_scope.
Local Open Scope list_scope.
Local Open Scope js_scope.

(** A lookup by username that went through the whole of a list met no
    [null]. *)
Lemma find_none_not_null (username : string) (l : list value) :
  find (username_is username) l = Normal None ->
  Forall (fun x => x <> JNull) l.
Proof.
  induction l as [|x l IH]; intros H; [constructor|].
  cbn [find] in H. unfold username_is at 1 in H.
  destruct (get "username" x) as [y|e] eqn:E; cbn [cbind] in H;
    [|discriminate H].
  destruct (is_string username y); [discriminate H|].
  constructor; [|exact (IH H)].
  intros ->. discriminate E.
Qed.

(** The callback of the local listing throws on [null] only. *)
Lemma user_for_listing_not_null (u : value) :
  u <> JNull -> exists v, user_for_listing u = Normal v.
Proof.
  intros H. unfold user_for_listing.
  destruct u; cbn [get cbind]; eauto. now contradiction H.
Qed.

Lemma map_throwing_not_null (l : list value) :
  Forall (fun x => x <> JNull) l ->
  exists ys, map_throwing user_for_listing l = Normal ys.
Proof.
  induction 1 as [|x l Hx _ [ys IH]]; [now exists []|].
  destruct (user_for_listing_not_null x Hx) as [y Hy].
  exists (y :: ys). cbn [map_throwing]. now rewrite Hy, IH.
Qed.

Lemma map_throwing_last (f : value -> Completion value) (l ys : list value)
      (x y : value) :
  map_throwing f l = Normal ys -> f x = Normal y ->
  map_throwing f (l ++ [x]) = Normal (ys ++ [y]).
Proof.
  revert ys. induction l as [|z l IH]; intros ys Hl Hx.
  - injection Hl as <-. cbn [List.app map_throwing]. now rewrite Hx.
  - cbn [List.app map_throwing] in *.
    destruct (f z) as [z'|e]; [|discriminate Hl].
    destruct (map_throwing f l) as [zs|e]; [|discriminate Hl].
    injection Hl as <-. now rewrite (IH zs eq_refl Hx).
Qed.

(** What the local listing makes of the record of a local signup. *)
Lemma user_for_listing_local_user
      (now : Z) (fullName username email accountType password : string) :
  exists record,
    user_for_listing (local_user now fullName username email accountType password)
    = Normal record
    /\ lists_user now fullName username email accountType record
    /\ get "created_at" record = Normal (Some JNull).
Proof.
  unfold user_for_listing, local_user.
  cbn [get lookup cbind String.eqb Ascii.eqb Bool.eqb].
  eexists. split; [reflexivity|].
  unfold lists_user, or_else. cbn [truthy_opt truthy].
  destruct (String.eqb fullName EmptyString) eqn:Ef;
    destruct (String.eqb accountType EmptyString) eqn:Et;
    cbn [truthy_opt truthy negb object get lookup String.eqb Ascii.eqb Bool.eqb];
    rewrite ?Ef, ?Et;
    cbn [truthy_opt truthy negb object get lookup String.eqb Ascii.eqb Bool.eqb];
    try (apply String.eqb_eq in Ef; subst fullName);
    try (apply String.eqb_eq in Et; subst accountType);
    now repeat split.
Qed.

(** What the backend lists of a row. *)
Lemma select_lists_user (row : users.row) :
  lists_user (users.id row) (users.full_name row) (users.username row)
             (users.email row) (users.account_type row)
             (select listing_columns (users_json_row row)).
Proof.
  unfold lists_user, select, users_json_row, listing_columns.
  cbn [map lookup object get String.eqb Ascii.eqb Bool.eqb].
  now repeat split.
Qed.

(** A listing of the users by the store that holds an account. *)
Lemma listing_of_enrolled
      (fullName username email accountType password : string)
      (res : Response) (w : World) :
  enrolled fullName username email accountType password res w ->
  (supabaseAvailable w = true -> answered w) ->
  exists id records record,
    res = success_user (Some (JNum id)) (Some (JStr username))
                       (Some (JStr accountType))
    /\ fst (serve GET_users w) = json (JArr records)
    /\ In record records
    /\ lists_user id fullName username email accountType record
    /\ (supabaseAvailable w = false ->
        (exists before, records = before ++ [record])
        /\ get "created_at" record = Normal (Some JNull)).
Proof.
  intros He Hans. rewrite Handlers.serve_users_eq. unfold enrolled in He.
  destruct (supabaseAvailable w) eqn:Hon.
  - destruct He as (row & Hrow & Hfull & Hname & Hemail & Htype & _ & ->).
    specialize (Hans eq_refl). unfold answered in Hans.
    exists (users.id row).
    exists (map (fun r => select listing_columns (users_json_row r))
                (order_desc users.created_at (users_table (backend w)))).
    exists (select listing_columns (users_json_row row)).
    split; [reflexivity|]. split.
    { destruct (network w) as [|[|msg] later];
        [reflexivity|reflexivity|contradiction]. }
    split.
    { apply (in_map (fun r => select listing_columns (users_json_row r))).
      apply Reporting.In_order_desc.
      assert (Hin : In row (filter (fun r => String.eqb (users.username r) username)
                                   (users_table (backend w))))
        by (rewrite Hrow; now left).
      now apply filter_In in Hin. }
    split; [|discriminate].
    rewrite <- Hfull, <- Hname, <- Hemail, <- Htype. apply select_lists_user.
  - destruct He as (l & now & Hfile & Hnone & ->).
    unfold collection. rewrite (Accounts.readJson_content _ _ _ _ Hfile).
    cbn [fst]. unfold local_listing. cbn [array_method cbind].
    destruct (map_throwing_not_null l (find_none_not_null _ _ Hnone)) as [ys Hys].
    destruct (user_for_listing_local_user now fullName username email accountType
                                          password)
      as (record & Hrec & Hlists & Hcreated).
    rewrite (map_throwing_last _ _ _ _ _ Hys Hrec). cbn [cbind respond].
    exists now, (ys ++ [record]), record.
    split; [reflexivity|]. split; [reflexivity|].
    split; [apply in_or_app; right; now left|].
    split; [exact Hlists|]. intros _. split; [now exists ys|exact Hcreated].
Qed.

(** X18. Signing up and then listing the users. After a signup that
    succeeded, a listing of the users answered by the store that took the
    account (the backend answering while the flag is on) holds a record of
    it: the identifier the signup answered with, the full name, the
    username, the email and the account type under the names of the
    columns of the table, and no password. From the JSON file that record
    is the last of the listing and its [created_at] is [null]. *)
Theorem signup_then_listed
        (req : SignupBody.t) (w w1 : World) (res : Response) :
  serve (POST_signup req) w = (res, w1) ->
  status res = 200 ->
  (supabaseAvailable w1 = true -> answered w1) ->
  exists fullName username email accountType id records record,
    SignupBody.fullName req = Some fullName
    /\ SignupBody.username req = Some username
    /\ SignupBody.email req = Some email
    /\ SignupBody.accountType req = Some accountType
    /\ res = success_user (Some (JNum id)) (Some (JStr username))
                          (Some (JStr accountType))
    /\ fst (serve GET_users w1) = json (JArr records)
    /\ In record records
    /\ lists_user id fullName username email accountType record
    /\ (supabaseAvailable w1 = false ->
        (exists before, records = before ++ [record])
        /\ get "created_at" record = Normal (Some JNull)).
Proof.
  intros Hs H200 Hans.
  destruct (Accounts.signup_enrols req w w1 res Hs H200)
    as (fullName & username & email & accountType & password
        & Hf & Hu & He & Ht & _ & Henrolled).
  destruct (listing_of_enrolled _ _ _ _ _ _ _ Henrolled Hans)
    as (id & records & record & Hres & Hlist & Hin & Hlists & Hlocal).
  exists fullName, username, email, accountType, id, records, record.
  apply Accounts.nonempty_some in Hf as [-> _].
  apply Accounts.nonempty_some in Hu as [-> _].
  apply Accounts.nonempty_some in He as [-> _].
  apply Accounts.nonempty_some in Ht as [-> _].
  repeat (split; [reflexivity || assumption|]). exact Hlocal.
Qed.

(** X18, at the signup of the specification's scenario on the JSON file,
    and at the same signup sent to a backend that answers. *)
Lemma signup_then_listed_witness :
  let local := boot EmptyString EmptyString None Samples.empty_tables
                    1700000000000 [] [] in
  let hosted := boot "https://project.supabase.co" "anon-key" None
                     Samples.empty_tables 1700000000000 [] [] in
  (status (fst (serve (POST_signup Samples.ann) local)) = 200
   /\ exists records record,
        fst (serve GET_users (snd (serve (POST_signup Samples.ann) local)))
        = json (JArr records)
        /\ In record records
        /\ get "full_name" record = Normal (Some (JStr "Ann"))
        /\ get "password" record = Normal None)
  /\ (status (fst (serve (POST_signup Samples.ann) hosted)) = 200
      /\ exists records record,
           fst (serve GET_users (snd (serve (POST_signup Samples.ann) hosted)))
           = json (JArr records)
           /\ In record records
           /\ get "full_name" record = Normal (Some (JStr "Ann"))
           /\ get "password" record = Normal None).
Proof.
  cbv zeta. split.
  - assert (H200 : status (fst (serve (POST_signup Samples.ann)
                                      (boot EmptyString EmptyString None
                                            Samples.empty_tables 1700000000000
                                            [] []))) = 200) by reflexivity.
    split; [exact H200|].
    destruct (signup_then_listed Samples.ann _ _ _ (surjective_pairing _) H200)
      as (fullName & username & email & accountType & id & records & record
          & [= <-] & _ & _ & _ & _ & Hlist & Hin & Hlists & _).
    { discriminate. }
    exists records, record. split; [exact Hlist|]. split; [exact Hin|].
    split; apply Hlists.
  - assert (H200 : status (fst (serve (POST_signup Samples.ann)
                                      (boot "https://project.supabase.co" "anon-key"
                                            None Samples.empty_tables
                                            1700000000000 [] []))) = 200)
      by reflexivity.
    split; [exact H200|].
    destruct (signup_then_listed Samples.ann _ _ _ (surjective_pairing _) H200)
      as (fullName & username & email & accountType & id & records & record
          & [= <-] & _ & _ & _ & _ & Hlist & Hin & Hlists & _).
    { intros _. exact I. }
    exists records, record. split; [exact Hlist|]. split; [exact Hin|].
    split; apply Hlists.
Defined.

End Listing.
